(** * BSMS (BIP-129) protocol engine of the signing device: shared/bsms.py

    A shallow embedding of [shared/bsms.py] and the properties of its token
    handling, its envelope, its settings write-back and its round functions.

    Conventions of the embedding.
    - A Python [str] is represented by its UTF-8 encoding, which is how the
      MicroPython runtime of the device stores it; [string] is therefore a
      sequence of 8-bit code units.  [bytes] objects are [list byte].
    - Builtins of the runtime ([int(s, base)], [hex], [len], slices,
      [str.split], [str.replace], [bytes.decode] ...) are written out in
      module [Py].
    - Collaborators that live outside [bsms.py] (the [ngu] primitives, the
      chain, the descriptor parser, the wallet store, the card slot, the user)
      are parameters of the sections that use them.
    - Exceptions are an explicit result type; mutable objects shared between
      names (the settings dictionary and its session lists) live in an
      explicit heap. *)

From Stdlib Require Import ZArith String Ascii Strings.Byte List Lia Bool.
From Stdlib Require Import DecimalString HexadecimalString.
From stdpp Require Import gmap strings list.

Open Scope string_scope.
Open Scope Z_scope.

Abbreviation bytes := (list byte).

(* ===================================================================== *)
(** * The runtime: strings, bytes and integers as MicroPython has them    *)
(* ===================================================================== *)

Module Py.

(** ** Code units and characters *)

Definition code (c : ascii) : Z := Z.of_N (N_of_ascii c).

(** [UTF8_IS_CONT]: a continuation byte is [10xxxxxx]. *)
Definition is_cont (c : ascii) : bool := (128 <=? code c) && (code c <? 192).

(** [len(s)] of a str counts characters: the bytes that are not
    continuation bytes ([utf8_charlen]). *)
Fixpoint len (s : string) : nat :=
  match s with
  | EmptyString => O
  | String c s' => if is_cont c then len s' else S (len s')
  end.

(** ** Conversions between [str] and [bytes] *)

(** [bytes(s, "utf-8")] and [s.encode()]: the stored encoding itself. *)
Definition encode (s : string) : bytes := list_byte_of_string s.

(** [utf8_check] of the runtime, a state machine over the number of
    continuation bytes still owed. *)
Fixpoint utf8_check_from (need : Z) (s : string) : bool :=
  match s with
  | EmptyString => need =? 0
  | String c s' =>
      if 0 <? need then
        if is_cont c then utf8_check_from (need - 1) s' else false
      else if 192 <=? code c then
        if 248 <=? code c then false
        else utf8_check_from
               (Z.land (Z.shiftr 229 (Z.land (Z.shiftr (code c) 3) 6)) 3) s'
      else if 128 <=? code c then false
      else utf8_check_from 0 s'
  end.

Definition utf8_check (s : string) : bool := utf8_check_from 0 s.

(** [b.decode()]: [None] stands for the [UnicodeError] it raises. *)
Definition decode (b : bytes) : option string :=
  let s := string_of_list_byte b in
  if utf8_check s then Some s else None.

(** ** Slices, [startswith], [in], [strip], [split], [replace] *)

Fixpoint startswith (s p : string) : bool :=
  match p, s with
  | EmptyString, _ => true
  | String a p', String b s' => if Ascii.eqb a b then startswith s' p' else false
  | String _ _, EmptyString => false
  end.

(** [s[n:]]: drop the first [n] characters, each with its continuation
    bytes. [skip_cont] finishes the character that was cut. *)
Fixpoint skip_cont (s : string) : string :=
  match s with
  | String c s' => if is_cont c then skip_cont s' else s
  | EmptyString => EmptyString
  end.

Fixpoint slice_from (n : nat) (s : string) : string :=
  match n, s with
  | O, _ => s
  | S n', String _ s' => slice_from n' (skip_cont s')
  | S _, EmptyString => EmptyString
  end.

(** the continuation bytes at the head of [s] *)
Fixpoint take_cont (s : string) : string :=
  match s with
  | String c s' => if is_cont c then String c (take_cont s') else EmptyString
  | EmptyString => EmptyString
  end.

(** [s[:n]]: the first [n] characters. *)
Fixpoint slice_to (n : nat) (s : string) : string :=
  match n, s with
  | O, _ => EmptyString
  | S n', String c s' => String c (take_cont s' ++ slice_to n' (skip_cont s'))
  | S _, EmptyString => EmptyString
  end.

(** [s[-n:]] for [n > 0]: the last [n] characters (all of [s] when it has
    fewer). *)
Definition slice_last (n : nat) (s : string) : string :=
  slice_from (len s - n)%nat s.

(** [sub in s] for strings *)
Fixpoint contains (s sub : string) : bool :=
  startswith s sub ||
  match s with
  | EmptyString => false
  | String _ s' => contains s' sub
  end.

(** [unichar_isspace]: space, \t, \n, \v, \f, \r *)
Definition isspace (c : ascii) : bool :=
  (code c =? 32) || ((9 <=? code c) && (code c <=? 13)).

Fixpoint lstrip (s : string) : string :=
  match s with
  | String c s' => if isspace c then lstrip s' else s
  | EmptyString => EmptyString
  end.

Definition rev_string (s : string) : string :=
  string_of_list_ascii (List.rev (list_ascii_of_string s)).

Definition rstrip (s : string) : string := rev_string (lstrip (rev_string s)).

Definition strip (s : string) : string := rstrip (lstrip s).

(** [s.split(sep)] for a one-character separator: always at least one
    field. *)
Fixpoint split_on (sep : ascii) (s : string) : list string :=
  match s with
  | EmptyString => [EmptyString]
  | String c s' =>
      if Ascii.eqb c sep then EmptyString :: split_on sep s'
      else match split_on sep s' with
           | f :: fs => String c f :: fs
           | [] => [String c EmptyString]
           end
  end.

(** [s.replace(old, new)] for a non-empty [old]: leftmost non-overlapping
    occurrences.  [skip] counts the characters of a match still to drop. *)
Fixpoint replace_from (skip : nat) (old new s : string) : string :=
  match skip, s with
  | S k, String _ s' => replace_from k old new s'
  | S _, EmptyString => EmptyString
  | O, EmptyString => EmptyString
  | O, String c s' =>
      if startswith s old
      then new ++ replace_from (String.length old - 1) old new s'
      else String c (replace_from O old new s')
  end.

Definition replace (s old new : string) : string := replace_from O old new s.

(** ** [int(s, base)] and [hex(n)] *)

(** value of a digit in [mp_parse_num_integer]: decimal digits, then letters
    of either case counting from ten *)
Definition digit_value (c : ascii) : option Z :=
  let n := code c in
  if (48 <=? n) && (n <=? 57) then Some (n - 48)
  else if (97 <=? Z.lor n 32) && (Z.lor n 32 <=? 122) then Some (Z.lor n 32 - 97 + 10)
  else None.

(** the digit loop: underscores are skipped, the loop stops at the first
    character that is no digit of the base; [seen] tells whether the loop
    advanced at all.  The runtime reads a number that outgrows a small int
    a second time, as a long int, with a loop that takes no underscore;
    that second pass is not modelled, so that where the runtime raises on
    an underscore in a long number the model reads on. *)
Fixpoint parse_digits (base acc : Z) (seen : bool) (s : string) : Z * bool * string :=
  match s with
  | EmptyString => (acc, seen, EmptyString)
  | String c s' =>
      if Ascii.eqb c "_" then parse_digits base acc true s'
      else match digit_value c with
           | Some d =>
               if d <? base then parse_digits base (acc * base + d) true s'
               else (acc, seen, s)
           | None => (acc, seen, s)
           end
  end.

(** [mp_parse_num_base] for the two bases the program uses: with base 16 a
    leading [0x] or [0X] is skipped. *)
Definition skip_base_prefix (base : Z) (s : string) : string :=
  match s with
  | String c0 (String c1 s') =>
      if (base =? 16) && Ascii.eqb c0 "0" && (Z.lor (code c1) 32 =? 120)
      then s' else s
  | _ => s
  end.

(** [int(s, base)] for [base] 10 or 16; [None] is the [ValueError]. *)
Definition int (s : string) (base : Z) : option Z :=
  let s1 := lstrip s in
  let '(neg, s2) :=
    match s1 with
    | String c s' =>
        if Ascii.eqb c "+" then (false, s')
        else if Ascii.eqb c "-" then (true, s')
        else (false, s1)
    | EmptyString => (false, s1)
    end in
  let s3 := skip_base_prefix base s2 in
  let '(v, seen, rest) := parse_digits base 0 false s3 in
  if negb seen then None
  else match lstrip rest with
       | EmptyString => Some (if neg then - v else v)
       | String _ _ => None
       end.

(** [hex(n)] *)
Definition hex (n : Z) : string :=
  if n <? 0
  then "-0x" ++ HexadecimalString.NilZero.string_of_uint (N.to_hex_uint (Z.to_N (- n)))
  else "0x" ++ HexadecimalString.NilZero.string_of_uint (N.to_hex_uint (Z.to_N n)).

(** ["%d" % n] *)
Definition str_of_int (n : Z) : string :=
  DecimalString.NilZero.string_of_int (Z.to_int n).

(** ** [unhexlify] and [hexlify] *)

Definition hex_nibble (c : ascii) : option Z :=
  match digit_value c with
  | Some d => if d <? 16 then Some d else None
  | None => None
  end.

Definition byte_of_Z (z : Z) : byte :=
  match Byte.of_N (Z.to_N (z mod 256)) with
  | Some b => b
  | None => x00
  end.

(** [a2b_hex] ([unhexlify]): two hex digits per byte; [None] is the
    [ValueError] for an odd length or a character that is no hex digit. *)
Fixpoint a2b_hex (s : string) : option bytes :=
  match s with
  | EmptyString => Some []
  | String h (String l s') =>
      match hex_nibble h, hex_nibble l, a2b_hex s' with
      | Some a, Some b, Some r => Some (byte_of_Z (16 * a + b) :: r)
      | _, _, _ => None
      end
  | String _ EmptyString => None
  end.

Definition hex_char (d : Z) : ascii :=
  ascii_of_N (Z.to_N (if d <? 10 then 48 + d else 87 + d)).

(** [b2a_hex(b).decode()]: lower-case hex digits *)
Fixpoint b2a_hex (b : bytes) : string :=
  match b with
  | [] => EmptyString
  | x :: b' =>
      let n := Z.of_N (Byte.to_N x) in
      String (hex_char (n / 16)) (String (hex_char (n mod 16)) (b2a_hex b'))
  end.

End Py.

(* ===================================================================== *)
(** * Exceptions and results                                              *)
(* ===================================================================== *)

(** The exceptions the module raises or lets through, with their messages. *)
Inductive exn :=
  | ValueError (msg : string)
  | AssertionError (msg : string)
  | IndexError
  | KeyError (key : string)
  | TypeError
  | AttributeError
  | BSMSOutOfSpace
  | CardMissingError
  | Exception (msg : string).

Inductive result (A : Type) :=
  | Ok (a : A)
  | Raised (e : exn).
Arguments Ok {A} a.
Arguments Raised {A} e.

(** truth value of a str: the empty str is false *)
Definition truthy (s : string) : bool := negb (String.eqb s "").

(** [x in [a, b, ...]] *)
Definition str_in (x : string) (l : list string) : bool := existsb (String.eqb x) l.
Definition nat_in (x : nat) (l : list nat) : bool := existsb (Nat.eqb x) l.

(* ===================================================================== *)
(** * Constants                                                            *)
(* ===================================================================== *)

Definition BSMS_VERSION : string := "BSMS 1.0".
Definition ALLOWED_PATH_RESTRICTIONS : string := "/0/*,/1/*".

(** Modelled from the spec: [MAX_SIGNERS] of [public_constants.py], which is
    not part of the sources at hand; the specification bounds the number of
    signers by 15, as do the prompt and the message of the assertion that
    uses the constant. *)
Definition MAX_SIGNERS : Z := 15.

(** Modelled from the spec: the two address formats, native segwit
    (P2WSH) and nested segwit (P2SH-P2WSH), constants of
    [public_constants.py], which is not part of the sources at hand; the
    numbers stand for the constants and only their being distinct matters. *)
Definition AF_P2WSH : Z := 14.
Definition AF_P2WSH_P2SH : Z := 26.

Definition et_map (et : string) : option string :=
  if String.eqb et "1" then Some "STANDARD"
  else if String.eqb et "2" then Some "EXTENDED"
  else if String.eqb et "3" then Some "NO_ENCRYPTION"
  else None.

Definition LF : string := String "010" EmptyString.

(* ===================================================================== *)
(** * Tokens                                                               *)
(* ===================================================================== *)

(** [normalize_token] *)
Definition normalize_token (token_hex : string) : string :=
  if str_in (Py.slice_to 2 token_hex) ["0x"; "0X"]
  then Py.slice_from 2 token_hex
  else token_hex.

(** [validate_token]: returns [None] or raises [ValueError] *)
Definition validate_token (token_hex : string) : result unit :=
  if String.eqb token_hex "00" then Ok tt
  else
    match Py.int token_hex 16 with
    | None => Raised (ValueError ("Invalid token: " ++ token_hex))
    | Some _ =>
        if negb (nat_in (Py.len token_hex) [16; 32]%nat)
        then Raised (ValueError
               "Invalid token length. Expected 64 or 128 bits (16 or 32 hex characters)")
        else Ok tt
    end.

(* ===================================================================== *)
(** * The primitives of [ngu] and [ubinascii]                              *)
(* ===================================================================== *)

(** The cryptographic primitives are compiled code outside the repository's
    Python sources.  The counter-mode cipher is given by its key stream:
    [aes_ctr_keystream key iv i] is the [i]-th byte that a fresh
    [ngu.aes.CTR(key, iv)] object combines with its input.  A str handed to
    a primitive is read through the buffer protocol, as its UTF-8 bytes. *)
Class Ngu := {
  pbkdf2_sha512 : bytes -> bytes -> Z -> bytes;
  sha256s : bytes -> bytes;
  hmac_sha256 : bytes -> bytes -> bytes;
  aes_ctr_keystream : bytes -> bytes -> nat -> byte;
  secp256k1_sign : bytes -> bytes -> Z -> bytes;
  b2a_base64 : bytes -> string
}.

Definition xor_ascii (a b : ascii) : ascii :=
  match a, b with
  | Ascii a0 a1 a2 a3 a4 a5 a6 a7, Ascii b0 b1 b2 b3 b4 b5 b6 b7 =>
      Ascii (xorb a0 b0) (xorb a1 b1) (xorb a2 b2) (xorb a3 b3)
            (xorb a4 b4) (xorb a5 b5) (xorb a6 b6) (xorb a7 b7)
  end.

Definition xor_byte (a b : byte) : byte :=
  byte_of_ascii (xor_ascii (ascii_of_byte a) (ascii_of_byte b)).

(** input bytes combined with the key stream from position [i] on *)
Fixpoint ctr_from (ks : nat -> byte) (i : nat) (data : bytes) : bytes :=
  match data with
  | [] => []
  | b :: data' => xor_byte b (ks i) :: ctr_from ks (S i) data'
  end.

Section Envelope.
Context {NGU : Ngu}.

(** [ngu.aes.CTR(key, iv).cipher(data)] on a fresh cipher object *)
Definition CTR_cipher (key iv data : bytes) : bytes :=
  ctr_from (aes_ctr_keystream key iv) 0 data.

(** [key_derivation_function]: [None] for the sentinel; [a2b_hex] raises
    [ValueError] on what is no hex string *)
Definition key_derivation_function (token_hex : string) : result (option bytes) :=
  if String.eqb token_hex "00" then Ok None
  else
    match Py.a2b_hex token_hex with
    | None => Raised (ValueError "Non-hex digit found")
    | Some salt => Ok (Some (firstn 32 (pbkdf2_sha512 (Py.encode "No SPOF") salt 2048)))
    end.

(** [hmac_key] *)
Definition hmac_key (key : bytes) : bytes := sha256s key.

(** [msg_auth_code] *)
Definition msg_auth_code (key : bytes) (token_hex data : string) : bytes :=
  let msg_str := token_hex ++ data in
  let msg_bytes := Py.encode msg_str in
  hmac_sha256 key msg_bytes.

(** [bsms_decrypt]: the plaintext, or the empty str when decoding fails or
    the prefix is missing *)
Definition bsms_decrypt (key data_bytes : bytes) : string :=
  let mac := firstn 32 data_bytes in
  let ciphertext := skipn 32 data_bytes in
  let iv := firstn 16 mac in
  let decrypted := CTR_cipher key iv ciphertext in
  match Py.decode decrypted with
  | Some plaintext =>
      if negb (Py.startswith plaintext "BSMS") then "" else plaintext
  | None => ""
  end.

(** [bsms_encrypt] *)
Definition bsms_encrypt (key : bytes) (token_hex data_str : string) : bytes :=
  let hmac_k := hmac_key key in
  let mac := msg_auth_code hmac_k token_hex data_str in
  let iv := firstn 16 mac in
  let ciphertext := CTR_cipher key iv (Py.encode data_str) in
  mac ++ ciphertext.

(** ** Message framing *)

(** [signer_data_round1] *)
Definition signer_data_round1 (token_hex desc_type_key key_description : string)
    (sig_bytes : option bytes) : string :=
  let result := BSMS_VERSION ++ LF in
  let result := result ++ (token_hex ++ LF) in
  let result := result ++ (desc_type_key ++ LF) in
  let result := result ++ key_description in
  match sig_bytes with
  | None => result
  | Some sb =>
      let sig := Py.strip (b2a_base64 sb) in
      result ++ (LF ++ sig)
  end.

End Envelope.

(** [coordinator_data_round2] *)
Definition coordinator_data_round2 (desc_template addr path_restrictions : string) : string :=
  let result := BSMS_VERSION ++ LF in
  let result := result ++ (desc_template ++ LF) in
  let result := result ++ (path_restrictions ++ LF) in
  result ++ addr.

(** [summary_tokens]: the tokens numbered from 1, separated by blank lines *)
Fixpoint numbered_tokens (i : Z) (tokens : list string) : list string :=
  match tokens with
  | [] => []
  | token :: rest => (Py.str_of_int i ++ ". " ++ token) :: numbered_tokens (i + 1) rest
  end.

Fixpoint join (sep : string) (l : list string) : string :=
  match l with
  | [] => ""
  | [x] => x
  | x :: rest => x ++ sep ++ join sep rest
  end.

Definition summary_tokens (tokens : list string) : string :=
  join (LF ++ LF) (numbered_tokens 1 tokens).

(** [coordinator_summary]; [et_map[et]] raises [KeyError] *)
Definition coordinator_summary (M N addr_fmt : Z) (et : string) (tokens : list string)
    : result string :=
  let addr_fmt_str := if addr_fmt =? AF_P2WSH then "p2wsh" else "p2sh-p2wsh" in
  match et_map et with
  | None => Raised (KeyError et)
  | Some et_str =>
      let token_summary := summary_tokens tokens in
      let summary := Py.str_of_int M ++ " of " ++ Py.str_of_int N ++ LF ++ LF in
      let summary := summary ++ ("Address format:" ++ LF ++ addr_fmt_str ++ LF ++ LF) in
      let summary := summary ++ ("Encryption type:" ++ LF ++ et_str ++ LF ++ LF) in
      let summary := summary ++ token_summary in
      Ok (match tokens with
          | [] => summary
          | _ :: _ => summary ++ (LF ++ LF)
          end)
  end.

(* ===================================================================== *)
(** * The settings object and its BSMS sub-map                            *)
(* ===================================================================== *)

(** What a session list holds: a signer's token, or a coordinator's tuple
    [(M, N, addr_fmt, et, tokens)]. *)
Inductive session :=
  | SignerSession (token : string)
  | CoordinatorSession (M N addr_fmt : Z) (et : string) (tokens : list string).

(** Python objects that are mutated in place are kept in a heap, and names
    hold their addresses: the BSMS sub-map is a dict object whose values are
    list objects. *)
Abbreviation loc := nat.

(** Modelled from the spec: the persistent settings object of [nvstore.py]
    and [glob.py], which are not part of the sources at hand; it offers
    [get(key, default)], [set(key, value)] and [save()], which either writes
    an image of the current values or raises.  [cur_bsms] is the value kept
    under the key [bsms], [cur_xfp] the one under [xfp]; [flash_bsms] is the
    image of the [bsms] value that the last successful [save()] wrote;
    [save_script] lists how the [save()] calls to come end ([true]: written;
    an exhausted script writes). *)
Record store := {
  lists : gmap loc (list session);
  dicts : gmap loc (gmap string loc);
  next_loc : loc;
  cur_bsms : option loc;
  cur_xfp : option Z;
  flash_bsms : option (gmap string (list session));
  save_script : list bool
}.

Module Settings.

Definition set_lists (st : store) (m : gmap loc (list session)) : store :=
  {| lists := m; dicts := dicts st; next_loc := next_loc st; cur_bsms := cur_bsms st;
     cur_xfp := cur_xfp st; flash_bsms := flash_bsms st; save_script := save_script st |}.

Definition set_dicts (st : store) (m : gmap loc (gmap string loc)) : store :=
  {| lists := lists st; dicts := m; next_loc := next_loc st; cur_bsms := cur_bsms st;
     cur_xfp := cur_xfp st; flash_bsms := flash_bsms st; save_script := save_script st |}.

(** a new list object *)
Definition new_list (l : list session) (st : store) : loc * store :=
  (next_loc st,
   {| lists := <[next_loc st := l]> (lists st); dicts := dicts st;
      next_loc := S (next_loc st); cur_bsms := cur_bsms st; cur_xfp := cur_xfp st;
      flash_bsms := flash_bsms st; save_script := save_script st |}).

(** a new dict object *)
Definition new_dict (d : gmap string loc) (st : store) : loc * store :=
  (next_loc st,
   {| lists := lists st; dicts := <[next_loc st := d]> (dicts st);
      next_loc := S (next_loc st); cur_bsms := cur_bsms st; cur_xfp := cur_xfp st;
      flash_bsms := flash_bsms st; save_script := save_script st |}).

Definition dict_at (st : store) (d : loc) : gmap string loc :=
  default ∅ (dicts st !! d).

Definition list_at (st : store) (l : loc) : list session :=
  default [] (lists st !! l).

(** the contents of a dict object, its lists read through: what a
    serialisation of the object holds *)
Definition image (st : store) (d : loc) : gmap string (list session) :=
  list_at st <$> dict_at st d.

(** Modelled from the spec: [settings.get("bsms", {})] of the settings
    object, which is not part of the sources at hand: the stored dict
    object itself, or the default, a new empty dict *)
Definition get_bsms (st : store) : loc * store :=
  match cur_bsms st with
  | Some d => (d, st)
  | None => new_dict ∅ st
  end.

(** Modelled from the spec: [settings.set("bsms", v)] of the settings
    object *)
Definition set_bsms (v : loc) (st : store) : store :=
  {| lists := lists st; dicts := dicts st; next_loc := next_loc st; cur_bsms := Some v;
     cur_xfp := cur_xfp st; flash_bsms := flash_bsms st; save_script := save_script st |}.

(** Modelled from the spec: [settings.save()] of the settings object; it
    writes the image of the current values, or raises and writes nothing *)
Definition save (st : store) : result unit * store :=
  let written :=
    {| lists := lists st; dicts := dicts st; next_loc := next_loc st;
       cur_bsms := cur_bsms st; cur_xfp := cur_xfp st;
       flash_bsms := image st <$> cur_bsms st;
       save_script := tail (save_script st) |} in
  match save_script st with
  | false :: rest =>
      (Raised (Exception "save failed"),
       {| lists := lists st; dicts := dicts st; next_loc := next_loc st;
          cur_bsms := cur_bsms st; cur_xfp := cur_xfp st;
          flash_bsms := flash_bsms st; save_script := rest |})
  | _ => (Ok tt, written)
  end.

(** [d.copy()]: a new dict object with the same values, the list objects
    shared with [d] *)
Definition dict_copy (d : loc) (st : store) : loc * store :=
  new_dict (dict_at st d) st.

(** [d[who].append(value)] for a key that is present *)
Definition list_append (l : loc) (value : session) (st : store) : store :=
  set_lists st (<[l := (list_at st l ++ [value])%list]> (lists st)).

(** [d[who] = v] *)
Definition dict_setitem (d : loc) (who : string) (v : loc) (st : store) : store :=
  set_dicts st (<[d := <[who := v]> (dict_at st d)]> (dicts st)).

(** position of [l[index]] in a list of length [n]: negative indexes count
    from the end; [None] is the [IndexError] *)
Definition py_position (n : nat) (index : Z) : option nat :=
  let i := if index <? 0 then index + Z.of_nat n else index in
  if (0 <=? i) && (i <? Z.of_nat n) then Some (Z.to_nat i) else None.

(** [l.pop(index)] *)
Definition list_pop (l : loc) (index : Z) (st : store) : result unit * store :=
  match py_position (length (list_at st l)) index with
  | None => (Raised IndexError, st)
  | Some i => (Ok tt, set_lists st (<[l := delete i (list_at st l)]> (lists st)))
  end.

(** Modelled from the spec: [settings.get('xfp', 0)] of the settings
    object *)
Definition get_xfp_or_0 (st : store) : Z := default 0 (cur_xfp st).

(** [l[index]] *)
Definition list_item {A} (l : list A) (index : Z) : result A :=
  match py_position (length l) index with
  | Some i => match l !! i with Some x => Ok x | None => Raised IndexError end
  | None => Raised IndexError
  end.

End Settings.

Module BSMSSettings.

Definition BSMS_SETTINGS : string := "bsms".
Definition BSMS_SIGNER_SETTINGS : string := "s".
Definition BSMS_COORD_SETTINGS : string := "c".

(** [BSMSSettings.save(updated_settings, orig)] *)
Definition save (orig : loc) (st : store) : result unit * store :=
  match Settings.save st with
  | (Ok _, st1) => (Ok tt, st1)
  | (Raised _, st1) =>
      (* back out change; no longer sure of NVRAM state *)
      let st2 := Settings.set_bsms orig st1 in
      let '(_, st3) := Settings.save st2 in
      (Raised BSMSOutOfSpace, st3)
  end.

(** [BSMSSettings.add(who, value)] *)
Definition add (who : string) (value : session) (st : store) : result unit * store :=
  let '(settings_bsms, st) := Settings.get_bsms st in
  let '(orig, st) := Settings.dict_copy settings_bsms st in
  let st :=
    match Settings.dict_at st settings_bsms !! who with
    | Some l => Settings.list_append l value st
    | None =>
        let '(l, st) := Settings.new_list [value] st in
        Settings.dict_setitem settings_bsms who l st
    end in
  let st := Settings.set_bsms settings_bsms st in
  save orig st.

(** [BSMSSettings.delete(who, index)] *)
Definition delete (who : string) (index : Z) (st : store) : result unit * store :=
  let '(settings_bsms, st) := Settings.get_bsms st in
  let '(orig, st) := Settings.dict_copy settings_bsms st in
  match Settings.dict_at st settings_bsms !! who with
  | Some l =>
      match Settings.list_pop l index st with
      | (Raised IndexError, st) => (Ok tt, st)
      | (Raised e, st) => (Raised e, st)
      | (Ok _, st) =>
          let st := Settings.set_bsms settings_bsms st in
          save orig st
      end
  | None => (Ok tt, st)
  end.

Definition signer_add (token_hex : string) : store -> result unit * store :=
  add BSMS_SIGNER_SETTINGS (SignerSession token_hex).

Definition coordinator_add (M N addr_fmt : Z) (et : string) (tokens : list string)
    : store -> result unit * store :=
  add BSMS_COORD_SETTINGS (CoordinatorSession M N addr_fmt et tokens).

Definition signer_delete (index : Z) : store -> result unit * store :=
  delete BSMS_SIGNER_SETTINGS index.

Definition coordinator_delete (index : Z) : store -> result unit * store :=
  delete BSMS_COORD_SETTINGS index.

(** [BSMSSettings.get()], read through to the values: the dict under
    [bsms], or the empty dict *)
Definition get (st : store) : gmap string (list session) :=
  match cur_bsms st with
  | Some d => Settings.image st d
  | None => ∅
  end.

Definition get_signers (st : store) : list session :=
  default [] (get st !! BSMS_SIGNER_SETTINGS).

Definition get_coordinators (st : store) : list session :=
  default [] (get st !! BSMS_COORD_SETTINGS).

End BSMSSettings.

(* ===================================================================== *)
(** * The world of a round, and the monad of the round functions         *)
(* ===================================================================== *)

(** What a round does to the outside, in the order it happens.  Screens
    and the progress bar are left out of the model. *)
Inductive event :=
  | SecretsOpened                                   (* entering stash.SensitiveValues() *)
  | SecretsClosed                                   (* leaving it, on every path *)
  | Signed (digest : bytes)                         (* ngu.secp256k1.sign *)
  | NfcShared (text : string)                       (* NFC.share_text *)
  | FileWritten (fname : string) (content : bytes)  (* open(fname, 'w?').write *)
  | Enrolled (config name : string) (bsms_index : Z) (* maybe_enroll_xpub *)
  | FailureShown (e : exn).                         (* the story of exceptions_handler *)

Record world := {
  settings : store;
  trace : list event;
  rng_calls : nat
}.

(** How a piece of a round function ends: it goes on with a value, the
    function executes [return], or an exception is raised. *)
Inductive flow (A : Type) :=
  | Next (a : A)
  | Returned
  | Throw (e : exn).
Arguments Next {A} a.
Arguments Returned {A}.
Arguments Throw {A} e.

Definition M (A : Type) : Type := world -> flow A * world.

Definition ret {A} (a : A) : M A := fun w => (Next a, w).

Definition bind {A B} (c : M A) (k : A -> M B) : M B :=
  fun w =>
    match c w with
    | (Next a, w') => k a w'
    | (Returned, w') => (Returned, w')
    | (Throw e, w') => (Throw e, w')
    end.

Notation "x <- c ;; k" := (bind c (fun x => k))
  (at level 100, c at next level, right associativity).
Notation "c ;;; k" := (bind c (fun _ => k))
  (at level 100, right associativity).

Definition raise {A} (e : exn) : M A := fun w => (Throw e, w).

(** the [return] statement of the round function *)
Definition return_ {A} : M A := fun w => (Returned, w).

Definition lift {A} (r : result A) : M A :=
  match r with
  | Ok a => ret a
  | Raised e => raise e
  end.

(** [assert cond, msg] *)
Definition assert_ (cond : bool) (msg : string) : M unit :=
  if cond then ret tt else raise (AssertionError msg).

Definition emit (ev : event) : M unit :=
  fun w => (Next tt, {| settings := settings w; trace := (trace w ++ [ev])%list;
                        rng_calls := rng_calls w |}).

(** a call into [BSMSSettings] *)
Definition on_settings {A} (f : store -> result A * store) : M A :=
  fun w =>
    let '(r, st) := f (settings w) in
    let w' := {| settings := st; trace := trace w; rng_calls := rng_calls w |} in
    match r with
    | Ok a => (Next a, w')
    | Raised e => (Throw e, w')
    end.

Definition read_settings {A} (f : store -> A) : M A :=
  fun w => (Next (f (settings w)), w).

(** [with stash.SensitiveValues() as sv: body]: the scope is left, and the
    secrets wiped, however the body ends *)
Definition with_sensitive_values {A} (body : M A) : M A :=
  fun w =>
    let '(_, w1) := emit SecretsOpened w in
    let '(r, w2) := body w1 in
    let '(_, w3) := emit SecretsClosed w2 in
    (r, w3).

(** [try: body except CardMissingError: ...; return  except Exception: ...;
    return]: both handlers show a screen and leave the round function *)
Definition try_card {A} (body : M A) : M A :=
  fun w =>
    match body w with
    | (Throw _, w') => (Returned, w')
    | other => other
    end.

(** [exceptions_handler]: the decorator turns every exception of the round
    into a failure screen; the decorated function itself ends normally *)
Definition exceptions_handler (f : M unit) : world -> world :=
  fun w =>
    match f w with
    | (Throw e, w') => snd (emit (FailureShown e) w')
    | (_, w') => w'
    end.

(** ** Ways to speak about a piece of a round *)

(** the exceptions a piece of a round can end in *)
Definition throws_only {A} (P : exn -> Prop) (c : M A) : Prop :=
  forall w e w', c w = (Throw e, w') -> P e.

(** the trace only grows *)
Definition extends {A} (c : M A) : Prop :=
  forall w, exists evs, trace (snd (c w)) = (trace w ++ evs)%list.

(** the world is left as it is *)
Definition pure {A} (c : M A) : Prop := forall w, snd (c w) = w.

(** what coordinator round 1 can still raise once M and N are accepted *)
Definition after_bounds (e : exn) : Prop :=
  e = AttributeError \/ (exists key, e = KeyError key) \/ e = BSMSOutOfSpace.

(* ===================================================================== *)
(** * Collaborators of the rounds                                         *)
(* ===================================================================== *)

(** the parsed descriptor: [desc_obj.M], [.N], [.addr_fmt], [.keys] with
    one [(xfp, deriv_path, ext_key)] per signer *)
Record descriptor := {
  d_M : Z;
  d_N : Z;
  d_addr_fmt : Z;
  d_keys : list (Z * string * string)
}.

(** [chains.current_chain()], [ngu.hdnode], [stash], [descriptor],
    [multisig], [auth] and [utils]: code outside [bsms.py].  Calls that
    raise on bad input return a [result]. *)
Class Wallet := {
  node : Type;
  b44_cointype : Z;
  slip132_classic_hint : string;
  serialize_public : node -> string;
  hash_message : bytes -> bytes;
  p2sh_address : Z -> bytes -> string;
  derive_path : string -> result node;
  hdnode_privkey : node -> bytes;
  hdnode_deserialize : string -> result node;
  hdnode_derive : node -> Z -> bool -> node;
  descriptor_parse : string -> result descriptor;
  append_checksum : string -> string;
  make_redeem_script : Z -> list node -> Z -> result bytes;
  maybe_enroll_xpub : string -> string -> Z -> result unit;
  xfp2str : Z -> string
}.

(** The channels: NFC, the card slot and its files (SD card or virtual
    disk), the prompts that [utils] builds, and the random number generator.  [random_bytes i n]
    is what the [i]-th call of [ngu.random.bytes] returns when asked for
    [n] bytes; a prompt that is not offered is the empty string. *)
Class Channels := {
  nfc_present : bool;
  export_prompt_builder : string -> string * string;
  import_prompt_builder : string -> string * string;
  card_slot : option bool -> result unit;
  pick_filename : string -> string * string;
  write_file : string -> bytes -> result unit;
  read_text : string -> result string;
  read_bytes : string -> result bytes;
  random_bytes : nat -> nat -> bytes
}.

Section Rounds.
Context {NGU : Ngu} {WALLET : Wallet} {CHANNELS : Channels}.

(** [ngu.random.bytes(n)] *)
Definition ngu_random_bytes (n : nat) : M bytes :=
  fun w => (Next (random_bytes (rng_calls w) n),
            {| settings := settings w; trace := trace w; rng_calls := S (rng_calls w) |}).

(** [with open(fname, mode) as fd: fd.write(data)] *)
Definition write_to (fname : string) (data : bytes) : M unit :=
  lift (write_file fname data) ;;;
  emit (FileWritten fname data).

(** [NFC.share_text(text)]; without NFC the name is [None] *)
Definition NFC_share_text (text : string) : M unit :=
  if nfc_present then emit (NfcShared text) else raise AttributeError.

(* --------------------------------------------------------------------- *)
(** ** Coordinator, round 1                                               *)
(* --------------------------------------------------------------------- *)

(** what the user answers to the prompts of the round, in their order *)
Record cr1_user := {
  cr1_N : Z;                 (* ux_enter_number('No. of signers?(N)', 15) *)
  cr1_M : Z;                 (* ux_enter_number("Threshold? (M)", 15) *)
  cr1_addr_fmt_key : string; (* address format story *)
  cr1_encryption_key : string; (* encryption type story *)
  cr1_summary_key : string;  (* summary story *)
  cr1_export_key : string    (* export prompt *)
}.

(** [for i in range(N): tokens.append(b2a_hex(ngu.random.bytes(16)).decode())] *)
Fixpoint generate_tokens (n : nat) (tokens : list string) : M (list string) :=
  match n with
  | O => ret tokens
  | S n' =>
      b <- ngu_random_bytes 16 ;;
      generate_tokens n' (tokens ++ [Py.b2a_hex b])%list
  end.

(** the loop that writes one [.token] file per token; returns [f_names] *)
Fixpoint write_token_files (tokens : list string) (f_names : list string) : M (list string) :=
  match tokens with
  | [] => ret f_names
  | token :: rest =>
      let f_name := "bsms" ++ "_" ++ Py.slice_to 4 token ++ ".token" in
      let '(fname, nice) := pick_filename f_name in
      write_to fname (Py.encode token) ;;;
      write_token_files rest (f_names ++ [nice])%list
  end.

Definition is_nil {A} (l : list A) : bool :=
  match l with [] => true | _ => false end.

(** [bsms_coordinator_round1], the function under the decorator *)
Definition bsms_coordinator_round1_body (u : cr1_user) : M unit :=
  (* M/N *)
  let N := cr1_N u in
  assert_ ((2 <=? N) && (N <=? MAX_SIGNERS))
          "Number of signers must be in open interval (2..15)" ;;;
  let M_ := cr1_M u in
  assert_ ((1 <=? M_) && (M_ <=? N))
          ("M cannot be bigger than N (" ++ Py.str_of_int N ++ ") or smaller than 1") ;;;
  let ch := cr1_addr_fmt_key u in
  addr_fmt <- (if String.eqb ch "y" then ret AF_P2WSH
               else if String.eqb ch "1" then ret AF_P2WSH_P2SH
               else return_) ;;
  let encryption_type := cr1_encryption_key u in
  (if negb (Py.contains "123" encryption_type) then return_ else ret tt) ;;;
  tokens <- (if String.eqb encryption_type "2" then generate_tokens (Z.to_nat N) []
             else if String.eqb encryption_type "1" then
               b <- ngu_random_bytes 8 ;; ret [Py.b2a_hex b]
             else ret []) ;;
  summary <- lift (coordinator_summary M_ N addr_fmt encryption_type tokens) ;;
  let ch := cr1_summary_key u in
  (if negb (String.eqb ch "y") then return_ else ret tt) ;;;
  let '(prompt, escape) := export_prompt_builder "BSMS token file/s" in
  force_vdisk <-
    (if negb (is_nil tokens) && truthy prompt then
       let ch := cr1_export_key u in
       if String.eqb ch "3" && negb (is_nil tokens) then
         NFC_share_text (summary_tokens tokens) ;;; ret None
       else if String.eqb ch "2" then ret (Some true)
       else if String.eqb ch "1" then ret (Some false)
       else return_
     else ret (Some false)) ;;
  (match force_vdisk with
   | Some fv =>
       if negb (is_nil tokens) then
         try_card (lift (card_slot (Some fv)) ;;;
                   write_token_files tokens [] ;;; ret tt)
       else ret tt
   | None => ret tt
   end) ;;;
  on_settings (BSMSSettings.coordinator_add M_ N addr_fmt encryption_type tokens).

Definition bsms_coordinator_round1 (u : cr1_user) : world -> world :=
  exceptions_handler (bsms_coordinator_round1_body u).

(* --------------------------------------------------------------------- *)
(** ** Signer, round 1                                                    *)
(* --------------------------------------------------------------------- *)

(** what the user answers to the prompts of the round, in their order *)
Record sr1_user := {
  sr1_source_key : string;   (* where the token comes from: '1', '2', '3', '4' *)
  sr1_nfc_token : string;    (* NFC.read_bsms_token() *)
  sr1_manual_key : string;   (* hex '1', decimal '2', unencrypted '3' *)
  sr1_hex_entry : string;    (* ux_spinner_edit("") *)
  sr1_dec_entry : string;    (* ux_input_numbers("", ...) *)
  sr1_token_file : string;   (* file_picker(...): empty when nothing is picked *)
  sr1_confirm_key : string;  (* "Is token correct?" *)
  sr1_af_key : string;       (* address format for the derivation path *)
  sr1_acct_num : Z;          (* ux_enter_number('Account Number:', 9999) or 0 *)
  sr1_desc_key : string;     (* '1' for a custom key description *)
  sr1_custom_desc : string;  (* ux_spinner_edit("", confirm_exit=False) or "" *)
  sr1_export_key : string    (* export prompt *)
}.

(** the round-1 data is a str, or a bytes object once it is encrypted *)
Inductive payload :=
  | Text (s : string)
  | Binary (b : bytes).

(** the answer to the address-format story: the template of the
    derivation path, filled in with coin and account, and the name of the
    format; [None] where the round function returns *)
Definition sr1_path_choice (ch : string) : option ((string -> string -> string) * string) :=
  if String.eqb ch "y" then
    Some (fun coin acct_num => "m/129'/" ++ coin ++ "'/" ++ acct_num ++ "'", "")
  else if String.eqb ch "1" then
    Some (fun coin acct_num => "m/48'/" ++ coin ++ "'/" ++ acct_num ++ "'/2'", " P2WSH")
  else if String.eqb ch "2" then
    Some (fun coin acct_num => "m/48'/" ++ coin ++ "'/" ++ acct_num ++ "'/1'", " P2SH-P2WSH")
  else None.

(** textual key description: the generated one, or the user's *)
Definition sr1_key_description (af_str : string) (u : sr1_user) : string :=
  let acct_num := sr1_acct_num u in
  let key_description := "ColdCard signer" ++ af_str ++ " account " ++ Py.str_of_int acct_num in
  let ch := sr1_desc_key u in
  if String.eqb ch "1" then sr1_custom_desc u else key_description.

(** the first part of the round: obtain [token_hex] *)
Definition sr1_read_token (u : sr1_user) : M string :=
  let ch := sr1_source_key u in
  if String.eqb ch "3" then
    if nfc_present then ret (sr1_nfc_token u) else raise AttributeError
  else if String.eqb ch "2" then
    let ch := sr1_manual_key u in
    if String.eqb ch "1" then ret (sr1_hex_entry u)
    else if String.eqb ch "2" then
      let token_int := sr1_dec_entry u in
      match Py.int token_int 10 with
      | Some n => ret (Py.hex n)
      | None => raise (ValueError ("invalid syntax for integer with base 10"))
      end
    else if String.eqb ch "3" then ret "00"
    else return_
  else if Py.contains "14" ch then
    let force_vdisk := if String.eqb ch "1" then false else true in
    (* pick a likely-looking file. *)
    let fn := sr1_token_file u in
    if negb (truthy fn) then return_
    else
      lift (card_slot (Some force_vdisk)) ;;;
      text <- lift (read_text fn) ;;
      ret (Py.strip text)
  else return_.

(** [bsms_signer_round1], the function under the decorator *)
Definition bsms_signer_round1_body (u : sr1_user) : M unit :=
  token_hex <- sr1_read_token u ;;
  (* will raise, exc catched in decorator, FAILURE msg provided *)
  lift (validate_token token_hex) ;;;
  let token_hex := normalize_token token_hex in
  let is_extended := Nat.eqb (Py.len token_hex) 32 in
  let ch := sr1_confirm_key u in
  (if negb (String.eqb ch "y") then return_ else ret tt) ;;;
  xfp <- read_settings (fun st => xfp2str (Settings.get_xfp_or_0 st)) ;;
  let ch := sr1_af_key u in
  pth <- match sr1_path_choice ch with
         | Some choice => ret choice
         | None => return_
         end ;;
  let pth_template := fst pth in
  let af_str := snd pth in
  let acct_num := sr1_acct_num u in
  let key_description := sr1_key_description af_str u in
  let key_description_len := Py.len key_description in
  assert_ (key_description_len <=? 80)%nat
          ("Description of the key, 80 char maximum (current: "
             ++ Py.str_of_int (Z.of_nat key_description_len) ++ " char)") ;;;
  result_data <-
    with_sensitive_values (
      let dd := pth_template (Py.str_of_int b44_cointype) (Py.str_of_int acct_num) in
      node <- lift (derive_path dd) ;;
      let ext_key := serialize_public node in
      let desc_type_key := "[" ++ xfp ++ Py.slice_from 1 dd ++ "]" ++ ext_key in
      let msg := signer_data_round1 token_hex desc_type_key key_description None in
      let digest := hash_message (Py.encode msg) in
      let sk := hdnode_privkey node in
      emit (Signed digest) ;;;
      let sig := secp256k1_sign sk digest 0 in
      ret (signer_data_round1 token_hex desc_type_key key_description (Some sig))) ;;
  encryption_key <- lift (key_derivation_function token_hex) ;;
  let result_data :=
    match encryption_key with
    | Some (k0 :: k') => Binary (bsms_encrypt (k0 :: k') token_hex result_data)
    | Some [] | None => Text result_data     (* [if encryption_key:] is false *)
    end in
  (* export round 1 file *)
  let '(prompt, escape) := export_prompt_builder "BSMS signer round 1 file" in
  exported <-
    (if truthy prompt then
       let ch := sr1_export_key u in
       if String.eqb ch "3" then
         let text := match result_data with
                     | Binary b => Py.b2a_hex b
                     | Text s => s
                     end in
         NFC_share_text text ;;;
         ret (None, Text text)
       else if String.eqb ch "2" then ret (Some true, result_data)
       else if String.eqb ch "1" then ret (Some false, result_data)
       else return_
     else ret (Some false, result_data)) ;;
  let force_vdisk := fst exported in
  let result_data := snd exported in
  (match force_vdisk with
   | Some fv =>
       let basename := if is_extended then "bsms_sr1" ++ "_" ++ Py.slice_to 4 token_hex
                       else "bsms_sr1" in
       let f_pattern := match encryption_key with
                        | None => basename ++ ".txt"
                        | Some _ => basename ++ ".dat"
                        end in
       (* choose a filename *)
       try_card (lift (card_slot (Some fv)) ;;;
                 let '(fname, nice) := pick_filename f_pattern in
                 write_to fname (match result_data with
                                 | Text s => Py.encode s
                                 | Binary b => b
                                 end))
   | None => ret tt
   end) ;;;
  on_settings (BSMSSettings.signer_add token_hex).

Definition bsms_signer_round1 (u : sr1_user) : world -> world :=
  exceptions_handler (bsms_signer_round1_body u).

(* --------------------------------------------------------------------- *)
(** ** Signer, round 2                                                    *)
(* --------------------------------------------------------------------- *)

Record sr2_user := {
  sr2_import_key : string;       (* import prompt: '1', '2', '3' *)
  sr2_nfc_data : option string;  (* NFC.read_bsms_data() *)
  sr2_template_file : string     (* file_picker(...): empty when nothing is picked *)
}.

(** [key_derivation_function(token)] followed by [bsms_decrypt] and the
    assertion on its result; a [None] key is no buffer *)
Definition sr2_decrypt (token : string) (data_bytes : bytes) : M string :=
  let decrypt_fail_msg := "Decryption with token " ++ Py.slice_to 4 token ++ " failed." in
  encryption_key <- lift (key_derivation_function token) ;;
  match encryption_key with
  | None => raise TypeError
  | Some key =>
      let desc_template_data := bsms_decrypt key data_bytes in
      assert_ (truthy desc_template_data) decrypt_fail_msg ;;;
      ret desc_template_data
  end.

(** the first part of the round: obtain [desc_template_data] over NFC or
    from a file *)
Definition sr2_read_template (token : string) (u : sr2_user) : M string :=
  let is_encrypted := if String.eqb token "00" then false else true in
  let '(prompt, escape) := import_prompt_builder "descriptor template file" in
  got <-
    (if truthy prompt then
       let ch := sr2_import_key u in
       if String.eqb ch "3" then
         if negb nfc_present then raise AttributeError
         else
           match sr2_nfc_data u with
           | None => return_
           | Some desc_template_data =>
               if is_encrypted then
                 match Py.a2b_hex desc_template_data with
                 | None => raise (ValueError "Non-hex digit found")
                 | Some data_bytes =>
                     d <- sr2_decrypt token data_bytes ;; ret (None, d)
                 end
               else ret (None, desc_template_data)
           end
       else if String.eqb ch "1" then ret (Some false, "")
       else ret (Some true, "")
     else ret (Some false, "")) ;;
  match fst got with
  | Some force_vdisk =>
      let fn := sr2_template_file u in
      if negb (truthy fn) then return_
      else
        lift (card_slot (Some force_vdisk)) ;;;
        if is_encrypted then
          desc_template_data <- lift (read_bytes fn) ;;
          sr2_decrypt token desc_template_data
        else lift (read_text fn)
  | None => ret (snd got)
  end.

(** the loop over [desc_obj.keys]: every key must carry the prefix of the
    chain and deserialise; the keys under the device's fingerprint are
    collected *)
Fixpoint sr2_collect (ext_key_prefix : string) (my_xfp : option Z)
    (keys : list (Z * string * string))
    (my_keys : list (string * string)) (nodes : list node)
    : M (list (string * string) * list node) :=
  match keys with
  | [] => ret (my_keys, nodes)
  | (xfp, deriv_path, ext_key) :: rest =>
      assert_ (Py.startswith ext_key ext_key_prefix)
              ("Expected " ++ ext_key_prefix ++ ", got " ++ Py.slice_to 4 ext_key) ;;;
      node <- lift (hdnode_deserialize ext_key) ;;
      let my_keys := if bool_decide (Some xfp = my_xfp)
                     then (my_keys ++ [(deriv_path, ext_key)])%list else my_keys in
      sr2_collect ext_key_prefix my_xfp rest my_keys (nodes ++ [node])%list
  end.

(** [assert cond, msg % xfp2str(my_xfp)]: the message is built only when
    the assertion fails, and [xfp2str] wants an integer *)
Definition assert_xfp (cond : bool) (my_xfp : option Z) (msg : string -> string) : M unit :=
  if cond then ret tt
  else match my_xfp with
       | Some x => raise (AssertionError (msg (xfp2str x)))
       | None => raise TypeError
       end.

(** what the validation of the template hands to the agreement step *)
Record template := {
  t_desc : string;           (* the descriptor with /** expanded, checksummed *)
  t_ms_name : string;
  t_desc_obj : descriptor;
  t_nodes : list node;       (* one node per key, in the order of the descriptor *)
  t_addr : string            (* the address line of the payload *)
}.

(** from "Validating..." to the check of the device's own key; the
    arithmetic of the progress bar, which divides by [desc_obj.N], is left
    out with the bar *)
Definition sr2_validate_template (desc_template_data : string) : M template :=
  let ext_key_prefix := slip132_classic_hint ++ "pub" in
  assert_ (Py.startswith desc_template_data BSMS_VERSION)
          ("Incompatible BSMS version. Need " ++ BSMS_VERSION ++ " got "
             ++ Py.slice_to 9 desc_template_data) ;;;
  match Py.split_on "010" desc_template_data with
  | [version; desc_template; pth_restrictions; addr] =>
      assert_ (String.eqb pth_restrictions ALLOWED_PATH_RESTRICTIONS)
              ("Only '" ++ ALLOWED_PATH_RESTRICTIONS ++ "' allowed as path restrictions. Got "
                 ++ pth_restrictions) ;;;
      let desc := Py.replace desc_template "/**" "/0/*" in
      let desc := if negb (Py.contains desc "#") then append_checksum desc else desc in
      let ms_name := "bsms_" ++ Py.slice_last 4 desc in
      (* will raise ValueError if not sortedmulti( descriptor script type *)
      desc_obj <- lift (descriptor_parse desc) ;;
      my_xfp <- read_settings cur_xfp ;;
      collected <- sr2_collect ext_key_prefix my_xfp (d_keys desc_obj) [] [] ;;
      let my_keys := fst collected in
      let nodes := snd collected in
      let num_my_keys := length my_keys in
      assert_xfp (num_my_keys <=? 1)%nat my_xfp
        (fun x => "Multiple " ++ x ++ " keys in descriptor ("
                    ++ Py.str_of_int (Z.of_nat num_my_keys) ++ ")") ;;;
      assert_xfp (num_my_keys =? 1)%nat my_xfp
        (fun x => "My key " ++ x ++ " missing in descriptor.") ;;;
      match my_keys with
      | [] => raise IndexError
      | (deriv_path, desc_ext_key) :: _ =>
          with_sensitive_values (
            node <- lift (derive_path deriv_path) ;;
            let ext_key := serialize_public node in
            assert_ (String.eqb ext_key desc_ext_key)
                    ("My key " ++ ext_key ++ " missing in descriptor.")) ;;;
          ret {| t_desc := desc; t_ms_name := ms_name; t_desc_obj := desc_obj;
                 t_nodes := nodes; t_addr := addr |}
      end
  | _ => raise (ValueError "wrong number of values to unpack")
  end.

(** the first address: every node derived at the external index 0, the
    redeem script made over the derived nodes, the address in the format of
    the descriptor *)
Definition sr2_first_address (desc_obj : descriptor) (nodes : list node) : result string :=
  let nodes := List.map (fun node => hdnode_derive node 0 false) nodes in
  match make_redeem_script (d_M desc_obj) nodes 0 with
  | Ok script => Ok (p2sh_address (d_addr_fmt desc_obj) script)
  | Raised e => Raised e
  end.

(** the agreement step: the calculated address against the one received *)
Definition sr2_check_address (t : template) : M unit :=
  calc_addr <- lift (sr2_first_address (t_desc_obj t) (t_nodes t)) ;;
  let addr := t_addr t in
  assert_ (String.eqb calc_addr addr)
          ("Address mismatch! Calculated " ++ calc_addr ++ ", got " ++ addr).

(** [try: maybe_enroll_xpub(...) except Exception: <story>] *)
Definition sr2_enroll (t : template) (bsms_settings_index : Z) : M unit :=
  match maybe_enroll_xpub (t_desc t) (t_ms_name t) bsms_settings_index with
  | Ok _ => emit (Enrolled (t_desc t) (t_ms_name t) bsms_settings_index)
  | Raised _ => ret tt
  end.

(** [bsms_signer_round2], the function under the decorator;
    [bsms_settings_index] is [item.arg] *)
Definition bsms_signer_round2_body (bsms_settings_index : Z) (u : sr2_user) : M unit :=
  (* choose correct values based on label (index in signer bsms settings) *)
  signers <- read_settings BSMSSettings.get_signers ;;
  entry <- lift (Settings.list_item signers bsms_settings_index) ;;
  token <- match entry with
           | SignerSession token => ret token
           | CoordinatorSession _ _ _ _ _ => raise TypeError
           end ;;
  desc_template_data <- sr2_read_template token u ;;
  t <- sr2_validate_template desc_template_data ;;
  (* check address is correct *)
  sr2_check_address t ;;;
  sr2_enroll t bsms_settings_index.

Definition bsms_signer_round2 (bsms_settings_index : Z) (u : sr2_user) : world -> world :=
  exceptions_handler (bsms_signer_round2_body bsms_settings_index u).

End Rounds.

(* ===================================================================== *)
(** * Notions of the specification                                        *)
(* ===================================================================== *)

(** a hexadecimal character: 0-9, a-f, A-F *)
Definition is_hex_digit (c : ascii) : bool :=
  let n := Py.code c in
  ((48 <=? n) && (n <=? 57)) || ((97 <=? n) && (n <=? 102)) || ((65 <=? n) && (n <=? 70)).

(** a string that consists purely of hexadecimal characters *)
Fixpoint pure_hex (s : string) : bool :=
  match s with
  | EmptyString => true
  | String c s' => is_hex_digit c && pure_hex s'
  end.

(** valid UTF-8 as RFC 3629 defines it: the shortest form of every code
    point, no surrogate (U+D800 to U+DFFF), nothing above U+10FFFF *)
Definition byte_in (lo hi : Z) (c : ascii) : bool :=
  (lo <=? Py.code c) && (Py.code c <=? hi).

Fixpoint utf8_valid (s : string) : bool :=
  match s with
  | EmptyString => true
  | String c0 s1 =>
      if Py.code c0 <? 128 then utf8_valid s1
      else
        match s1 with
        | EmptyString => false
        | String c1 s2 =>
            if byte_in 194 223 c0 then byte_in 128 191 c1 && utf8_valid s2
            else
              match s2 with
              | EmptyString => false
              | String c2 s3 =>
                  if byte_in 224 239 c0 then
                    (if Py.code c0 =? 224 then byte_in 160 191 c1
                     else if Py.code c0 =? 237 then byte_in 128 159 c1
                     else byte_in 128 191 c1)
                    && byte_in 128 191 c2 && utf8_valid s3
                  else
                    match s3 with
                    | EmptyString => false
                    | String c3 s4 =>
                        if byte_in 240 244 c0 then
                          (if Py.code c0 =? 240 then byte_in 144 191 c1
                           else if Py.code c0 =? 244 then byte_in 128 143 c1
                           else byte_in 128 191 c1)
                          && byte_in 128 191 c2 && byte_in 128 191 c3 && utf8_valid s4
                        else false
                    end
              end
        end
  end.

(** the error kinds of the specification, as the code raises them *)
Definition InvalidTokenLength : exn :=
  ValueError "Invalid token length. Expected 64 or 128 bits (16 or 32 hex characters)".

Definition SignersOutOfRange : exn :=
  AssertionError "Number of signers must be in open interval (2..15)".

Definition ThresholdOutOfRange (N : Z) : exn :=
  AssertionError ("M cannot be bigger than N (" ++ Py.str_of_int N ++ ") or smaller than 1").

Definition InvalidDescription (len : nat) : exn :=
  AssertionError ("Description of the key, 80 char maximum (current: "
                    ++ Py.str_of_int (Z.of_nat len) ++ " char)").

Definition AddressMismatch (calc_addr addr : string) : exn :=
  AssertionError ("Address mismatch! Calculated " ++ calc_addr ++ ", got " ++ addr).

(** the heap is well formed when every object lies below the allocation
    mark, and so does what the [bsms] key and the dict objects refer to *)
Definition below (n : loc) (l : loc) : bool := (l <? n)%nat.

Definition heap_wf (st : store) : bool :=
  forallb (below (next_loc st)) (fst <$> map_to_list (lists st))
  && forallb (below (next_loc st)) (fst <$> map_to_list (dicts st))
  && forallb (fun d => forallb (below (next_loc st)) (snd <$> map_to_list d))
             (snd <$> map_to_list (dicts st))
  && match cur_bsms st with
     | Some d => below (next_loc st) d
     | None => true
     end.

(** what can be observed of the BSMS settings: the sub-map as
    [BSMSSettings.get()] reads it, the image in flash, and the [save()]
    calls not yet made *)
Definition observe (st : store)
    : gmap string (list session) * option (gmap string (list session)) * list bool :=
  (BSMSSettings.get st, flash_bsms st, save_script st).

(* ===================================================================== *)
(** * A small instance of the collaborators, to run the definitions       *)
(* ===================================================================== *)

Module Demo.

(** stand-ins with the shapes of the primitives: digests of the right
    length, a key stream that depends on key, iv and position *)
Definition pad_to (n : nat) (b : bytes) : bytes := firstn n (b ++ repeat x00 n)%list.

Definition demo_stream (key iv : bytes) (i : nat) : byte :=
  xor_byte (nth i key x2a) (nth (i mod 16) iv x17).

#[export] Instance ngu : Ngu := {|
  pbkdf2_sha512 := fun pass salt _ => pad_to 64 (salt ++ pass)%list;
  sha256s := fun b => pad_to 32 (List.rev b);
  hmac_sha256 := fun k m => pad_to 32 (List.map (fun x => xor_byte x x5c) (m ++ k)%list);
  aes_ctr_keystream := demo_stream;
  secp256k1_sign := fun sk digest _ => pad_to 65 (sk ++ digest)%list;
  b2a_base64 := fun b => Py.b2a_hex b ++ LF
|}.

(** a wallet whose nodes are their paths, with two cosigners *)
Definition demo_keys : list (Z * string * string) :=
  [(1, "m/48'/1'/0'/2'", "tpubA"); (2, "m/48'/1'/0'/2'", "tpubB")].

#[export] Instance wallet : Wallet := {|
  node := string;
  b44_cointype := 1;
  slip132_classic_hint := "t";
  serialize_public := fun n => if String.eqb n "m/48'/1'/0'/2'" then "tpubA" else "tpub:" ++ n;
  hash_message := fun b => pad_to 32 b;
  p2sh_address := fun af script => "tb1q" ++ Py.b2a_hex (firstn 4 script);
  derive_path := fun p => Ok p;
  hdnode_privkey := fun n => Py.encode n;
  hdnode_deserialize := fun k => Ok k;
  hdnode_derive := fun n i _ => n ++ "/" ++ Py.str_of_int i;
  descriptor_parse := fun d =>
    if Py.startswith d "wsh(sortedmulti("
    then Ok {| d_M := 2; d_N := 2; d_addr_fmt := AF_P2WSH; d_keys := demo_keys |}
    else Raised (ValueError "Unsupported descriptor");
  append_checksum := fun d => d ++ "#abcdefgh";
  make_redeem_script := fun m nodes i =>
    if (1 <=? m) && (m <=? Z.of_nat (length nodes))
    then Ok (Py.encode (join "," nodes))
    else Raised (AssertionError "M/N");
  maybe_enroll_xpub := fun _ _ _ => Ok tt;
  xfp2str := fun x => Py.str_of_int x
|}.

Definition demo_template : string :=
  coordinator_data_round2 "wsh(sortedmulti(2,[1]tpubA/**,[2]tpubB/**))" "tb1q74707562"
                          ALLOWED_PATH_RESTRICTIONS.

#[export] Instance channels : Channels := {|
  nfc_present := true;
  export_prompt_builder := fun title => ("Press (1) to save " ++ title ++ ", (3) for NFC", "13");
  import_prompt_builder := fun title => ("Press (1) to import " ++ title ++ ", (3) for NFC", "13");
  card_slot := fun _ => Ok tt;
  pick_filename := fun f => ("/sd/" ++ f, f);
  write_file := fun _ _ => Ok tt;
  read_text := fun _ => Ok demo_template;
  read_bytes := fun _ => Ok [];
  random_bytes := fun i n => repeat (Py.byte_of_Z (Z.of_nat i + 161)) n
|}.

Definition token_a : string := "0123456789abcdef".

(** a device that holds one signer session, and whose flash agrees *)
Definition store0 : store := {|
  lists := {[ 1%nat := [SignerSession token_a] ]};
  dicts := {[ 0%nat := {[ "s" := 1%nat ]} ]};
  next_loc := 2%nat;
  cur_bsms := Some 0%nat;
  cur_xfp := Some 1;
  flash_bsms := Some {[ "s" := [SignerSession token_a] ]};
  save_script := []
|}.

(** a device that holds one signer session for an unencrypted setup *)
Definition store1 : store := {|
  lists := {[ 1%nat := [SignerSession "00"] ]};
  dicts := {[ 0%nat := {[ "s" := 1%nat ]} ]};
  next_loc := 2%nat;
  cur_bsms := Some 0%nat;
  cur_xfp := Some 1;
  flash_bsms := Some {[ "s" := [SignerSession "00"] ]};
  save_script := []
|}.

Definition with_script (script : list bool) (st : store) : store :=
  {| lists := lists st; dicts := dicts st; next_loc := next_loc st; cur_bsms := cur_bsms st;
     cur_xfp := cur_xfp st; flash_bsms := flash_bsms st; save_script := script |}.

Definition world0 (st : store) : world := {| settings := st; trace := []; rng_calls := 0 |}.

(** the answers of a user who enters a token by hand and keeps the
    defaults, but for the key description *)
Definition signer1 (token_hex key_description : string) : sr1_user := {|
  sr1_source_key := "2";
  sr1_nfc_token := "";
  sr1_manual_key := "1";
  sr1_hex_entry := token_hex;
  sr1_dec_entry := "";
  sr1_token_file := "";
  sr1_confirm_key := "y";
  sr1_af_key := "1";
  sr1_acct_num := 0;
  sr1_desc_key := "1";
  sr1_custom_desc := key_description;
  sr1_export_key := "3"
|}.

(** the answers of a user who picks the template file from the card *)
Definition signer2 : sr2_user := {|
  sr2_import_key := "1";
  sr2_nfc_data := None;
  sr2_template_file := "bsms_cr2.txt"
|}.

Definition coordinator1 (N M_ : Z) : cr1_user := {|
  cr1_N := N;
  cr1_M := M_;
  cr1_addr_fmt_key := "y";
  cr1_encryption_key := "2";
  cr1_summary_key := "y";
  cr1_export_key := "3"
|}.

(** the answers of a user who types the token as a decimal number *)
Definition signer1_decimal (token_int : string) : sr1_user := {|
  sr1_source_key := "2";
  sr1_nfc_token := "";
  sr1_manual_key := "2";
  sr1_hex_entry := "";
  sr1_dec_entry := token_int;
  sr1_token_file := "";
  sr1_confirm_key := "y";
  sr1_af_key := "y";
  sr1_acct_num := 0;
  sr1_desc_key := "y";
  sr1_custom_desc := "";
  sr1_export_key := "3"
|}.

(** the template of [demo_template] once validated, and the world then *)
Definition template1 : template := {|
  t_desc := "wsh(sortedmulti(2,[1]tpubA/0/*,[2]tpubB/0/*))#abcdefgh";
  t_ms_name := "bsms_efgh";
  t_desc_obj := {| d_M := 2; d_N := 2; d_addr_fmt := AF_P2WSH; d_keys := demo_keys |};
  t_nodes := ["tpubA"; "tpubB"];
  t_addr := "tb1q74707562"
|}.

Definition world2 : world :=
  {| settings := store1; trace := [SecretsOpened; SecretsClosed]; rng_calls := 0 |}.

(** channels over which a template with another address line arrives *)
Definition tampered_template : string :=
  coordinator_data_round2 "wsh(sortedmulti(2,[1]tpubA/**,[2]tpubB/**))" "tb1q00000000"
                          ALLOWED_PATH_RESTRICTIONS.

Definition tampered_channels : Channels := {|
  nfc_present := true;
  export_prompt_builder := fun title => ("", "");
  import_prompt_builder := fun title => ("", "");
  card_slot := fun _ => Ok tt;
  pick_filename := fun f => ("/sd/" ++ f, f);
  write_file := fun _ _ => Ok tt;
  read_text := fun _ => Ok tampered_template;
  read_bytes := fun _ => Ok [];
  random_bytes := fun i n => repeat x00 n
|}.

(** eighty characters *)
Definition eighty : string :=
  "0123456789012345678901234567890123456789" ++ "0123456789012345678901234567890123456789".

End Demo.

(* ===================================================================== *)
(** * Further functions of [bsms.py]                                      *)
(* ===================================================================== *)

Section MoreEnvelope.
Context {NGU : Ngu}.

(** [decrypt_nfc_data]: whatever is raised inside ends in [return], that
    is [None]; a key that is [None] is no buffer for the cipher *)
Definition decrypt_nfc_data (key : option bytes) (data : string) : option string :=
  match Py.a2b_hex data with
  | None => None
  | Some data_bytes =>
      match key with
      | Some k => Some (bsms_decrypt k data_bytes)
      | None => None
      end
  end.

End MoreEnvelope.

(** [bsms_signer_detail]: the story it shows; [int] of an entry that is no
    str is a [TypeError] *)
Definition bsms_signer_detail (item_arg : Z) : M string :=
  signers <- read_settings BSMSSettings.get_signers ;;
  entry <- lift (Settings.list_item signers item_arg) ;;
  match entry with
  | SignerSession token_hex =>
      (* shoulf not raise here, as token is only saved if properly validated *)
      match Py.int token_hex 16 with
      | Some n =>
          let token_dec := Py.str_of_int n in
          ret ("Token HEX:" ++ LF ++ token_hex ++ LF ++ LF ++ "Token decimal:" ++ LF ++ token_dec)
      | None => raise (ValueError "invalid syntax for integer with base 16")
      end
  | CoordinatorSession _ _ _ _ _ => raise TypeError
  end.

(* --------------------------------------------------------------------- *)
(** ** Coordinator, round 2: from the collected round-1 data on           *)
(* --------------------------------------------------------------------- *)

(** What round 2 of the coordinator needs beyond the wallet of the signer:
    [MultisigDescriptor.parse_key_orig_info], [a2b_base64],
    [chains.verify_recover_pubkey] (its second component), [node.pubkey()]
    and [MultisigDescriptor(M, N, keys, addr_fmt)._serialize(int_ext=True)],
    all outside [bsms.py]. *)
Class CoordinatorTools {WALLET : Wallet} := {
  parse_key_orig_info : string -> result (string * string);
  a2b_base64 : string -> result bytes;
  verify_recover_pubkey : bytes -> bytes -> result bytes;
  hdnode_pubkey : node -> bytes;
  descriptor_serialize : Z -> Z -> list (string * string * string) -> Z -> result string
}.

(** [a == b] for bytes objects *)
Definition bytes_eqb (a b : bytes) : bool :=
  String.eqb (string_of_list_byte a) (string_of_list_byte b).

(** the closure [get_token(index)] of [bsms_coordinator_round2] over
    [N], [et] and [tokens] *)
Definition get_token (N : Z) (et : string) (tokens : list string) (index : Z)
    : result string :=
  if (length tokens =? 1)%nat && String.eqb et "1" then Settings.list_item tokens 0
  else if (Z.of_nat (length tokens) =? N) && String.eqb et "2"
       then Settings.list_item tokens index
  else Ok "00".

(** [is_encrypted = et in "12" and tokens], as a truth value *)
Definition cr2_is_encrypted (et : string) (tokens : list string) : bool :=
  Py.contains "12" et && negb (is_nil tokens).

Section CoordinatorRound2.
Context {NGU : Ngu} {WALLET : Wallet} {CHANNELS : Channels} {TOOLS : CoordinatorTools}.

(** one turn of the loop "Validating...": the [i]-th round-1 text is checked
    against the token of its index and against its own signature, and its
    key and node are appended *)
Definition cr2_verify_one (N : Z) (et : string) (tokens : list string)
    (ext_key_prefix : string) (i : Z) (data : string)
    (keys : list (string * string * string)) (nodes : list node)
    : M (list (string * string * string) * list node) :=
  (* i_div_N = (i + 1) / N: a ZeroDivisionError, kept as an Exception with
     its message *)
  (if N =? 0 then raise (Exception "divide by zero") else ret tt) ;;;
  token <- lift (get_token N et tokens i) ;;
  assert_ (Py.startswith data BSMS_VERSION)
          ("Incompatible BSMS version. Need " ++ BSMS_VERSION ++ " got " ++ Py.slice_to 9 data) ;;;
  match Py.split_on "010" (Py.strip data) with
  | [version; tok; key_exp; description; sig] =>
      assert_ (String.eqb tok token)
              ("Token missmatch saved " ++ token ++ ", received from signer " ++ tok) ;;;
      parsed <- lift (parse_key_orig_info key_exp) ;;
      let koi := fst parsed in
      let ext_key := snd parsed in
      let xfp_str := Py.slice_to 8 koi in
      let derivation := "m" ++ Py.slice_from 8 koi in
      assert_ (Py.startswith ext_key ext_key_prefix)
              ("Expected " ++ ext_key_prefix ++ ", got " ++ Py.slice_to 4 ext_key) ;;;
      node <- lift (hdnode_deserialize ext_key) ;;
      let msg := signer_data_round1 token key_exp description None in
      let digest := hash_message (Py.encode msg) in
      sig_bytes <- lift (a2b_base64 sig) ;;
      recovered_pk <- lift (verify_recover_pubkey sig_bytes digest) ;;
      assert_ (bytes_eqb (hdnode_pubkey node) recovered_pk)
              "Recovered key from signature does not equal key provided. Wrong signature?" ;;;
      ret ((keys ++ [(xfp_str, derivation, ext_key)])%list, (nodes ++ [node])%list)
  | _ => raise (ValueError "wrong number of values to unpack")
  end.

(** [for i, data in enumerate(r1_data): ...] *)
Fixpoint cr2_verify_loop (N : Z) (et : string) (tokens : list string)
    (ext_key_prefix : string) (i : Z) (r1_data : list string)
    (keys : list (string * string * string)) (nodes : list node)
    : M (list (string * string * string) * list node) :=
  match r1_data with
  | [] => ret (keys, nodes)
  | data :: rest =>
      step <- cr2_verify_one N et tokens ext_key_prefix i data keys nodes ;;
      cr2_verify_loop N et tokens ext_key_prefix (i + 1) rest (fst step) (snd step)
  end.

(** "Generating...": the descriptor template, the first address and the
    round-2 text *)
Definition cr2_assemble (M_ N addr_fmt : Z) (keys : list (string * string * string))
    (nodes : list node) : M string :=
  desc <- lift (descriptor_serialize M_ N keys addr_fmt) ;;
  let desc := Py.replace desc "<0;1>/*" "**" in
  (* external is always first our coordinating "0/*,1/*" *)
  let nodes := List.map (fun node => hdnode_derive node 0 false) nodes in
  script <- lift (make_redeem_script M_ nodes 0) ;;   (* first address *)
  let addr := p2sh_address addr_fmt script in
  ret (coordinator_data_round2 desc addr ALLOWED_PATH_RESTRICTIONS).

(** [token_key_map[token]] *)
Definition key_of (token_key_map : gmap string bytes) (token : string) : result bytes :=
  match token_key_map !! token with
  | Some key => Ok key
  | None => Raised (KeyError token)
  end.

(** [to_export_generator]: what the generator yields, one element at a
    time; an element that is [Raised] is where the iteration ends *)
Definition to_export_generator (N : Z) (et : string) (tokens : list string)
    (token_key_map : gmap string bytes) (r2_data : string)
    : list (result (option string * payload)) :=
  let encrypted token :=
    match key_of token_key_map token with
    | Ok key => Ok (Some token, Binary (bsms_encrypt key token r2_data))
    | Raised e => Raised e
    end in
  if String.eqb et "3" then [Ok (None, Text r2_data)]          (* NO_ENCRYPTION *)
  else if String.eqb et "1" then                               (* STANDARD *)
    match get_token N et tokens 0 with
    | Ok token => [encrypted token]
    | Raised e => [Raised e]
    end
  else List.map encrypted tokens.                              (* EXTENDED *)

(** the answers of the user during the export *)
Record cr2_user := {
  cr2_export_key : string;       (* export prompt: '1', '2', '3' *)
  cr2_nfc_confirm : nat -> string (* "Exporting data for signer i." *)
}.

(** the NFC export of EXTENDED: one confirmation and one share per token *)
Fixpoint cr2_share_each (u : cr2_user) (token_key_map : gmap string bytes)
    (r2_data : string) (i : nat) (tokens : list string) : M unit :=
  match tokens with
  | [] => ret tt
  | token :: rest =>
      let ch := cr2_nfc_confirm u i in
      (if negb (String.eqb ch "y") then return_ else ret tt) ;;;
      key <- lift (key_of token_key_map token) ;;
      let data := bsms_encrypt key token r2_data in
      NFC_share_text (Py.b2a_hex data) ;;;
      cr2_share_each u token_key_map r2_data (S i) rest
  end.

(** the loop that writes what the generator yields *)
Fixpoint cr2_write_each (et suffix : string)
    (items : list (result (option string * payload))) : M unit :=
  match items with
  | [] => ret tt
  | item :: rest =>
      yielded <- lift item ;;
      let token := fst yielded in
      let data := snd yielded in
      let f_name := "bsms_cr2"
                      ++ (if String.eqb et "2"
                          then "_" ++ Py.slice_to 4 (default "" token) else "")
                      ++ suffix in
      let '(fname, nice) := pick_filename f_name in
      write_to fname (match data with
                      | Text s => Py.encode s
                      | Binary b => b
                      end) ;;;
      cr2_write_each et suffix rest
  end.

(** the export of the round-2 text: over NFC, or to files *)
Definition cr2_export (u : cr2_user) (N : Z) (et : string) (tokens : list string)
    (token_key_map : gmap string bytes) (r2_data : string) : M unit :=
  let is_encrypted := cr2_is_encrypted et tokens in
  let suffix := if is_encrypted then ".dat" else ".txt" in
  let '(prompt, escape) := export_prompt_builder "BSMS descriptor template file/s" in
  force_vdisk <-
    (if truthy prompt then
       let ch := cr2_export_key u in
       if String.eqb ch "3" then
         (if String.eqb et "2" then cr2_share_each u token_key_map r2_data 1%nat tokens
          else if String.eqb et "1" then
            token <- lift (get_token N et tokens 0) ;;
            key <- lift (key_of token_key_map token) ;;
            NFC_share_text (Py.b2a_hex (bsms_encrypt key token r2_data))
          else NFC_share_text r2_data) ;;;
         return_
       else if String.eqb ch "2" then ret true
       else if String.eqb ch "1" then ret false
       else return_
     else ret false) ;;
  try_card (lift (card_slot (Some force_vdisk)) ;;;
            cr2_write_each et suffix (to_export_generator N et tokens token_key_map r2_data)).

(** [bsms_coordinator_round2] from "Validating..." on: the session is
    [BSMSSettings.get_coordinators()[item.arg]], and [r1_data] and
    [token_key_map] are what the collection of the round-1 texts has
    gathered, every key in the map being a bytes object; an entry that is
    no tuple of five does not unpack *)
Definition bsms_coordinator_round2_tail (item_arg : Z) (r1_data : list string)
    (token_key_map : gmap string bytes) (u : cr2_user) : M unit :=
  let ext_key_prefix := slip132_classic_hint ++ "pub" in
  coordinators <- read_settings BSMSSettings.get_coordinators ;;
  entry <- lift (Settings.list_item coordinators item_arg) ;;
  match entry with
  | CoordinatorSession M_ N addr_fmt et tokens =>
      collected <- cr2_verify_loop N et tokens ext_key_prefix 0 r1_data [] [] ;;
      r2_data <- cr2_assemble M_ N addr_fmt (fst collected) (snd collected) ;;
      cr2_export u N et tokens token_key_map r2_data
  | SignerSession _ => raise (ValueError "wrong number of values to unpack")
  end.

(** what the loop "Validating..." has checked of the [i]-th round-1 text
    when it goes on: the token of the session for that index, the key with
    its origin, and the signature over the text without its last line *)
Definition cr2_accepted (N : Z) (et : string) (tokens : list string)
    (ext_key_prefix : string) (i : Z) (data : string)
    (key : string * string * string) (nd : node) : Prop :=
  exists version token key_exp description sig koi sig_bytes,
    N <> 0 /\
    get_token N et tokens i = Ok token /\
    Py.startswith data BSMS_VERSION = true /\
    Py.split_on "010" (Py.strip data) = [version; token; key_exp; description; sig] /\
    parse_key_orig_info key_exp = Ok (koi, snd key) /\
    key = (Py.slice_to 8 koi, "m" ++ Py.slice_from 8 koi, snd key) /\
    Py.startswith (snd key) ext_key_prefix = true /\
    hdnode_deserialize (snd key) = Ok nd /\
    a2b_base64 sig = Ok sig_bytes /\
    verify_recover_pubkey sig_bytes
      (hash_message (Py.encode (signer_data_round1 token key_exp description None)))
      = Ok (hdnode_pubkey nd).

Fixpoint cr2_all_accepted (N : Z) (et : string) (tokens : list string)
    (ext_key_prefix : string) (i : Z) (r1_data : list string)
    (keys : list (string * string * string)) (nodes : list node) : Prop :=
  match r1_data, keys, nodes with
  | [], [], [] => True
  | data :: r1_data', key :: keys', nd :: nodes' =>
      cr2_accepted N et tokens ext_key_prefix i data key nd /\
      cr2_all_accepted N et tokens ext_key_prefix (i + 1) r1_data' keys' nodes'
  | _, _, _ => False
  end.

End CoordinatorRound2.

(* ===================================================================== *)
(** * Further notions                                                      *)
(* ===================================================================== *)

(** a str without a line feed *)
Definition no_lf (s : string) : bool := negb (Py.contains s LF).

(** no two keys of a dict object hold the same list object *)
Definition unshared (st : store) : Prop :=
  forall d m k1 k2 l,
    dicts st !! d = Some m -> m !! k1 = Some l -> m !! k2 = Some l -> k1 = k2.

(** the first [save()] to come fails *)
Definition save_fails (st : store) : bool :=
  match save_script st with
  | false :: _ => true
  | _ => false
  end.

(** the events that round 2 of a signer can cause: it opens and closes the
    secrets, enrolls, and its decorator shows a failure *)
Definition sr2_event (ev : event) : bool :=
  match ev with
  | SecretsOpened | SecretsClosed | Enrolled _ _ _ | FailureShown _ => true
  | Signed _ | NfcShared _ | FileWritten _ _ => false
  end.

(** the events of an export: a text shared over NFC, a file written *)
Definition export_event (ev : event) : bool :=
  match ev with
  | NfcShared _ | FileWritten _ _ => true
  | SecretsOpened | SecretsClosed | Signed _ | Enrolled _ _ _ | FailureShown _ => false
  end.

(** a piece of a round that leaves the settings and the random number
    generator alone and causes only events that are [allowed] *)
Definition confined {A} (allowed : event -> bool) (c : M A) : Prop :=
  forall w,
    settings (snd (c w)) = settings w /\
    rng_calls (snd (c w)) = rng_calls w /\
    exists evs, trace (snd (c w)) = (trace w ++ evs)%list /\ forallb allowed evs = true.

(** the keys of a descriptor under the fingerprint [my_xfp], as
    [(deriv_path, ext_key)] *)
Definition own_keys (my_xfp : option Z) (keys : list (Z * string * string))
    : list (string * string) :=
  List.map (fun key => (snd (fst key), snd key))
           (List.filter (fun key => bool_decide (Some (fst (fst key)) = my_xfp)) keys).

(** a piece of a round that leaves the settings alone *)
Definition keeps_settings {A} (c : M A) : Prop :=
  forall w, settings (snd (c w)) = settings w.

(** a piece of a round that, where it ends normally, has appended [value]
    to the session list [who] *)
Definition appends {A} (who : string) (value : session) (c : M A) : Prop :=
  forall w a w',
    heap_wf (settings w) = true ->
    c w = (Next a, w') ->
    default [] (BSMSSettings.get (settings w') !! who)
      = (default [] (BSMSSettings.get (settings w) !! who) ++ [value])%list.

(** the session a coordinator keeps is well formed *)
Definition coordinator_session_ok (s : session) : Prop :=
  match s with
  | CoordinatorSession M_ N addr_fmt et tokens =>
      1 <= M_ <= N /\ 2 <= N <= 15 /\
      (addr_fmt = AF_P2WSH \/ addr_fmt = AF_P2WSH_P2SH) /\
      ((et = "1" /\ length tokens = 1%nat /\
        Forall (fun t => pure_hex t = true /\ String.length t = 16%nat) tokens) \/
       (et = "2" /\ Z.of_nat (length tokens) = N /\
        Forall (fun t => pure_hex t = true /\ String.length t = 32%nat) tokens) \/
       (et = "3" /\ tokens = []))
  | SignerSession _ => False
  end.

(* ===================================================================== *)
(** * A coordinator for the small instance                                *)
(* ===================================================================== *)

Module DemoCoordinator.

(** the public key of a node is the private key that [Demo.wallet] gives
    to the path of that key *)
Definition demo_pubkey (n : string) : bytes :=
  if String.eqb n "tpubA" then Py.encode "m/48'/1'/0'/2'" else Demo.pad_to 14 (Py.encode n).

(** a key expression is [[origin]key]; signatures of [Demo.ngu] carry the
    private key in front *)
#[export] Instance tools : @CoordinatorTools Demo.wallet :=
  @Build_CoordinatorTools Demo.wallet
    (* parse_key_orig_info *)
    (fun key_exp =>
       match key_exp with
       | String "[" rest =>
           match Py.split_on "]" rest with
           | [koi; ext_key] => Ok (koi, ext_key)
           | _ => Raised (ValueError "Invalid key expression")
           end
       | _ => Raised (ValueError "Key origin info is required")
       end)
    (* a2b_base64 *)
    (fun s =>
       match Py.a2b_hex s with
       | Some b => Ok b
       | None => Raised (ValueError "incorrect padding")
       end)
    (* verify_recover_pubkey *)
    (fun sig digest => Ok (firstn 14 sig))
    (* hdnode_pubkey *)
    demo_pubkey
    (* descriptor_serialize *)
    (fun M_ N keys addr_fmt =>
       Ok ("wsh(sortedmulti(" ++ Py.str_of_int M_ ++ ","
             ++ join "," (List.map (fun key => "[" ++ fst (fst key)
                                                 ++ Py.slice_from 1 (snd (fst key)) ++ "]"
                                                 ++ snd key ++ "/<0;1>/*") keys)
             ++ "))")).

Definition token_b : string := "11111111111111112222222222222222".
Definition token_c : string := "33333333333333334444444444444444".

(** a device that coordinates one two-of-two setup with a token per signer *)
Definition store_c : store := {|
  lists := {[ 1%nat := [CoordinatorSession 2 2 AF_P2WSH "2" [token_b; token_c]] ]};
  dicts := {[ 0%nat := {[ "c" := 1%nat ]} ]};
  next_loc := 2%nat;
  cur_bsms := Some 0%nat;
  cur_xfp := Some 1;
  flash_bsms := Some {[ "c" := [CoordinatorSession 2 2 AF_P2WSH "2" [token_b; token_c]] ]};
  save_script := []
|}.

(** the round-1 text of the signer whose key is at ["m/48'/1'/0'/2'"] *)
Definition key_exp_a : string := "[0f056943/48'/1'/0'/2']tpubA".

Definition signature_a (token : string) : bytes :=
  @secp256k1_sign Demo.ngu (Py.encode "m/48'/1'/0'/2'")
    (@hash_message Demo.wallet
       (Py.encode (@signer_data_round1 Demo.ngu token key_exp_a "ColdCard signer" None))) 0.

Definition round1_text_a (token : string) : string :=
  @signer_data_round1 Demo.ngu token key_exp_a "ColdCard signer" (Some (signature_a token)).

(** and the round-1 text of a second signer, with the key [tpubB] *)
Definition key_exp_b : string := "[aabbccdd/48'/1'/0'/2']tpubB".

Definition signature_b (token : string) : bytes :=
  @secp256k1_sign Demo.ngu (demo_pubkey "tpubB")
    (@hash_message Demo.wallet
       (Py.encode (@signer_data_round1 Demo.ngu token key_exp_b "second signer" None))) 0.

Definition round1_text_b (token : string) : string :=
  @signer_data_round1 Demo.ngu token key_exp_b "second signer" (Some (signature_b token)).

Definition keys_of_tokens : gmap string bytes :=
  {[ token_b := firstn 32 (@pbkdf2_sha512 Demo.ngu (Py.encode "No SPOF")
                             (default [] (Py.a2b_hex token_b)) 2048);
     token_c := firstn 32 (@pbkdf2_sha512 Demo.ngu (Py.encode "No SPOF")
                             (default [] (Py.a2b_hex token_c)) 2048) ]}.

(** what the loop "Validating..." collects from the two texts, the text
    assembled from it, and that text once a signer has validated it *)
Definition collected_keys : list (string * string * string) :=
  [("0f056943", "m/48'/1'/0'/2'", "tpubA"); ("aabbccdd", "m/48'/1'/0'/2'", "tpubB")].

Definition assembled_text : string :=
  coordinator_data_round2
    "wsh(sortedmulti(2,[0f056943/48'/1'/0'/2']tpubA/**,[aabbccdd/48'/1'/0'/2']tpubB/**))"
    "tb1q74707562" ALLOWED_PATH_RESTRICTIONS.

Definition assembled_template : @template Demo.wallet := {|
  t_desc :=
    "wsh(sortedmulti(2,[0f056943/48'/1'/0'/2']tpubA/0/*,[aabbccdd/48'/1'/0'/2']tpubB/0/*))#abcdefgh";
  t_ms_name := "bsms_efgh";
  t_desc_obj := {| d_M := 2; d_N := 2; d_addr_fmt := AF_P2WSH; d_keys := Demo.demo_keys |};
  t_nodes := (["tpubA"; "tpubB"] : list (@node Demo.wallet));
  t_addr := "tb1q74707562"
|}.

Definition user_files : cr2_user := {|
  cr2_export_key := "1";
  cr2_nfc_confirm := fun _ => "y"
|}.

End DemoCoordinator.
(* ===================================================================== *)
(** * Properties                                                          *)
(* ===================================================================== *)

(** ** The runtime on concrete inputs *)

Example py_int_hex_plain : Py.int "00ff" 16 = Some 255.
Proof. reflexivity. Qed.

Example py_int_hex_prefixed : Py.int "0x12345678901234" 16 = Some 5124095575331380.
Proof. reflexivity. Qed.

Example py_int_hex_signed_spaced : Py.int " +0x1_2 " 16 = Some 18.
Proof. reflexivity. Qed.

Example py_int_hex_bad : Py.int "12g4" 16 = None.
Proof. reflexivity. Qed.

Example py_int_empty : Py.int "" 16 = None.
Proof. reflexivity. Qed.

Example py_hex_of_dec : Py.hex 81985529216486895 = "0x123456789abcdef".
Proof. reflexivity. Qed.

Example py_split_lines :
  Py.split_on "010" ("a" ++ LF ++ "b" ++ LF) = ["a"; "b"; ""].
Proof. reflexivity. Qed.

Example py_replace_wild : Py.replace "k1/**,k2/**" "/**" "/0/*" = "k1/0/*,k2/0/*".
Proof. reflexivity. Qed.

Example py_slice_last4 : Py.slice_last 4 "wsh(x)#abcd" = "abcd".
Proof. reflexivity. Qed.

Example py_strip_ws : Py.strip "  ab c " = "ab c".
Proof. reflexivity. Qed.

Example py_unhex : Py.b2a_hex (default [] (Py.a2b_hex "00fFa1")) = "00ffa1".
Proof. reflexivity. Qed.

Example py_len_two_byte_char : Py.len (String "195" (String "169" "a")) = 2%nat.
Proof. reflexivity. Qed.

Example normalize_token_strips : normalize_token "0X00ff" = "00ff".
Proof. reflexivity. Qed.

(** ** Hexadecimal characters and [int(s, 16)] *)

Lemma hex_digit_facts c :
  is_hex_digit c = true ->
  Ascii.eqb c "_" = false /\ Ascii.eqb c "+" = false /\ Ascii.eqb c "-" = false /\
  Py.isspace c = false /\ (Z.lor (Py.code c) 32 =? 120) = false /\
  Py.is_cont c = false /\
  exists d, Py.digit_value c = Some d /\ (d <? 16) = true.
Proof.
  destruct c as [[] [] [] [] [] [] [] []]; intros Hc; vm_compute in Hc;
    try discriminate Hc;
    repeat split; try reflexivity; eexists; split; reflexivity.
Qed.

Lemma parse_digits_pure_hex s :
  pure_hex s = true ->
  forall acc seen, exists v,
    Py.parse_digits 16 acc seen s = (v, seen || negb (String.eqb s ""), "").
Proof.
  induction s as [|c s IH]; intros Hs acc seen.
  - exists acc. simpl. now rewrite orb_false_r.
  - simpl in Hs. apply andb_true_iff in Hs as [Hc Hs].
    destruct (hex_digit_facts c Hc) as (Hu & _ & _ & _ & _ & _ & d & Hd & Hlt).
    cbn [Py.parse_digits]. rewrite Hu, Hd, Hlt.
    destruct (IH Hs (acc * 16 + d) true) as [v Hv].
    exists v. rewrite Hv. cbn. now rewrite orb_true_r.
Qed.

Lemma int_pure_hex s :
  pure_hex s = true -> s <> "" -> is_Some (Py.int s 16).
Proof.
  intros Hs Hne. destruct s as [|c s]; [congruence|].
  pose proof Hs as Hs'. simpl in Hs'. apply andb_true_iff in Hs' as [Hc Hs'].
  destruct (hex_digit_facts c Hc) as (_ & Hp & Hm & Hsp & _ & _ & _).
  unfold Py.int. cbn [Py.lstrip]. rewrite Hsp, Hp, Hm.
  assert (Hpre : Py.skip_base_prefix 16 (String c s) = String c s).
  { destruct s as [|c1 s]; [reflexivity|].
    simpl in Hs'. apply andb_true_iff in Hs' as [Hc1 _].
    destruct (hex_digit_facts c1 Hc1) as (_ & _ & _ & _ & Hx & _).
    unfold Py.skip_base_prefix. rewrite Hx, andb_false_r. reflexivity. }
  rewrite Hpre.
  destruct (parse_digits_pure_hex _ Hs 0 false) as [v Hv]. rewrite Hv.
  cbn. eauto.
Qed.

Lemma len_pure_hex s : pure_hex s = true -> Py.len s = String.length s.
Proof.
  induction s as [|c s IH]; [reflexivity|]. simpl. intros Hs.
  apply andb_true_iff in Hs as [Hc Hs].
  destruct (hex_digit_facts c Hc) as (_ & _ & _ & _ & _ & Hk & _).
  rewrite Hk. f_equal. auto.
Qed.

Lemma nat_in_16_32 n : nat_in n [16; 32]%nat = true <-> (n = 16 \/ n = 32)%nat.
Proof.
  unfold nat_in. cbn [existsb]. rewrite !orb_true_iff, !Nat.eqb_eq.
  intuition (try lia; try discriminate).
Qed.

(** ** Tokens *)

Lemma validate_token_ok_iff T :
  T <> "00" ->
  (validate_token T = Ok tt <->
   is_Some (Py.int T 16) /\ (Py.len T = 16 \/ Py.len T = 32)%nat).
Proof.
  intros Hne. unfold validate_token.
  destruct (String.eqb_spec T "00") as [->|_]; [congruence|].
  destruct (Py.int T 16) as [v|] eqn:Hint.
  - destruct (nat_in (Py.len T) [16; 32]%nat) eqn:Hin; cbn.
    + apply nat_in_16_32 in Hin. split; [eauto|reflexivity].
    + split; [discriminate|]. intros [_ Hl]. apply nat_in_16_32 in Hl. congruence.
  - split; [discriminate|]. intros [[? ?] _]. discriminate.
Qed.

Lemma validate_token_pure_hex T :
  T <> "00" -> pure_hex T = true ->
  (validate_token T = Ok tt <-> (Py.len T = 16 \/ Py.len T = 32)%nat).
Proof.
  intros Hne Hhex. rewrite (validate_token_ok_iff T Hne).
  split; [tauto|]. intros Hl. split; [|exact Hl].
  apply int_pure_hex; [exact Hhex|]. intros ->. cbn in Hl. lia.
Qed.

(** the claim read over the code fails: a string of sixteen characters
    that starts with [0x] is accepted by [validate_token], for [int(s, 16)]
    reads the prefix, yet it does not consist purely of hexadecimal
    characters *)
Lemma validate_token_not_pure_hex :
  ~ (forall T, T <> "00" ->
       (validate_token T = Ok tt <->
        pure_hex T = true /\ (Py.len T = 16 \/ Py.len T = 32)%nat)).
Proof.
  intros Hclaim.
  assert (Hne : "0x12345678901234" <> "00") by discriminate.
  destruct (Hclaim "0x12345678901234" Hne) as [Hto _].
  assert (Hok : validate_token "0x12345678901234" = Ok tt) by reflexivity.
  destruct (Hto Hok) as [Hhex _]. vm_compute in Hhex. discriminate.
Qed.

Lemma prefixed_string_shape p h :
  p = "0x" \/ p = "0X" ->
  exists x, (x = "x" \/ x = "X")%char /\ p ++ h = String "0" (String x h).
Proof.
  intros [-> | ->]; eexists; split; [left|reflexivity|right|reflexivity]; reflexivity.
Qed.

(** C3 on the code: [validate_token] tests for hexadecimal characters with
    [int(token_hex, 16)], which reads a [0x] or [0X] prefix as part of the
    number.  A string of that prefix and 14 or 30 hexadecimal characters
    has 16 or 32 characters and is accepted, though it does not consist
    purely of hexadecimal characters, and [a2b_hex], by which
    [key_derivation_function] reads a token, refuses it. *)
Theorem validate_token_accepts_prefixed (p h : string) :
  p = "0x" \/ p = "0X" ->
  pure_hex h = true ->
  (String.length h = 14 \/ String.length h = 30)%nat ->
  validate_token (p ++ h) = Ok tt /\
  pure_hex (p ++ h) = false /\
  (String.length (p ++ h) = 16 \/ String.length (p ++ h) = 32)%nat /\
  Py.a2b_hex (p ++ h) = None.
Proof.
  intros Hp Hh Hl.
  destruct (prefixed_string_shape p h Hp) as (x & Hx & ->).
  destruct h as [|c h']; [cbn in Hl; lia|].
  destruct (parse_digits_pure_hex _ Hh 0 false) as [v Hv].
  pose proof (len_pure_hex _ Hh) as Hlen.
  split; [|split; [|split]].
  - unfold validate_token.
    assert (Hne : String.eqb (String "0" (String x (String c h'))) "00" = false)
      by (destruct Hx as [-> | ->]; reflexivity).
    rewrite Hne.
    assert (Hint : Py.int (String "0" (String x (String c h'))) 16 = Some v).
    { change (Py.parse_digits 16 0 false (String c h') = (v, true, "")) in Hv.
      unfold Py.int. destruct Hx as [-> | ->]; cbv -[Py.parse_digits];
        rewrite Hv; reflexivity. }
    rewrite Hint.
    assert (Hplen : Py.len (String "0" (String x (String c h')))
                    = S (S (String.length (String c h')))).
    { rewrite <- Hlen. destruct Hx as [-> | ->]; reflexivity. }
    rewrite Hplen. destruct Hl as [-> | ->]; reflexivity.
  - cbn [pure_hex]. destruct Hx as [-> | ->]; reflexivity.
  - cbn [String.length] in *. lia.
  - cbn [Py.a2b_hex]. destruct Hx as [-> | ->]; reflexivity.
Qed.

Lemma validate_token_accepts_prefixed_witness :
  pure_hex "12345678901234" = true /\
  validate_token "0x12345678901234" = Ok tt /\
  pure_hex "0x12345678901234" = false.
Proof.
  assert (Hh : pure_hex "12345678901234" = true) by reflexivity.
  split; [exact Hh|].
  destruct (validate_token_accepts_prefixed "0x" "12345678901234") as (Hv & Hp & _);
    [left; reflexivity|exact Hh|left; reflexivity|].
  split; [exact Hv|exact Hp].
Defined.

(** [int(token_hex, 16)] reads over white space as well: a blank and 15
    hexadecimal characters are accepted, and [a2b_hex] refuses them *)
Example validate_token_accepts_leading_blank :
  validate_token " 123456789abcdef" = Ok tt /\
  pure_hex " 123456789abcdef" = false /\
  Py.a2b_hex " 123456789abcdef" = None.
Proof. repeat split. Qed.

(** where the token consists purely of hexadecimal characters, the code
    is as the specification says *)
Lemma validate_token_on_hex T :
  T <> "00" -> pure_hex T = true ->
  validate_token "00" = Ok tt /\
  (validate_token T = Ok tt <-> (String.length T = 16 \/ String.length T = 32)%nat).
Proof.
  intros Hne Hhex. split; [reflexivity|].
  rewrite <- (len_pure_hex T Hhex). apply validate_token_pure_hex; assumption.
Qed.

(** ** The envelope *)

Lemma xor_ascii_cancel a b : xor_ascii (xor_ascii a b) b = a.
Proof.
  destruct a, b. unfold xor_ascii.
  rewrite !xorb_assoc, !xorb_nilpotent, !xorb_false_r. reflexivity.
Qed.

Lemma xor_byte_cancel a b : xor_byte (xor_byte a b) b = a.
Proof.
  unfold xor_byte. rewrite ascii_of_byte_of_ascii, xor_ascii_cancel.
  apply byte_of_ascii_of_byte.
Qed.

Lemma ctr_from_cancel ks data : forall i, ctr_from ks i (ctr_from ks i data) = data.
Proof.
  induction data as [|b data IH]; intros i; [reflexivity|].
  cbn [ctr_from]. rewrite xor_byte_cancel, IH. reflexivity.
Qed.

Lemma decode_encode s : Py.utf8_check s = true -> Py.decode (Py.encode s) = Some s.
Proof.
  intros Hs. unfold Py.decode, Py.encode.
  rewrite string_of_list_byte_of_string, Hs. reflexivity.
Qed.

Lemma startswith_nonempty s p : p <> "" -> Py.startswith s p = true -> s <> "".
Proof.
  intros Hp Hs ->. destruct p; [congruence|discriminate].
Qed.

(** ** Valid UTF-8 and the check of the runtime *)

Lemma utf8_check_ascii c s :
  (Py.code c <? 128) = true ->
  Py.utf8_check_from 0 (String c s) = Py.utf8_check_from 0 s.
Proof.
  destruct c as [[] [] [] [] [] [] [] []]; intros Hc; vm_compute in Hc;
    try discriminate Hc; reflexivity.
Qed.

Lemma utf8_check_lead2 c s :
  byte_in 194 223 c = true ->
  Py.utf8_check_from 0 (String c s) = Py.utf8_check_from 1 s.
Proof.
  destruct c as [[] [] [] [] [] [] [] []]; intros Hc; vm_compute in Hc;
    try discriminate Hc; reflexivity.
Qed.

Lemma utf8_check_lead3 c s :
  byte_in 224 239 c = true ->
  Py.utf8_check_from 0 (String c s) = Py.utf8_check_from 2 s.
Proof.
  destruct c as [[] [] [] [] [] [] [] []]; intros Hc; vm_compute in Hc;
    try discriminate Hc; reflexivity.
Qed.

Lemma utf8_check_lead4 c s :
  byte_in 240 244 c = true ->
  Py.utf8_check_from 0 (String c s) = Py.utf8_check_from 3 s.
Proof.
  destruct c as [[] [] [] [] [] [] [] []]; intros Hc; vm_compute in Hc;
    try discriminate Hc; reflexivity.
Qed.

Lemma utf8_check_cont c s n :
  0 < n -> Py.is_cont c = true ->
  Py.utf8_check_from n (String c s) = Py.utf8_check_from (n - 1) s.
Proof.
  intros Hn Hc. cbn [Py.utf8_check_from].
  destruct (Z.ltb_spec 0 n); [|lia]. rewrite Hc. reflexivity.
Qed.

Lemma byte_in_cont lo hi c :
  128 <= lo -> hi <= 191 -> byte_in lo hi c = true -> Py.is_cont c = true.
Proof.
  unfold byte_in, Py.is_cont. intros Hlo Hhi Hc.
  apply andb_true_iff in Hc as [H1 H2]. apply Z.leb_le in H1, H2.
  apply andb_true_iff. split; [apply Z.leb_le|apply Z.ltb_lt]; lia.
Qed.

(** what is valid UTF-8 passes the check of the runtime *)
Lemma utf8_valid_check n :
  forall s, (String.length s <= n)%nat -> utf8_valid s = true -> Py.utf8_check s = true.
Proof.
  unfold Py.utf8_check.
  induction n as [|n IH]; intros s Hn Hs.
  - destruct s; [reflexivity|cbn in Hn; lia].
  - destruct s as [|c0 s1]; [reflexivity|].
    cbn [utf8_valid] in Hs. cbn [String.length] in Hn.
    destruct (Py.code c0 <? 128) eqn:H0.
    { rewrite utf8_check_ascii by exact H0. apply IH; [lia|exact Hs]. }
    destruct s1 as [|c1 s2]; [discriminate Hs|]. cbn [String.length] in Hn.
    destruct (byte_in 194 223 c0) eqn:H2.
    { apply andb_true_iff in Hs as [Hc1 Hs].
      rewrite utf8_check_lead2 by exact H2.
      rewrite utf8_check_cont by first [lia | eapply byte_in_cont; [| |exact Hc1]; lia].
      apply IH; [lia|exact Hs]. }
    destruct s2 as [|c2 s3]; [discriminate Hs|]. cbn [String.length] in Hn.
    destruct (byte_in 224 239 c0) eqn:H3.
    { apply andb_true_iff in Hs as [Hs Hrest].
      apply andb_true_iff in Hs as [Hc1 Hc2].
      assert (Hcont1 : Py.is_cont c1 = true).
      { destruct (Py.code c0 =? 224); [|destruct (Py.code c0 =? 237)];
          (eapply byte_in_cont; [| |exact Hc1]; lia). }
      rewrite utf8_check_lead3 by exact H3.
      rewrite utf8_check_cont by first [lia | exact Hcont1].
      rewrite utf8_check_cont by first [lia | eapply byte_in_cont; [| |exact Hc2]; lia].
      apply IH; [lia|exact Hrest]. }
    destruct s3 as [|c3 s4]; [discriminate Hs|]. cbn [String.length] in Hn.
    destruct (byte_in 240 244 c0) eqn:H4; [|discriminate Hs].
    apply andb_true_iff in Hs as [Hs Hrest].
    apply andb_true_iff in Hs as [Hs Hc3].
    apply andb_true_iff in Hs as [Hc1 Hc2].
    assert (Hcont1 : Py.is_cont c1 = true).
    { destruct (Py.code c0 =? 240); [|destruct (Py.code c0 =? 244)];
        (eapply byte_in_cont; [| |exact Hc1]; lia). }
    rewrite utf8_check_lead4 by exact H4.
    rewrite utf8_check_cont by first [lia | exact Hcont1].
    rewrite utf8_check_cont by first [lia | eapply byte_in_cont; [| |exact Hc2]; lia].
    rewrite utf8_check_cont by first [lia | eapply byte_in_cont; [| |exact Hc3]; lia].
    apply IH; [lia|exact Hrest].
Qed.

(** the check of the runtime passes an overlong form, a surrogate and a
    code point above U+10FFFF, none of them valid UTF-8 *)
Example utf8_check_passes_invalid :
  let overlong := string_of_list_byte [xc0; x80] in
  let surrogate := string_of_list_byte [xed; xa0; x80] in
  let too_large := string_of_list_byte [xf5; x80; x80; x80] in
  (Py.utf8_check overlong = true /\ utf8_valid overlong = false) /\
  (Py.utf8_check surrogate = true /\ utf8_valid surrogate = false) /\
  (Py.utf8_check too_large = true /\ utf8_valid too_large = false).
Proof.
  vm_compute. auto.
Qed.

Section EnvelopeProperties.
Context {NGU : Ngu}.

Lemma bsms_decrypt_unfold key mac ct :
  length mac = 32%nat ->
  bsms_decrypt key (mac ++ ct)%list =
  match Py.decode (CTR_cipher key (firstn 16 mac) ct) with
  | Some plaintext => if negb (Py.startswith plaintext "BSMS") then "" else plaintext
  | None => ""
  end.
Proof.
  intros Hl. unfold bsms_decrypt.
  assert (Hmac : firstn 32 (mac ++ ct)%list = mac)
    by (rewrite <- Hl; apply take_app_length).
  assert (Hct : skipn 32 (mac ++ ct)%list = ct)
    by (rewrite <- Hl; apply drop_app_length).
  rewrite Hmac, Hct. reflexivity.
Qed.

(** C5: a plaintext str that begins with "BSMS" comes back from
    [bsms_decrypt] exactly as it went into [bsms_encrypt], for every key and
    every token; the MAC primitive is assumed to return its 32 bytes. *)
Theorem envelope_round_trip (K : bytes) (T pt : string) :
  (forall k m, length (hmac_sha256 k m) = 32%nat) ->
  Py.utf8_check pt = true ->
  Py.startswith pt "BSMS" = true ->
  bsms_decrypt K (bsms_encrypt K T pt) = pt.
Proof.
  intros Hmac Hutf Hpre. unfold bsms_encrypt.
  rewrite bsms_decrypt_unfold by apply Hmac.
  unfold CTR_cipher. rewrite ctr_from_cancel, decode_encode by exact Hutf.
  rewrite Hpre. reflexivity.
Qed.

(** C6, amended: on an input of at least 32 bytes [bsms_decrypt] fails,
    that is returns the empty str, exactly when the bytes recovered by the
    counter mode cipher do not pass the check of the runtime's [decode] or
    do not begin with "BSMS"; otherwise it returns the recovered text.
    That check looks at the shape of lead and continuation bytes only:
    what is valid UTF-8 and begins with "BSMS" is always returned, so that
    a failure means the recovered bytes are not valid UTF-8 or lack the
    prefix, but not the other way round.  The 32 stored MAC bytes matter
    only through their first 16, the iv, and no MAC is computed: the result
    is the same under any primitives that share the cipher. *)
Theorem decrypt_fails_iff_undecodable (K data : bytes) :
  (32 <= length data)%nat ->
  let recovered := CTR_cipher K (firstn 16 data) (skipn 32 data) in
  let text := string_of_list_byte recovered in
  (bsms_decrypt K data = "" <->
     Py.utf8_check text = false \/ Py.startswith text "BSMS" = false) /\
  (bsms_decrypt K data <> "" -> bsms_decrypt K data = text) /\
  (utf8_valid text = true -> Py.startswith text "BSMS" = true ->
     bsms_decrypt K data = text /\ text <> "") /\
  (bsms_decrypt K data = "" ->
     utf8_valid text = false \/ Py.startswith text "BSMS" = false) /\
  (forall mac', length mac' = 32%nat -> firstn 16 mac' = firstn 16 data ->
     bsms_decrypt K (mac' ++ skipn 32 data)%list = bsms_decrypt K data) /\
  (forall other : Ngu,
     @aes_ctr_keystream other = @aes_ctr_keystream NGU ->
     @bsms_decrypt other K data = @bsms_decrypt NGU K data).
Proof.
  intros Hlen recovered text.
  assert (Hiv : firstn 16 (firstn 32 data) = firstn 16 data).
  { rewrite firstn_firstn. reflexivity. }
  assert (Hdec : bsms_decrypt K data =
                 if Py.utf8_check text
                 then if negb (Py.startswith text "BSMS") then "" else text
                 else "").
  { unfold bsms_decrypt. rewrite Hiv. fold recovered. unfold Py.decode. fold text.
    destruct (Py.utf8_check text); reflexivity. }
  assert (Hgood : Py.utf8_check text = true -> Py.startswith text "BSMS" = true ->
                  bsms_decrypt K data = text /\ text <> "").
  { intros Hu Hp. rewrite Hdec, Hu, Hp. split; [reflexivity|].
    eapply startswith_nonempty; [|exact Hp]. discriminate. }
  split; [|split; [|split; [|split; [|split]]]].
  - rewrite Hdec.
    destruct (Py.utf8_check text); [|split; auto].
    destruct (Py.startswith text "BSMS") eqn:Hp; cbn.
    + split.
      * intros Hempty. rewrite Hempty in Hp. discriminate.
      * intros [Hnone|Hfalse]; discriminate.
    + split; auto.
  - rewrite Hdec. destruct (Py.utf8_check text); [|congruence].
    destruct (Py.startswith text "BSMS"); cbn; congruence.
  - intros Hv Hp. apply Hgood; [|exact Hp].
    apply (utf8_valid_check (String.length text)); [lia|exact Hv].
  - intros Hempty.
    destruct (utf8_valid text) eqn:Hv; [|left; reflexivity].
    destruct (Py.startswith text "BSMS") eqn:Hp; [|right; reflexivity].
    exfalso.
    destruct (Hgood (utf8_valid_check (String.length text) text (Nat.le_refl _) Hv)
                    eq_refl) as [Heq Hne].
    apply Hne. rewrite <- Heq. exact Hempty.
  - intros mac' Hl Hfst. rewrite bsms_decrypt_unfold by exact Hl.
    unfold bsms_decrypt. rewrite Hiv, Hfst. reflexivity.
  - intros other Hks. unfold bsms_decrypt, CTR_cipher. rewrite Hks. reflexivity.
Qed.


(** C7: for a token other than the sentinel the key is the first 32 bytes
    of PBKDF2-HMAC-SHA512 under the password "No SPOF", the hex-decoded
    token as salt and 2048 iterations; the MAC key is the SHA-256 of the
    key; the envelope is the MAC of the token followed by the plaintext,
    then the plaintext ciphered under the iv that is the first 16 bytes of
    that MAC; for the sentinel no key is derived.  Each is a function of
    its inputs. *)
Theorem key_and_iv_derivation (T : string) (salt K : bytes) (pt : string) :
  T <> "00" ->
  Py.a2b_hex T = Some salt ->
  key_derivation_function T
    = Ok (Some (firstn 32 (pbkdf2_sha512 (Py.encode "No SPOF") salt 2048))) /\
  hmac_key K = sha256s K /\
  (let mac := hmac_sha256 (sha256s K) (Py.encode (T ++ pt)) in
   let iv := firstn 16 mac in
   bsms_encrypt K T pt = (mac ++ CTR_cipher K iv (Py.encode pt))%list) /\
  key_derivation_function "00" = Ok None.
Proof.
  intros Hne Hsalt. unfold key_derivation_function.
  destruct (String.eqb_spec T "00") as [->|_]; [congruence|].
  rewrite Hsalt. repeat split.
Qed.

End EnvelopeProperties.

Lemma demo_pad_to_length n b : length (Demo.pad_to n b) = n.
Proof.
  unfold Demo.pad_to. rewrite length_firstn, length_app, repeat_length. lia.
Qed.

Lemma envelope_round_trip_witness :
  (forall k m, length (@hmac_sha256 Demo.ngu k m) = 32%nat) /\
  Py.utf8_check Demo.demo_template = true /\
  Py.startswith Demo.demo_template "BSMS" = true /\
  @bsms_decrypt Demo.ngu (Py.encode "a key")
    (@bsms_encrypt Demo.ngu (Py.encode "a key") Demo.token_a Demo.demo_template)
  = Demo.demo_template.
Proof.
  assert (Hmac : forall k m, length (@hmac_sha256 Demo.ngu k m) = 32%nat).
  { intros k m. apply demo_pad_to_length. }
  split; [exact Hmac|]. split; [reflexivity|]. split; [reflexivity|].
  apply (@envelope_round_trip Demo.ngu); [exact Hmac|reflexivity|reflexivity].
Defined.

Lemma decrypt_fails_iff_undecodable_witness :
  (32 <= length (repeat x41 40))%nat /\
  @bsms_decrypt Demo.ngu (Py.encode "a key") (repeat x41 40) = "".
Proof.
  assert (Hlen : (32 <= length (repeat x41 40))%nat) by (vm_compute; lia).
  split; [exact Hlen|].
  destruct (@decrypt_fails_iff_undecodable Demo.ngu (Py.encode "a key") (repeat x41 40) Hlen)
    as (Hiff & _).
  apply Hiff. right. reflexivity.
Defined.

(** C6, as the specification states it, fails: an envelope whose recovered
    bytes are "BSMS" followed by C0 80, the overlong form of the character
    U+0000, is decrypted to that text, which is not valid UTF-8 *)
Lemma decrypt_accepts_invalid_utf8 :
  let K := Py.encode "a key" in
  let mac := repeat x00 32 in
  let plain := [x42; x53; x4d; x53; xc0; x80] in
  let data := (mac ++ @CTR_cipher Demo.ngu K (firstn 16 mac) plain)%list in
  ~ ((32 <= length data)%nat ->
     (@bsms_decrypt Demo.ngu K data = "" <->
        utf8_valid (string_of_list_byte
                      (@CTR_cipher Demo.ngu K (firstn 16 data) (skipn 32 data))) = false \/
        Py.startswith (string_of_list_byte
                         (@CTR_cipher Demo.ngu K (firstn 16 data) (skipn 32 data)))
                      "BSMS" = false)).
Proof.
  intros K mac plain data Hclaim.
  assert (Hlen : (32 <= length data)%nat) by (vm_compute; lia).
  destruct (Hclaim Hlen) as [_ Hfrom].
  assert (Hinvalid : utf8_valid (string_of_list_byte
                       (@CTR_cipher Demo.ngu K (firstn 16 data) (skipn 32 data))) = false)
    by (vm_compute; reflexivity).
  specialize (Hfrom (or_introl Hinvalid)). vm_compute in Hfrom. discriminate Hfrom.
Qed.


Lemma key_and_iv_derivation_witness :
  Demo.token_a <> "00" /\
  Py.a2b_hex Demo.token_a = Some [x01; x23; x45; x67; x89; xab; xcd; xef] /\
  @key_derivation_function Demo.ngu Demo.token_a
    = Ok (Some (firstn 32 (@pbkdf2_sha512 Demo.ngu (Py.encode "No SPOF")
                             [x01; x23; x45; x67; x89; xab; xcd; xef] 2048))).
Proof.
  assert (Hne : Demo.token_a <> "00") by discriminate.
  assert (Hsalt : Py.a2b_hex Demo.token_a = Some [x01; x23; x45; x67; x89; xab; xcd; xef])
    by reflexivity.
  split; [exact Hne|]. split; [exact Hsalt|].
  exact (proj1 (@key_and_iv_derivation Demo.ngu Demo.token_a _ [] "" Hne Hsalt)).
Defined.

(** ** The BSMS settings *)

Lemma py_position_out_of_range n index :
  0 <= index -> Z.of_nat n <= index -> Settings.py_position n index = None.
Proof.
  intros H0 Hn. unfold Settings.py_position.
  destruct (Z.ltb_spec index 0); [lia|].
  destruct (Z.ltb_spec index (Z.of_nat n)); [lia|].
  now rewrite andb_false_r.
Qed.

Lemma dict_at_after_new_dict st m d :
  d <> next_loc st ->
  Settings.dict_at (snd (Settings.new_dict m st)) d = Settings.dict_at st d.
Proof.
  intros Hd. unfold Settings.dict_at, Settings.new_dict. cbn.
  rewrite lookup_insert_ne by congruence. reflexivity.
Qed.

Lemma heap_wf_cur_bsms st d :
  heap_wf st = true -> cur_bsms st = Some d -> d <> next_loc st.
Proof.
  unfold heap_wf. intros Hwf Hd. rewrite Hd in Hwf.
  apply andb_true_iff in Hwf as [_ Hlt]. unfold below in Hlt.
  apply Nat.ltb_lt in Hlt. lia.
Qed.

Lemma image_after_new_dict st m d :
  d <> next_loc st ->
  Settings.image (snd (Settings.new_dict m st)) d = Settings.image st d.
Proof.
  intros Hd. unfold Settings.image. rewrite dict_at_after_new_dict by exact Hd.
  reflexivity.
Qed.

Lemma observe_after_new_dict st m :
  heap_wf st = true ->
  observe (snd (Settings.new_dict m st)) = observe st.
Proof.
  intros Hwf. unfold observe, BSMSSettings.get.
  change (cur_bsms (snd (Settings.new_dict m st))) with (cur_bsms st).
  change (flash_bsms (snd (Settings.new_dict m st))) with (flash_bsms st).
  change (save_script (snd (Settings.new_dict m st))) with (save_script st).
  destruct (cur_bsms st) as [d|] eqn:Hcur; [|reflexivity].
  rewrite image_after_new_dict by (eapply heap_wf_cur_bsms; eauto). reflexivity.
Qed.

(** C10: with an index at or beyond the end of the targeted session list
    (an absent list counts as empty), [BSMSSettings.delete] returns without
    an exception and without a call of [save()], and leaves the BSMS
    sub-map, the image in flash and the value under [bsms] as they were. *)
Theorem delete_out_of_range (st : store) (who : string) (index : Z) :
  heap_wf st = true ->
  0 <= index ->
  Z.of_nat (length (default [] (BSMSSettings.get st !! who))) <= index ->
  fst (BSMSSettings.delete who index st) = Ok tt /\
  observe (snd (BSMSSettings.delete who index st)) = observe st /\
  cur_bsms (snd (BSMSSettings.delete who index st)) = cur_bsms st.
Proof.
  intros Hwf H0 Hlen. unfold BSMSSettings.delete, Settings.get_bsms.
  destruct (cur_bsms st) as [d|] eqn:Hcur.
  - pose proof (heap_wf_cur_bsms st d Hwf Hcur) as Hd.
    unfold Settings.dict_copy.
    pose proof (observe_after_new_dict st (Settings.dict_at st d) Hwf) as Hobs.
    pose proof (dict_at_after_new_dict st (Settings.dict_at st d) d Hd) as Hdict.
    assert (Hcur1 : cur_bsms (snd (Settings.new_dict (Settings.dict_at st d) st))
                    = cur_bsms st) by reflexivity.
    assert (Hlist : forall l,
      Settings.list_at (snd (Settings.new_dict (Settings.dict_at st d) st)) l
      = Settings.list_at st l) by reflexivity.
    destruct (Settings.new_dict (Settings.dict_at st d) st) as [orig st1].
    cbn [snd] in Hobs, Hdict, Hcur1, Hlist.
    rewrite Hdict.
    destruct (Settings.dict_at st d !! who) as [l|] eqn:Hwho;
      [|cbn [fst snd]; rewrite <- Hcur; tauto].
    assert (Hl : BSMSSettings.get st !! who = Some (Settings.list_at st l)).
    { unfold BSMSSettings.get. rewrite Hcur. unfold Settings.image.
      rewrite lookup_fmap, Hwho. reflexivity. }
    assert (Hlen' : Z.of_nat (length (Settings.list_at st l)) <= index)
      by (rewrite Hl in Hlen; exact Hlen).
    unfold Settings.list_pop.
    rewrite Hlist, (py_position_out_of_range _ _ H0 Hlen').
    cbn [fst snd]. rewrite <- Hcur. tauto.
  - unfold Settings.dict_copy. cbn.
    unfold Settings.dict_at. cbn.
    rewrite lookup_insert_ne by lia. rewrite lookup_insert_eq. cbn.
    rewrite lookup_empty. cbn. unfold observe, BSMSSettings.get. cbn.
    rewrite Hcur. auto.
Qed.

Lemma delete_out_of_range_witness :
  heap_wf Demo.store0 = true /\ 0 <= 1 /\
  Z.of_nat (length (default [] (BSMSSettings.get Demo.store0 !! "s"))) <= 1 /\
  fst (BSMSSettings.signer_delete 1 Demo.store0) = Ok tt /\
  BSMSSettings.get_signers (snd (BSMSSettings.signer_delete 1 Demo.store0))
    = [SignerSession Demo.token_a].
Proof.
  assert (Hwf : heap_wf Demo.store0 = true) by (vm_compute; reflexivity).
  assert (H0 : 0 <= 1) by lia.
  assert (Hlen : Z.of_nat (length (default [] (BSMSSettings.get Demo.store0 !! "s"))) <= 1)
    by (vm_compute; discriminate).
  split; [exact Hwf|]. split; [exact H0|]. split; [exact Hlen|].
  destruct (delete_out_of_range Demo.store0 "s" 1 Hwf H0 Hlen) as (Hr & _ & _).
  split; [exact Hr|]. vm_compute. reflexivity.
Defined.

(** the part of the write-back that holds: a failing [save()] always ends
    in [BSMSOutOfSpace] *)
Lemma save_failure_raises orig st rest :
  save_script st = false :: rest ->
  fst (BSMSSettings.save orig st) = Raised BSMSOutOfSpace.
Proof.
  intros Hs. unfold BSMSSettings.save, Settings.save. rewrite Hs. cbn.
  destruct rest as [|[] rest']; reflexivity.
Qed.

(** C2 on the code: the snapshot taken by [add] is a copy of the dict
    only, so the list it holds is the very list that [append] has just
    grown.  With one signer session stored, a first [save()] that fails and
    a second that succeeds, [signer_add] raises [BSMSOutOfSpace] and yet the
    new session is in the sub-map and in flash; likewise a session that
    [signer_delete] removed stays removed. *)
Theorem failed_save_is_not_rolled_back :
  let st := Demo.with_script [false; true] Demo.store0 in
  let added := BSMSSettings.signer_add "fedcba9876543210" st in
  let deleted := BSMSSettings.signer_delete 0 st in
  flash_bsms st = Some {[ "s" := [SignerSession Demo.token_a] ]} /\
  BSMSSettings.get_signers st = [SignerSession Demo.token_a] /\
  fst added = Raised BSMSOutOfSpace /\
  BSMSSettings.get_signers (snd added)
    = [SignerSession Demo.token_a; SignerSession "fedcba9876543210"] /\
  flash_bsms (snd added)
    = Some {[ "s" := [SignerSession Demo.token_a; SignerSession "fedcba9876543210"] ]} /\
  fst deleted = Raised BSMSOutOfSpace /\
  BSMSSettings.get_signers (snd deleted) = [] /\
  flash_bsms (snd deleted) = Some {[ "s" := [] ]}.
Proof.
  vm_compute. repeat split; reflexivity.
Qed.

(** the defect in general: when the key is present, the list that [add]
    grows is shared with the snapshot, so after a failed [save()] the new
    session is still in the sub-map, and a second [save()] that succeeds
    writes it to flash *)
Lemma add_existing_not_restored (st : store) (who : string) (value : session)
    (d l : loc) (second : bool) (rest : list bool) :
  heap_wf st = true ->
  cur_bsms st = Some d ->
  Settings.dict_at st d !! who = Some l ->
  save_script st = false :: second :: rest ->
  fst (BSMSSettings.add who value st) = Raised BSMSOutOfSpace /\
  BSMSSettings.get (snd (BSMSSettings.add who value st)) !! who
    = Some (Settings.list_at st l ++ [value])%list /\
  (second = true ->
   flash_bsms (snd (BSMSSettings.add who value st))
     = Some (BSMSSettings.get (snd (BSMSSettings.add who value st)))).
Proof.
  intros Hwf Hcur Hwho Hscript.
  pose proof (heap_wf_cur_bsms st d Hwf Hcur) as Hd.
  unfold BSMSSettings.add, Settings.get_bsms. rewrite Hcur.
  unfold Settings.dict_copy.
  pose proof (dict_at_after_new_dict st (Settings.dict_at st d) d Hd) as Hdict.
  unfold Settings.new_dict in *. cbn [snd] in Hdict. cbn iota beta.
  rewrite Hdict, Hwho.
  unfold BSMSSettings.save, Settings.save, Settings.set_bsms, Settings.list_append,
    Settings.set_lists.
  cbn [save_script lists dicts next_loc cur_bsms cur_xfp flash_bsms].
  rewrite Hscript. cbn [tail].
  assert (Himg : forall lists',
    lists' = <[l := (Settings.list_at st l ++ [value])%list]> (lists st) ->
    (Settings.image
       {| lists := lists';
          dicts := <[next_loc st := Settings.dict_at st d]> (dicts st);
          next_loc := S (next_loc st); cur_bsms := Some (next_loc st);
          cur_xfp := cur_xfp st; flash_bsms := flash_bsms st; save_script := rest |}
       (next_loc st)) !! who = Some (Settings.list_at st l ++ [value])%list).
  { intros lists' ->. unfold Settings.image, Settings.dict_at, Settings.list_at. cbn.
    rewrite lookup_insert_eq. cbn. rewrite lookup_fmap.
    change (default ∅ (dicts st !! d)) with (Settings.dict_at st d). rewrite Hwho. cbn.
    rewrite lookup_insert_eq. reflexivity. }
  destruct second; cbn [fst snd].
  - split; [reflexivity|]. unfold BSMSSettings.get. cbn [cur_bsms flash_bsms].
    split; [|intros _; reflexivity].
    unfold Settings.image in *. unfold Settings.dict_at, Settings.list_at in *.
    cbn in *. apply Himg. reflexivity.
  - split; [reflexivity|]. unfold BSMSSettings.get. cbn [cur_bsms flash_bsms].
    split; [|discriminate].
    unfold Settings.image in *. unfold Settings.dict_at, Settings.list_at in *.
    cbn in *. apply Himg. reflexivity.
Qed.

Lemma forallb_fst_map_to_list {V} (m : gmap loc V) (n : loc) :
  forallb (below n) (fst <$> map_to_list m) = true <->
  (forall l x, m !! l = Some x -> (l < n)%nat).
Proof.
  rewrite forallb_forall. unfold below. split.
  - intros Hall l x Hl. apply Nat.ltb_lt, Hall.
    apply list_elem_of_In, list_elem_of_fmap. exists (l, x). split; [reflexivity|].
    apply elem_of_map_to_list. exact Hl.
  - intros Hall l Hin. apply list_elem_of_In, list_elem_of_fmap in Hin as ([l' x] & -> & Hin).
    apply elem_of_map_to_list in Hin. apply Nat.ltb_lt. eapply Hall. exact Hin.
Qed.

Lemma forallb_snd_map_to_list {K} `{Countable K} (m : gmap K loc) (n : loc) :
  forallb (below n) (snd <$> map_to_list m) = true <->
  (forall k l, m !! k = Some l -> (l < n)%nat).
Proof.
  rewrite forallb_forall. unfold below. split.
  - intros Hall k l Hl. apply Nat.ltb_lt, Hall.
    apply list_elem_of_In, list_elem_of_fmap. exists (k, l). split; [reflexivity|].
    apply elem_of_map_to_list. exact Hl.
  - intros Hall l Hin. apply list_elem_of_In, list_elem_of_fmap in Hin as ([k l'] & -> & Hin).
    apply elem_of_map_to_list in Hin. apply Nat.ltb_lt. eapply Hall. exact Hin.
Qed.

(** [heap_wf] spelled out *)
Lemma heap_wf_spec st :
  heap_wf st = true <->
  (forall l x, lists st !! l = Some x -> (l < next_loc st)%nat) /\
  (forall d m, dicts st !! d = Some m -> (d < next_loc st)%nat) /\
  (forall d m k l, dicts st !! d = Some m -> m !! k = Some l -> (l < next_loc st)%nat) /\
  (forall d, cur_bsms st = Some d -> (d < next_loc st)%nat).
Proof.
  unfold heap_wf. rewrite !andb_true_iff, !forallb_fst_map_to_list.
  assert (Hvals :
    forallb (fun d => forallb (below (next_loc st)) (snd <$> map_to_list d))
            (snd <$> map_to_list (dicts st)) = true <->
    (forall d m k l, dicts st !! d = Some m -> m !! k = Some l -> (l < next_loc st)%nat)).
  { rewrite forallb_forall. split.
    - intros Hall d m k l Hd Hk.
      assert (Hm : forallb (below (next_loc st)) (snd <$> map_to_list m) = true).
      { apply Hall. apply list_elem_of_In, list_elem_of_fmap. exists (d, m).
        split; [reflexivity|]. apply elem_of_map_to_list. exact Hd. }
      eapply forallb_snd_map_to_list in Hm; eauto.
    - intros Hall m Hin.
      apply list_elem_of_In, list_elem_of_fmap in Hin as ([d m'] & -> & Hin).
      apply elem_of_map_to_list in Hin. apply forallb_snd_map_to_list.
      intros k l Hk. eapply Hall; eauto. }
  rewrite Hvals.
  assert (Hcur : match cur_bsms st with
                 | Some d => below (next_loc st) d
                 | None => true
                 end = true <-> (forall d, cur_bsms st = Some d -> (d < next_loc st)%nat)).
  { destruct (cur_bsms st) as [d|]; unfold below.
    - rewrite Nat.ltb_lt. split; [intros Hd d' [= <-]; exact Hd|auto].
    - split; [discriminate|reflexivity]. }
  rewrite Hcur. tauto.
Qed.

(** where the key is new, the snapshot is a true one: after a failed
    [save()] the sub-map reads as before *)
Lemma add_new_key_restored (st : store) (who : string) (value : session)
    (d : loc) (second : bool) (rest : list bool) :
  heap_wf st = true ->
  cur_bsms st = Some d ->
  Settings.dict_at st d !! who = None ->
  save_script st = false :: second :: rest ->
  fst (BSMSSettings.add who value st) = Raised BSMSOutOfSpace /\
  BSMSSettings.get (snd (BSMSSettings.add who value st)) = BSMSSettings.get st.
Proof.
  intros Hwf Hcur Hwho Hscript.
  pose proof (heap_wf_cur_bsms st d Hwf Hcur) as Hd.
  apply heap_wf_spec in Hwf as (_ & _ & Hvals & _).
  unfold BSMSSettings.add, Settings.get_bsms. rewrite Hcur.
  unfold Settings.dict_copy, Settings.new_dict. cbn iota beta.
  unfold Settings.new_list, Settings.dict_setitem, Settings.set_dicts, Settings.set_bsms.
  unfold Settings.dict_at in *.
  cbn [next_loc lists dicts cur_bsms cur_xfp flash_bsms save_script].
  rewrite ?lookup_insert_ne by congruence.
  rewrite Hwho.
  cbn [next_loc lists dicts cur_bsms cur_xfp flash_bsms save_script]. cbn iota beta.
  rewrite ?lookup_insert_ne by congruence.
  unfold BSMSSettings.save, Settings.save, Settings.set_bsms.
  cbn [save_script lists dicts next_loc cur_bsms cur_xfp flash_bsms].
  rewrite Hscript. cbn [tail].
  assert (Hget : forall st',
    lists st' = <[S (next_loc st) := [value]]> (lists st) ->
    dicts st' = <[d := <[who := S (next_loc st)]> (default ∅ (dicts st !! d))]>
                  (<[next_loc st := default ∅ (dicts st !! d)]> (dicts st)) ->
    cur_bsms st' = Some (next_loc st) ->
    BSMSSettings.get st' = BSMSSettings.get st).
  { intros st' Hl Hds Hc. unfold BSMSSettings.get. rewrite Hc, Hcur.
    unfold Settings.image, Settings.dict_at. rewrite Hds.
    rewrite lookup_insert_ne by congruence. rewrite lookup_insert_eq.
    change (default ∅ (Some (default ∅ (dicts st !! d)))) with (default ∅ (dicts st !! d)).
    apply map_eq. intros k. rewrite !lookup_fmap.
    destruct (default ∅ (dicts st !! d) !! k) as [l|] eqn:Hk; [|reflexivity].
    cbn. f_equal. unfold Settings.list_at. rewrite Hl.
    rewrite lookup_insert_ne; [reflexivity|].
    destruct (dicts st !! d) as [m|] eqn:Hm; [|discriminate Hk].
    cbn in Hk. specialize (Hvals d m k l Hm Hk). lia. }
  destruct second; cbn [fst snd]; (split; [reflexivity|]); apply Hget; reflexivity.
Qed.

(** and the defect once more for [delete] *)
Lemma delete_existing_not_restored (st : store) (who : string) (index : Z)
    (d l : loc) (i : nat) (second : bool) (rest : list bool) :
  heap_wf st = true ->
  cur_bsms st = Some d ->
  Settings.dict_at st d !! who = Some l ->
  Settings.py_position (length (Settings.list_at st l)) index = Some i ->
  save_script st = false :: second :: rest ->
  fst (BSMSSettings.delete who index st) = Raised BSMSOutOfSpace /\
  BSMSSettings.get (snd (BSMSSettings.delete who index st)) !! who
    = Some (delete i (Settings.list_at st l)).
Proof.
  intros Hwf Hcur Hwho Hpos Hscript.
  pose proof (heap_wf_cur_bsms st d Hwf Hcur) as Hd.
  unfold BSMSSettings.delete, Settings.get_bsms. rewrite Hcur.
  unfold Settings.dict_copy.
  pose proof (dict_at_after_new_dict st (Settings.dict_at st d) d Hd) as Hdict.
  unfold Settings.new_dict in *. cbn [snd] in Hdict. cbn iota beta.
  rewrite Hdict, Hwho.
  unfold Settings.list_pop.
  change (Settings.list_at {| lists := lists st; dicts := _; next_loc := _; cur_bsms := _;
                              cur_xfp := _; flash_bsms := _; save_script := _ |} l)
    with (Settings.list_at st l).
  rewrite Hpos.
  unfold BSMSSettings.save, Settings.save, Settings.set_bsms, Settings.set_lists.
  cbn [save_script lists dicts next_loc cur_bsms cur_xfp flash_bsms].
  rewrite Hscript. cbn [tail].
  assert (Himg : forall st',
    lists st' = <[l := delete i (Settings.list_at st l)]> (lists st) ->
    dicts st' = <[next_loc st := Settings.dict_at st d]> (dicts st) ->
    cur_bsms st' = Some (next_loc st) ->
    BSMSSettings.get st' !! who = Some (delete i (Settings.list_at st l))).
  { intros st' Hl Hds Hc. unfold BSMSSettings.get. rewrite Hc.
    unfold Settings.image, Settings.dict_at at 1. rewrite Hds, lookup_insert_eq. cbn.
    rewrite lookup_fmap, Hwho. cbn. unfold Settings.list_at at 1.
    rewrite Hl, lookup_insert_eq. reflexivity. }
  destruct second; cbn [fst snd]; (split; [reflexivity|]); apply Himg; reflexivity.
Qed.

(** ** The heap stays well formed *)

Lemma wf_new_dict st m :
  heap_wf st = true ->
  (forall k l, m !! k = Some l -> (l < next_loc st)%nat) ->
  heap_wf (snd (Settings.new_dict m st)) = true.
Proof.
  rewrite !heap_wf_spec. intros (Hl & Hd & Hv & Hc) Hm. cbn.
  repeat split.
  - intros l x Hx. specialize (Hl l x Hx). lia.
  - intros d m' Hd'. apply lookup_insert_Some in Hd' as [[<- _]|[_ Hd']]; [lia|].
    specialize (Hd d m' Hd'). lia.
  - intros d m' k l Hd' Hk. apply lookup_insert_Some in Hd' as [[<- <-]|[_ Hd']].
    + specialize (Hm k l Hk). lia.
    + specialize (Hv d m' k l Hd' Hk). lia.
  - intros d Hd'. specialize (Hc d Hd'). lia.
Qed.

Lemma wf_new_list st l :
  heap_wf st = true -> heap_wf (snd (Settings.new_list l st)) = true.
Proof.
  rewrite !heap_wf_spec. intros (Hl & Hd & Hv & Hc). cbn.
  repeat split.
  - intros l' x Hx. apply lookup_insert_Some in Hx as [[<- _]|[_ Hx]]; [lia|].
    specialize (Hl l' x Hx). lia.
  - intros d m Hd'. specialize (Hd d m Hd'). lia.
  - intros d m k l' Hd' Hk. specialize (Hv d m k l' Hd' Hk). lia.
  - intros d Hd'. specialize (Hc d Hd'). lia.
Qed.

Lemma wf_set_lists st l x :
  heap_wf st = true -> (l < next_loc st)%nat ->
  heap_wf (Settings.set_lists st (<[l := x]> (lists st))) = true.
Proof.
  rewrite !heap_wf_spec. intros (Hl & Hd & Hv & Hc) Hlt. cbn.
  repeat split; eauto.
  intros l' x' Hx. apply lookup_insert_Some in Hx as [[<- _]|[_ Hx]]; eauto.
Qed.

Lemma wf_dict_setitem st d who v :
  heap_wf st = true -> (d < next_loc st)%nat -> (v < next_loc st)%nat ->
  heap_wf (Settings.dict_setitem d who v st) = true.
Proof.
  rewrite !heap_wf_spec. intros (Hl & Hd & Hv & Hc) Hdlt Hvlt. cbn.
  repeat split; eauto.
  - intros d' m Hd'. apply lookup_insert_Some in Hd' as [[<- _]|[_ Hd']]; eauto.
  - intros d' m k l Hd' Hk. apply lookup_insert_Some in Hd' as [[<- <-]|[_ Hd']]; eauto.
    apply lookup_insert_Some in Hk as [[_ <-]|[_ Hk]]; [exact Hvlt|].
    unfold Settings.dict_at in Hk.
    destruct (dicts st !! d) as [m'|] eqn:Hm'; [|discriminate Hk].
    eapply Hv; eauto.
Qed.

Lemma wf_set_bsms st v :
  heap_wf st = true -> (v < next_loc st)%nat -> heap_wf (Settings.set_bsms v st) = true.
Proof.
  rewrite !heap_wf_spec. intros (Hl & Hd & Hv & Hc) Hlt. cbn.
  repeat split; eauto. intros d [= <-]. exact Hlt.
Qed.

Lemma wf_settings_save st :
  heap_wf st = true -> heap_wf (snd (Settings.save st)) = true.
Proof.
  rewrite !heap_wf_spec. intros Hwf. unfold Settings.save.
  destruct (save_script st) as [|[] rest]; exact Hwf.
Qed.

Lemma next_loc_settings_save st : next_loc (snd (Settings.save st)) = next_loc st.
Proof. unfold Settings.save. destruct (save_script st) as [|[] rest]; reflexivity. Qed.

Lemma wf_bsms_save orig st :
  heap_wf st = true -> (orig < next_loc st)%nat ->
  heap_wf (snd (BSMSSettings.save orig st)) = true.
Proof.
  intros Hwf Horig. unfold BSMSSettings.save.
  pose proof (wf_settings_save st Hwf) as Hwf1.
  pose proof (next_loc_settings_save st) as Hn1.
  destruct (Settings.save st) as [[[]|e] st1]; cbn [snd] in *; [exact Hwf1|].
  assert (Hwf2 : heap_wf (Settings.set_bsms orig st1) = true)
    by (apply wf_set_bsms; [exact Hwf1|lia]).
  pose proof (wf_settings_save _ Hwf2) as Hwf3.
  destruct (Settings.save (Settings.set_bsms orig st1)) as [r3 st3]. exact Hwf3.
Qed.

Lemma wf_dict_values st d k l :
  heap_wf st = true -> Settings.dict_at st d !! k = Some l -> (l < next_loc st)%nat.
Proof.
  rewrite heap_wf_spec. intros (_ & _ & Hv & _) Hk. unfold Settings.dict_at in Hk.
  destruct (dicts st !! d) as [m|] eqn:Hm; [|discriminate Hk].
  eapply Hv; eauto.
Qed.

Lemma wf_get_bsms st :
  heap_wf st = true ->
  heap_wf (snd (Settings.get_bsms st)) = true /\
  (fst (Settings.get_bsms st) < next_loc (snd (Settings.get_bsms st)))%nat.
Proof.
  intros Hwf. unfold Settings.get_bsms.
  destruct (cur_bsms st) as [d|] eqn:Hcur; cbn [fst snd].
  - split; [exact Hwf|]. apply heap_wf_spec in Hwf as (_ & _ & _ & Hc). eauto.
  - split; [|cbn; lia]. apply wf_new_dict; [exact Hwf|].
    intros k l Hk. rewrite lookup_empty in Hk. discriminate.
Qed.

(** [add] and [delete] keep the heap well formed, whatever [save()] does *)
Lemma add_preserves_heap_wf who value st :
  heap_wf st = true -> heap_wf (snd (BSMSSettings.add who value st)) = true.
Proof.
  intros Hwf. unfold BSMSSettings.add.
  destruct (wf_get_bsms st Hwf) as [Hwf1 Hd1].
  destruct (Settings.get_bsms st) as [settings_bsms st1]. cbn [fst snd] in *.
  unfold Settings.dict_copy.
  assert (Hwf2 : heap_wf (snd (Settings.new_dict (Settings.dict_at st1 settings_bsms) st1))
                 = true).
  { apply wf_new_dict; [exact Hwf1|]. intros k l Hk. eapply wf_dict_values; eauto. }
  assert (Hdict : Settings.dict_at
                    (snd (Settings.new_dict (Settings.dict_at st1 settings_bsms) st1))
                    settings_bsms = Settings.dict_at st1 settings_bsms)
    by (apply dict_at_after_new_dict; lia).
  assert (Hn2 : next_loc (snd (Settings.new_dict (Settings.dict_at st1 settings_bsms) st1))
                = S (next_loc st1)) by reflexivity.
  assert (Horig : fst (Settings.new_dict (Settings.dict_at st1 settings_bsms) st1)
                  = next_loc st1) by reflexivity.
  destruct (Settings.new_dict (Settings.dict_at st1 settings_bsms) st1) as [orig st2].
  cbn [fst snd] in *. subst orig. rewrite Hdict.
  destruct (Settings.dict_at st1 settings_bsms !! who) as [l|] eqn:Hwho.
  - apply wf_bsms_save.
    + apply wf_set_bsms; [|cbn; lia]. unfold Settings.list_append.
      apply wf_set_lists; [exact Hwf2|].
      pose proof (wf_dict_values st1 settings_bsms who l Hwf1 Hwho). lia.
    + cbn. lia.
  - pose proof (wf_new_list st2 [value] Hwf2) as Hwf3.
    assert (Hn3 : next_loc (snd (Settings.new_list [value] st2)) = S (next_loc st2))
      by reflexivity.
    assert (Hl3 : fst (Settings.new_list [value] st2) = next_loc st2) by reflexivity.
    destruct (Settings.new_list [value] st2) as [l st3]. cbn [fst snd] in *. subst l.
    apply wf_bsms_save.
    + apply wf_set_bsms; [|cbn; lia]. apply wf_dict_setitem; [exact Hwf3|lia|lia].
    + cbn. lia.
Qed.

Lemma delete_preserves_heap_wf who index st :
  heap_wf st = true -> heap_wf (snd (BSMSSettings.delete who index st)) = true.
Proof.
  intros Hwf. unfold BSMSSettings.delete.
  destruct (wf_get_bsms st Hwf) as [Hwf1 Hd1].
  destruct (Settings.get_bsms st) as [settings_bsms st1]. cbn [fst snd] in *.
  unfold Settings.dict_copy.
  assert (Hwf2 : heap_wf (snd (Settings.new_dict (Settings.dict_at st1 settings_bsms) st1))
                 = true).
  { apply wf_new_dict; [exact Hwf1|]. intros k l Hk. eapply wf_dict_values; eauto. }
  assert (Hdict : Settings.dict_at
                    (snd (Settings.new_dict (Settings.dict_at st1 settings_bsms) st1))
                    settings_bsms = Settings.dict_at st1 settings_bsms)
    by (apply dict_at_after_new_dict; lia).
  assert (Hn2 : next_loc (snd (Settings.new_dict (Settings.dict_at st1 settings_bsms) st1))
                = S (next_loc st1)) by reflexivity.
  assert (Horig : fst (Settings.new_dict (Settings.dict_at st1 settings_bsms) st1)
                  = next_loc st1) by reflexivity.
  destruct (Settings.new_dict (Settings.dict_at st1 settings_bsms) st1) as [orig st2].
  cbn [fst snd] in *. subst orig. rewrite Hdict.
  destruct (Settings.dict_at st1 settings_bsms !! who) as [l|] eqn:Hwho; [|exact Hwf2].
  unfold Settings.list_pop.
  destruct (Settings.py_position _ index) as [i|]; [|exact Hwf2].
  apply wf_bsms_save.
  - apply wf_set_bsms; [|cbn; lia]. apply wf_set_lists; [exact Hwf2|].
    pose proof (wf_dict_values st1 settings_bsms who l Hwf1 Hwho). lia.
  - cbn. lia.
Qed.

(** ** Reasoning about round functions *)

Lemma bind_ret_l {A B} (a : A) (k : A -> M B) : bind (ret a) k = k a.
Proof. reflexivity. Qed.

Lemma bind_next {A B} (c : M A) (k : A -> M B) w a w1 :
  c w = (Next a, w1) -> bind c k w = k a w1.
Proof. intros Hc. unfold bind. rewrite Hc. reflexivity. Qed.

Lemma bind_throw {A B} (c : M A) (k : A -> M B) w e w1 :
  c w = (Throw e, w1) -> bind c k w = (Throw e, w1).
Proof. intros Hc. unfold bind. rewrite Hc. reflexivity. Qed.

Lemma bind_next_inv {A B} (c : M A) (k : A -> M B) w b w' :
  bind c k w = (Next b, w') ->
  exists a w1, c w = (Next a, w1) /\ k a w1 = (Next b, w').
Proof.
  unfold bind. destruct (c w) as [[a| |e] w1]; intros Hk; try discriminate. eauto.
Qed.

Lemma assert_next_inv cond msg w a w' :
  assert_ cond msg w = (Next a, w') -> cond = true /\ w' = w.
Proof.
  unfold assert_. destruct cond; cbn; intros Hc; [|discriminate].
  inversion Hc. auto.
Qed.

Lemma lift_next_inv {A} (r : result A) w a w' :
  lift r w = (Next a, w') -> r = Ok a /\ w' = w.
Proof. destruct r; cbn; intros Hc; inversion Hc; auto. Qed.


Lemma throws_only_ret {A} P (a : A) : throws_only P (ret a).
Proof. intros w e w' Hc. discriminate. Qed.

Lemma throws_only_return {A} P : throws_only P (@return_ A).
Proof. intros w e w' Hc. discriminate. Qed.

Lemma throws_only_raise {A} (P : exn -> Prop) e : P e -> throws_only P (@raise A e).
Proof. intros He w e' w' Hc. inversion Hc. subst. exact He. Qed.

Lemma throws_only_emit P ev : throws_only P (emit ev).
Proof. intros w e w' Hc. discriminate. Qed.

Lemma throws_only_bind {A B} P (c : M A) (k : A -> M B) :
  throws_only P c -> (forall a, throws_only P (k a)) -> throws_only P (bind c k).
Proof.
  intros Hc Hk w e w'. unfold bind.
  destruct (c w) as [[a| |e0] w1] eqn:Hcw; intros Hb.
  - eapply Hk; eauto.
  - discriminate.
  - inversion Hb; subst. eapply Hc; eauto.
Qed.

Lemma throws_only_try_card {A} P (c : M A) : throws_only P (try_card c).
Proof.
  intros w e w'. unfold try_card. destruct (c w) as [[a| |e0] w1]; discriminate.
Qed.


Lemma extends_ret {A} (a : A) : extends (ret a).
Proof. intros w. exists []. cbn. now rewrite app_nil_r. Qed.

Lemma extends_return {A} : extends (@return_ A).
Proof. intros w. exists []. cbn. now rewrite app_nil_r. Qed.

Lemma extends_raise {A} e : extends (@raise A e).
Proof. intros w. exists []. cbn. now rewrite app_nil_r. Qed.

Lemma extends_lift {A} (r : result A) : extends (lift r).
Proof. destruct r; [apply extends_ret|apply extends_raise]. Qed.

Lemma extends_assert cond msg : extends (assert_ cond msg).
Proof. destruct cond; [apply extends_ret|apply extends_raise]. Qed.

Lemma extends_emit ev : extends (emit ev).
Proof. intros w. exists [ev]. reflexivity. Qed.

Lemma extends_read_settings {A} (f : store -> A) : extends (read_settings f).
Proof. intros w. exists []. cbn. now rewrite app_nil_r. Qed.

Lemma extends_on_settings {A} (f : store -> result A * store) : extends (on_settings f).
Proof.
  intros w. exists []. unfold on_settings.
  destruct (f (settings w)) as [[a|e] st]; cbn; now rewrite app_nil_r.
Qed.

Lemma extends_bind {A B} (c : M A) (k : A -> M B) :
  extends c -> (forall a, extends (k a)) -> extends (bind c k).
Proof.
  intros Hc Hk w. unfold bind. destruct (Hc w) as [evs Hevs].
  destruct (c w) as [[a| |e] w1]; cbn in Hevs.
  - destruct (Hk a w1) as [evs' Hevs']. exists (evs ++ evs')%list.
    rewrite Hevs', Hevs, <- app_assoc. reflexivity.
  - exists evs. exact Hevs.
  - exists evs. exact Hevs.
Qed.

Lemma extends_try_card {A} (c : M A) : extends c -> extends (try_card c).
Proof.
  intros Hc w. unfold try_card. destruct (Hc w) as [evs Hevs].
  exists evs. destruct (c w) as [[a| |e] w1]; exact Hevs.
Qed.

Lemma extends_with_sensitive_values {A} (c : M A) :
  extends c -> extends (with_sensitive_values c).
Proof.
  intros Hc w. unfold with_sensitive_values. cbn.
  destruct (Hc {| settings := settings w; trace := (trace w ++ [SecretsOpened])%list;
                  rng_calls := rng_calls w |}) as [evs Hevs].
  destruct (c _) as [r w2]. cbn in *.
  exists ([SecretsOpened] ++ evs ++ [SecretsClosed])%list.
  rewrite Hevs, <- !app_assoc. reflexivity.
Qed.

(** the scope of the secrets opens before anything else happens in it *)
Lemma with_sensitive_values_opens {A B} (c : M A) (k : A -> M B) w :
  extends c -> (forall a, extends (k a)) ->
  exists rest,
    trace (snd (bind (with_sensitive_values c) k w)) = (trace w ++ SecretsOpened :: rest)%list.
Proof.
  intros Hc Hk. unfold bind, with_sensitive_values. cbn.
  destruct (Hc {| settings := settings w; trace := (trace w ++ [SecretsOpened])%list;
                  rng_calls := rng_calls w |}) as [evs Hevs].
  destruct (c _) as [r w2]. cbn in *.
  destruct r as [a| |e].
  - destruct (Hk a {| settings := settings w2; trace := (trace w2 ++ [SecretsClosed])%list;
                       rng_calls := rng_calls w2 |}) as [evs' Hevs'].
    exists (evs ++ SecretsClosed :: evs')%list.
    rewrite Hevs'. cbn. rewrite Hevs, <- !app_assoc. reflexivity.
  - exists (evs ++ [SecretsClosed])%list. cbn. rewrite Hevs, <- !app_assoc. reflexivity.
  - exists (evs ++ [SecretsClosed])%list. cbn. rewrite Hevs, <- !app_assoc. reflexivity.
Qed.

Section RoundProperties.
Context {NGU : Ngu} {WALLET : Wallet} {CHANNELS : Channels}.

Lemma throws_only_ngu_random_bytes P n : throws_only P (ngu_random_bytes n).
Proof. intros w e w' Hc. discriminate. Qed.

Lemma throws_only_generate_tokens P n : forall tokens, throws_only P (generate_tokens n tokens).
Proof.
  induction n as [|n IH]; intros tokens; cbn [generate_tokens].
  - apply throws_only_ret.
  - apply throws_only_bind; [apply throws_only_ngu_random_bytes|]. intros b. apply IH.
Qed.

Lemma add_raises_only_out_of_space who value st e :
  fst (BSMSSettings.add who value st) = Raised e -> e = BSMSOutOfSpace.
Proof.
  unfold BSMSSettings.add.
  destruct (Settings.get_bsms st) as [settings_bsms st1].
  destruct (Settings.dict_copy settings_bsms st1) as [orig st2].
  match goal with |- fst (BSMSSettings.save _ ?s) = _ -> _ => generalize s end.
  intros st3. unfold BSMSSettings.save.
  destruct (Settings.save st3) as [[[]|e0] st4]; cbn; [discriminate|].
  destruct (Settings.save _) as [r5 st5]. cbn. congruence.
Qed.

Lemma throws_only_add (P : exn -> Prop) who value :
  P BSMSOutOfSpace -> throws_only P (on_settings (BSMSSettings.add who value)).
Proof.
  intros HP w e w'. unfold on_settings.
  pose proof (add_raises_only_out_of_space who value (settings w)) as Hadd.
  destruct (BSMSSettings.add who value (settings w)) as [[a|e0] st]; [discriminate|].
  intros Hc. inversion Hc; subst. rewrite (Hadd e eq_refl). exact HP.
Qed.

(** ** Coordinator, round 1 *)


Lemma cr1_signers_rejected u w :
  (2 <=? cr1_N u) && (cr1_N u <=? MAX_SIGNERS) = false ->
  bsms_coordinator_round1_body u w = (Throw SignersOutOfRange, w).
Proof.
  intros Hn. unfold bsms_coordinator_round1_body. rewrite Hn. reflexivity.
Qed.

Lemma cr1_threshold_rejected u w :
  (2 <=? cr1_N u) && (cr1_N u <=? MAX_SIGNERS) = true ->
  (1 <=? cr1_M u) && (cr1_M u <=? cr1_N u) = false ->
  bsms_coordinator_round1_body u w = (Throw (ThresholdOutOfRange (cr1_N u)), w).
Proof.
  intros Hn Hm. unfold bsms_coordinator_round1_body. rewrite Hn, Hm. reflexivity.
Qed.

Lemma cr1_bounds_accepted u w e :
  (2 <=? cr1_N u) && (cr1_N u <=? MAX_SIGNERS) = true ->
  (1 <=? cr1_M u) && (cr1_M u <=? cr1_N u) = true ->
  fst (bsms_coordinator_round1_body u w) = Throw e -> after_bounds e.
Proof.
  intros Hn Hm. unfold bsms_coordinator_round1_body. rewrite Hn, Hm.
  change (assert_ true ?m) with (ret tt). rewrite !bind_ret_l.
  intros He.
  match type of He with fst (?c w) = _ => assert (Hc : throws_only after_bounds c) end.
  { repeat first
      [ apply throws_only_ret
      | apply throws_only_return
      | apply throws_only_try_card
      | apply throws_only_generate_tokens
      | apply throws_only_ngu_random_bytes
      | apply throws_only_add; unfold after_bounds; tauto
      | apply throws_only_bind; [|intros ?]
      | match goal with
        | |- throws_only _ (if ?b then _ else _) => destruct b
        | |- throws_only _ (let '(_, _) := ?p in _) => destruct p
        | |- throws_only _ (match ?x with _ => _ end) => destruct x
        end ].
    all: try (unfold NFC_share_text; destruct nfc_present;
              [apply throws_only_emit|apply throws_only_raise; unfold after_bounds; tauto]).
    all: unfold coordinator_summary; destruct (et_map _);
      [apply throws_only_ret|apply throws_only_raise; unfold after_bounds; eauto]. }
  specialize (Hc w).
  match type of He with fst ?x = _ => destruct x as [r w'] end.
  cbn in He. subst r. eapply Hc. reflexivity.
Qed.

(** C8: coordinator round 1 raises the error on the number of signers
    exactly when N is outside 2..15, and the error on the threshold exactly
    when N is accepted and M is outside 1..N; with both in range no
    assertion fails in the round, and a rejected round changes nothing. *)
Theorem coordinator_round1_bounds (u : cr1_user) (w : world) :
  let N := cr1_N u in
  let M_ := cr1_M u in
  let r := fst (bsms_coordinator_round1_body u w) in
  (r = Throw SignersOutOfRange <-> ~ (2 <= N <= 15)) /\
  (r = Throw (ThresholdOutOfRange N) <-> (2 <= N <= 15) /\ ~ (1 <= M_ <= N)) /\
  ((2 <= N <= 15) /\ (1 <= M_ <= N) -> forall msg, r <> Throw (AssertionError msg)) /\
  (~ ((2 <= N <= 15) /\ (1 <= M_ <= N)) -> snd (bsms_coordinator_round1_body u w) = w).
Proof.
  intros N M_ r. subst N M_ r.
  assert (Hafter : forall e msg, after_bounds e -> e <> AssertionError msg).
  { intros e msg [->|[[key ->]| ->]]; discriminate. }
  destruct ((2 <=? cr1_N u) && (cr1_N u <=? MAX_SIGNERS)) eqn:Hn.
  - assert (HN : 2 <= cr1_N u <= 15).
    { apply andb_true_iff in Hn as [Ha Hb]. unfold MAX_SIGNERS in Hb. lia. }
    destruct ((1 <=? cr1_M u) && (cr1_M u <=? cr1_N u)) eqn:Hm.
    + assert (HM : 1 <= cr1_M u <= cr1_N u)
        by (apply andb_true_iff in Hm as [Ha Hb]; lia).
      pose proof (fun e => cr1_bounds_accepted u w e Hn Hm) as Hacc.
      split; [split|split; [split|split]].
      * intros Hr. apply Hacc in Hr. exfalso. eapply Hafter; [exact Hr|reflexivity].
      * tauto.
      * intros Hr. apply Hacc in Hr. exfalso. eapply Hafter; [exact Hr|reflexivity].
      * tauto.
      * intros _ msg Hr. apply Hacc in Hr. eapply Hafter; eauto.
      * tauto.
    + assert (HM : ~ (1 <= cr1_M u <= cr1_N u)).
      { apply andb_false_iff in Hm as [Ha|Hb]; lia. }
      rewrite (cr1_threshold_rejected u w Hn Hm). cbn [fst snd].
      split; [split|split; [split|split]]; try tauto.
      intros Hr. discriminate Hr.
  - assert (HN : ~ (2 <= cr1_N u <= 15)).
    { apply andb_false_iff in Hn as [Ha|Hb]; unfold MAX_SIGNERS in *; lia. }
    rewrite (cr1_signers_rejected u w Hn). cbn [fst snd].
    split; [split|split; [split|split]]; try tauto.
    intros Hr. discriminate Hr.
Qed.

(** ** Signer, round 1 *)

Lemma sr1_read_token_pure u w : snd (sr1_read_token u w) = w.
Proof.
  unfold sr1_read_token.
  repeat match goal with
         | |- context [if ?b then _ else _] => destruct b
         | |- context [match ?x with _ => _ end] => destruct x
         end; try reflexivity.
  all: unfold bind; destruct (card_slot _); cbn; try reflexivity.
  all: destruct (read_text _); reflexivity.
Qed.

Lemma sr1_read_token_next u w token_hex :
  fst (sr1_read_token u w) = Next token_hex ->
  sr1_read_token u w = (Next token_hex, w).
Proof.
  intros Hf. rewrite (surjective_pairing (sr1_read_token u w)), Hf, sr1_read_token_pure.
  reflexivity.
Qed.

Lemma bind_read_settings {A B} (f : store -> A) (k : A -> M B) w :
  bind (read_settings f) k w = k (f (settings w)) w.
Proof. reflexivity. Qed.

Lemma bind_assert_true {B} msg (k : unit -> M B) : bind (assert_ true msg) k = k tt.
Proof. reflexivity. Qed.

Lemma bind_assert_false {B} msg (k : unit -> M B) w :
  bind (assert_ false msg) k w = (Throw (AssertionError msg), w).
Proof. reflexivity. Qed.

Lemma extends_NFC_share_text text : extends (NFC_share_text text).
Proof.
  unfold NFC_share_text. destruct nfc_present; [apply extends_emit|apply extends_raise].
Qed.

Lemma extends_write_to fname data : extends (write_to fname data).
Proof.
  unfold write_to. apply extends_bind; [apply extends_lift|]. intros _. apply extends_emit.
Qed.

Ltac extends_step :=
  first
    [ apply extends_ret | apply extends_return | apply extends_raise
    | apply extends_lift | apply extends_assert | apply extends_emit
    | apply extends_read_settings | apply extends_on_settings
    | apply extends_NFC_share_text | apply extends_write_to
    | apply extends_try_card | apply extends_with_sensitive_values
    | apply extends_bind; [|intros ?]
    | match goal with
      | |- extends (if ?b then _ else _) => destruct b
      | |- extends (let '(_, _) := ?p in _) => destruct p
      | |- extends (match ?x with _ => _ end) => destruct x
      end ].

(** C9: once the round has its validated token, the confirmation and the
    address format, a key description of more than 80 characters ends the
    round with the description-length error and leaves the world as it was
    (nothing signed, nothing written, nothing persisted), while one of at
    most 80 characters, 80 included, lets the round go on to open the
    secrets for signing. *)
Theorem signer_round1_description_limit (u : sr1_user) (w : world) (token_hex : string)
    (pth_template : string -> string -> string) (af_str : string) :
  fst (sr1_read_token u w) = Next token_hex ->
  validate_token token_hex = Ok tt ->
  sr1_confirm_key u = "y" ->
  sr1_path_choice (sr1_af_key u) = Some (pth_template, af_str) ->
  let key_description := sr1_key_description af_str u in
  ((80 < Py.len key_description)%nat ->
     bsms_signer_round1_body u w
       = (Throw (InvalidDescription (Py.len key_description)), w)) /\
  ((Py.len key_description <= 80)%nat ->
     exists rest,
       trace (snd (bsms_signer_round1_body u w)) = (trace w ++ SecretsOpened :: rest)%list).
Proof.
  intros Hread Hval Hconf Haf key_description. subst key_description.
  apply sr1_read_token_next in Hread.
  unfold bsms_signer_round1_body.
  rewrite (bind_next _ _ _ _ _ Hread), Hval.
  change (lift (Ok tt)) with (ret tt). rewrite bind_ret_l.
  rewrite Hconf, String.eqb_refl. cbn [negb].
  rewrite bind_ret_l, bind_read_settings, Haf, bind_ret_l. cbn [fst snd].
  split.
  - intros Hlong. apply Nat.leb_gt in Hlong.
    rewrite Hlong, bind_assert_false. reflexivity.
  - intros Hshort. apply Nat.leb_le in Hshort.
    rewrite Hshort, bind_assert_true.
    apply with_sensitive_values_opens; intros; repeat extends_step.
Qed.

Lemma take_cont_head c s : Py.is_cont c = false -> Py.take_cont (String c s) = "".
Proof. intros Hc. cbn [Py.take_cont]. rewrite Hc. reflexivity. Qed.

Lemma skip_cont_head c s : Py.is_cont c = false -> Py.skip_cont (String c s) = String c s.
Proof. intros Hc. cbn [Py.skip_cont]. rewrite Hc. reflexivity. Qed.

Lemma validate_prefixed_token p h :
  p = "0x" \/ p = "0X" ->
  pure_hex h = true ->
  (String.length h = 16 \/ String.length h = 32)%nat ->
  validate_token (p ++ h) = Raised InvalidTokenLength /\ normalize_token (p ++ h) = h.
Proof.
  intros Hp Hh Hl.
  destruct h as [|c h']; [cbn in Hl; lia|].
  pose proof Hh as Hc. simpl in Hc. apply andb_true_iff in Hc as [Hc _].
  destruct (hex_digit_facts c Hc) as (_ & _ & _ & _ & _ & Hcont & _).
  destruct (parse_digits_pure_hex _ Hh 0 false) as [v Hv].
  assert (Hlen : Py.len (String c h') = String.length (String c h'))
    by (apply len_pure_hex; exact Hh).
  assert (Hshape : exists x, (x = "x" \/ x = "X")%char /\
                             p ++ String c h' = String "0" (String x (String c h'))).
  { destruct Hp as [-> | ->]; eexists; split; [left|reflexivity|right|reflexivity];
      reflexivity. }
  destruct Hshape as (x & Hx & ->).
  split.
  - unfold validate_token.
    assert (Hne : String.eqb (String "0" (String x (String c h'))) "00" = false).
    { destruct Hx as [-> | ->]; reflexivity. }
    rewrite Hne.
    assert (Hint : Py.int (String "0" (String x (String c h'))) 16 = Some v).
    { change (Py.parse_digits 16 0 false (String c h') = (v, true, "")) in Hv.
      unfold Py.int. destruct Hx as [-> | ->]; cbv -[Py.parse_digits];
        rewrite Hv; reflexivity. }
    rewrite Hint.
    assert (Hplen : Py.len (String "0" (String x (String c h')))
                    = S (S (String.length (String c h')))).
    { rewrite <- Hlen. destruct Hx as [-> | ->]; reflexivity. }
    rewrite Hplen. destruct Hl as [-> | ->]; reflexivity.
  - assert (Hncx : Py.is_cont x = false) by (destruct Hx as [-> | ->]; reflexivity).
    assert (Hto : Py.slice_to 2 (String "0" (String x (String c h'))) = String "0" (String x "")).
    { cbn [Py.slice_to].
      rewrite (take_cont_head x), (skip_cont_head x) by exact Hncx.
      cbn [Py.slice_to append].
      rewrite (take_cont_head c) by exact Hcont. reflexivity. }
    assert (Hfrom : Py.slice_from 2 (String "0" (String x (String c h'))) = String c h').
    { cbn [Py.slice_from].
      rewrite (skip_cont_head x) by exact Hncx. cbn [Py.slice_from].
      rewrite (skip_cont_head c) by exact Hcont. reflexivity. }
    unfold normalize_token. rewrite Hto, Hfrom.
    destruct Hx as [-> | ->]; reflexivity.
Qed.

(** C4 on the code: a token that arrives as [0x] or [0X] followed by 16
    or 32 hexadecimal characters is handed to [validate_token] before
    [normalize_token] is applied, so its length is 18 or 34 and the round
    ends with the invalid-length error; nothing is signed or persisted.
    Stripped first, the same token is valid. *)
Theorem signer_round1_rejects_prefixed_token (u : sr1_user) (w : world) (p h : string) :
  p = "0x" \/ p = "0X" ->
  pure_hex h = true ->
  (String.length h = 16 \/ String.length h = 32)%nat ->
  fst (sr1_read_token u w) = Next (p ++ h) ->
  bsms_signer_round1_body u w = (Throw InvalidTokenLength, w) /\
  normalize_token (p ++ h) = h /\
  validate_token (normalize_token (p ++ h)) = Ok tt.
Proof.
  intros Hp Hh Hl Hread.
  destruct (validate_prefixed_token p h Hp Hh Hl) as [Hval Hnorm].
  apply sr1_read_token_next in Hread.
  split; [|split; [exact Hnorm|]].
  - unfold bsms_signer_round1_body.
    rewrite (bind_next _ _ _ _ _ Hread), Hval. reflexivity.
  - rewrite Hnorm.
    assert (Hne : h <> "00") by (intros ->; cbn in Hl; lia).
    apply (validate_token_pure_hex h Hne Hh). rewrite len_pure_hex by exact Hh. exact Hl.
Qed.

(** ** Signer, round 2 *)


Lemma pure_ret {A} (a : A) : pure (ret a).
Proof. intros w. reflexivity. Qed.

Lemma pure_return {A} : pure (@return_ A).
Proof. intros w. reflexivity. Qed.

Lemma pure_raise {A} e : pure (@raise A e).
Proof. intros w. reflexivity. Qed.

Lemma pure_lift {A} (r : result A) : pure (lift r).
Proof. destruct r; intros w; reflexivity. Qed.

Lemma pure_assert cond msg : pure (assert_ cond msg).
Proof. destruct cond; intros w; reflexivity. Qed.

Lemma pure_read_settings {A} (f : store -> A) : pure (read_settings f).
Proof. intros w. reflexivity. Qed.

Lemma pure_bind {A B} (c : M A) (k : A -> M B) :
  pure c -> (forall a, pure (k a)) -> pure (bind c k).
Proof.
  intros Hc Hk w. unfold bind. specialize (Hc w).
  destruct (c w) as [[a| |e] w1]; cbn in Hc; subst w1; [apply Hk|reflexivity|reflexivity].
Qed.

Ltac pure_step :=
  first
    [ apply pure_ret | apply pure_return | apply pure_raise | apply pure_lift
    | apply pure_assert | apply pure_read_settings
    | apply pure_bind; [|intros ?]
    | match goal with
      | |- pure (if ?b then _ else _) => destruct b
      | |- pure (let '(_, _) := ?p in _) => destruct p
      | |- pure (match ?x with _ => _ end) => destruct x
      end ].

Lemma sr2_decrypt_pure token data_bytes : pure (sr2_decrypt token data_bytes).
Proof. unfold sr2_decrypt. repeat pure_step. Qed.

Lemma sr2_read_template_pure token u : pure (sr2_read_template token u).
Proof.
  unfold sr2_read_template.
  repeat first [apply sr2_decrypt_pure | pure_step].
Qed.

Lemma assert_xfp_next_inv cond my_xfp msg w a w' :
  assert_xfp cond my_xfp msg w = (Next a, w') -> cond = true /\ w' = w.
Proof.
  unfold assert_xfp. destruct cond; cbn.
  - intros Hc. inversion Hc. auto.
  - destruct my_xfp; discriminate.
Qed.

Lemma sr2_collect_inv ext_key_prefix my_xfp keys :
  forall my_keys nodes w my_keys' nodes' w',
    sr2_collect ext_key_prefix my_xfp keys my_keys nodes w = (Next (my_keys', nodes'), w') ->
    w' = w /\
    exists new_nodes,
      nodes' = (nodes ++ new_nodes)%list /\
      Forall2 (fun key node => hdnode_deserialize (snd key) = Ok node) keys new_nodes.
Proof.
  induction keys as [|[[xfp deriv_path] ext_key] keys IH];
    intros my_keys nodes w my_keys' nodes' w' Hrun.
  - cbn in Hrun. inversion Hrun; subst. split; [reflexivity|].
    exists []. rewrite app_nil_r. split; [reflexivity|constructor].
  - cbn [sr2_collect] in Hrun.
    apply bind_next_inv in Hrun as (? & wa & Hassert & Hrun).
    apply assert_next_inv in Hassert as [_ ->].
    apply bind_next_inv in Hrun as (node1 & wb & Hnode & Hrun).
    apply lift_next_inv in Hnode as [Hnode ->].
    apply IH in Hrun as (-> & new_nodes & -> & Hall).
    split; [reflexivity|].
    exists (node1 :: new_nodes). rewrite <- app_assoc. split; [reflexivity|].
    constructor; [exact Hnode|exact Hall].
Qed.

Lemma with_sensitive_values_next_inv {A} (c : M A) w a w' :
  with_sensitive_values c w = (Next a, w') ->
  exists w2,
    c {| settings := settings w; trace := (trace w ++ [SecretsOpened])%list;
         rng_calls := rng_calls w |} = (Next a, w2) /\
    w' = {| settings := settings w2; trace := (trace w2 ++ [SecretsClosed])%list;
            rng_calls := rng_calls w2 |}.
Proof.
  unfold with_sensitive_values. cbn.
  destruct (c _) as [r w2]. cbn. intros Hc. inversion Hc; subst. eauto.
Qed.

Lemma sr2_validate_template_inv data w1 t w2 :
  sr2_validate_template data w1 = (Next t, w2) ->
  (exists version desc_template pth_restrictions,
     Py.split_on "010" data = [version; desc_template; pth_restrictions; t_addr t]) /\
  descriptor_parse (t_desc t) = Ok (t_desc_obj t) /\
  Forall2 (fun key node => hdnode_deserialize (snd key) = Ok node)
          (d_keys (t_desc_obj t)) (t_nodes t) /\
  settings w2 = settings w1 /\
  trace w2 = (trace w1 ++ [SecretsOpened; SecretsClosed])%list.
Proof.
  unfold sr2_validate_template. intros Hrun.
  apply bind_next_inv in Hrun as (? & wa & Hassert & Hrun).
  apply assert_next_inv in Hassert as [_ ->].
  destruct (Py.split_on "010" data)
    as [|version [|desc_template [|pth_restrictions [|addr [|]]]]]; try discriminate Hrun.
  apply bind_next_inv in Hrun as (? & wa & Hassert & Hrun).
  apply assert_next_inv in Hassert as [_ ->].
  apply bind_next_inv in Hrun as (desc_obj & wa & Hparse & Hrun).
  apply lift_next_inv in Hparse as [Hparse ->].
  rewrite bind_read_settings in Hrun.
  apply bind_next_inv in Hrun as ([my_keys nodes] & wa & Hcollect & Hrun).
  apply sr2_collect_inv in Hcollect as (-> & new_nodes & Hnodes & Hall).
  cbn [app] in Hnodes. subst nodes. cbn [fst snd] in Hrun.
  apply bind_next_inv in Hrun as (? & wa & Hassert & Hrun).
  apply assert_xfp_next_inv in Hassert as [_ ->].
  apply bind_next_inv in Hrun as (? & wa & Hassert & Hrun).
  apply assert_xfp_next_inv in Hassert as [_ ->].
  destruct my_keys as [|[deriv_path desc_ext_key] my_keys]; [discriminate Hrun|].
  apply bind_next_inv in Hrun as (? & wa & Hsecret & Hrun).
  apply with_sensitive_values_next_inv in Hsecret as (wb & Hbody & ->).
  apply bind_next_inv in Hbody as (node1 & wc & Hnode & Hbody).
  apply lift_next_inv in Hnode as [_ ->].
  apply assert_next_inv in Hbody as [_ ->].
  cbn in Hrun. inversion Hrun; subst. cbn.
  split; [eauto|]. split; [exact Hparse|]. split; [exact Hall|].
  split; [reflexivity|]. rewrite <- app_assoc. reflexivity.
Qed.

Lemma sr2_enroll_next t idx w : exists w', sr2_enroll t idx w = (Next tt, w').
Proof.
  unfold sr2_enroll. destruct (maybe_enroll_xpub _ _ _); eexists; reflexivity.
Qed.

(** a round that succeeds has read a template and validated it *)
Lemma signer_round2_success_inv idx u w w' :
  bsms_signer_round2_body idx u w = (Next tt, w') ->
  exists token data w1 t w2,
    Settings.list_item (BSMSSettings.get_signers (settings w)) idx = Ok (SignerSession token) /\
    sr2_read_template token u w = (Next data, w1) /\
    sr2_validate_template data w1 = (Next t, w2).
Proof.
  unfold bsms_signer_round2_body. rewrite bind_read_settings. intros Hrun.
  apply bind_next_inv in Hrun as (entry & wa & Hitem & Hrun).
  apply lift_next_inv in Hitem as [Hitem ->].
  apply bind_next_inv in Hrun as (token & wa & Htoken & Hrun).
  destruct entry as [token'|]; [|discriminate Htoken].
  cbn in Htoken. inversion Htoken; subst.
  apply bind_next_inv in Hrun as (data & w1 & Hread & Hrun).
  apply bind_next_inv in Hrun as (t & w2 & Hvalid & Hrun).
  exists token, data, w1, t, w2. auto.
Qed.

(** C1: when round 2 has read and validated a template, its nodes are the
    deserialised keys of the parsed descriptor and its address is the
    fourth line of the payload; every node is then derived at index 0, the
    redeem script is made over the derived nodes and the address computed
    in the format of the descriptor.  The round succeeds exactly when that
    address equals the address of the payload, and otherwise ends with the
    address-mismatch error; up to there nothing was persisted or
    enrolled. *)
Theorem signer_round2_address_agreement (idx : Z) (u : sr2_user) (w : world)
    (token data : string) (w1 : world) (t : template) (w2 : world) :
  Settings.list_item (BSMSSettings.get_signers (settings w)) idx = Ok (SignerSession token) ->
  sr2_read_template token u w = (Next data, w1) ->
  sr2_validate_template data w1 = (Next t, w2) ->
  let desc_obj := t_desc_obj t in
  let derived := List.map (fun node => hdnode_derive node 0 false) (t_nodes t) in
  (exists version desc_template pth_restrictions,
     Py.split_on "010" data = [version; desc_template; pth_restrictions; t_addr t]) /\
  descriptor_parse (t_desc t) = Ok desc_obj /\
  Forall2 (fun key node => hdnode_deserialize (snd key) = Ok node)
          (d_keys desc_obj) (t_nodes t) /\
  settings w2 = settings w /\
  trace w2 = (trace w ++ [SecretsOpened; SecretsClosed])%list /\
  ((exists w', bsms_signer_round2_body idx u w = (Next tt, w')) <->
   (exists script,
      make_redeem_script (d_M desc_obj) derived 0 = Ok script /\
      p2sh_address (d_addr_fmt desc_obj) script = t_addr t)) /\
  (forall script,
     make_redeem_script (d_M desc_obj) derived 0 = Ok script ->
     p2sh_address (d_addr_fmt desc_obj) script <> t_addr t ->
     bsms_signer_round2_body idx u w
       = (Throw (AddressMismatch (p2sh_address (d_addr_fmt desc_obj) script) (t_addr t)), w2)).
Proof.
  intros Hitem Hread Hvalid desc_obj derived.
  assert (Hw1 : w1 = w).
  { pose proof (sr2_read_template_pure token u w) as Hp. rewrite Hread in Hp. exact Hp. }
  subst w1.
  destruct (sr2_validate_template_inv _ _ _ _ Hvalid) as (Hsplit & Hparse & Hall & Hset & Htr).
  assert (Hbody : bsms_signer_round2_body idx u w
                  = bind (sr2_check_address t) (fun _ => sr2_enroll t idx) w2).
  { unfold bsms_signer_round2_body. rewrite bind_read_settings, Hitem.
    change (lift (Ok ?x)) with (ret x). rewrite !bind_ret_l.
    rewrite (bind_next _ _ _ _ _ Hread), (bind_next _ _ _ _ _ Hvalid). reflexivity. }
  split; [exact Hsplit|]. split; [exact Hparse|]. split; [exact Hall|].
  split; [exact Hset|]. split; [exact Htr|].
  rewrite Hbody. unfold sr2_check_address, sr2_first_address.
  fold desc_obj. fold derived.
  split; [split|].
  - intros [w' Hrun].
    destruct (make_redeem_script (d_M desc_obj) derived 0) as [script|e] eqn:Hscript;
      [|discriminate Hrun].
    exists script. split; [reflexivity|].
    change (lift (Ok ?x)) with (ret x) in Hrun. rewrite bind_ret_l in Hrun.
    apply bind_next_inv in Hrun as (? & wa & Hassert & _).
    apply assert_next_inv in Hassert as [Heq _].
    apply String.eqb_eq in Heq. exact Heq.
  - intros (script & Hscript & Haddr). rewrite Hscript.
    change (lift (Ok ?x)) with (ret x). rewrite bind_ret_l.
    rewrite Haddr, String.eqb_refl, bind_assert_true. apply sr2_enroll_next.
  - intros script Hscript Hne. rewrite Hscript.
    change (lift (Ok ?x)) with (ret x). rewrite bind_ret_l.
    apply String.eqb_neq in Hne. rewrite Hne. reflexivity.
Qed.

End RoundProperties.

(** ** The statements at work on the small instance *)

Lemma signer_round1_description_limit_witness :
  fst (sr1_read_token (CHANNELS := Demo.channels)
         (Demo.signer1 Demo.token_a Demo.eighty) (Demo.world0 Demo.store1))
    = Next Demo.token_a /\
  validate_token Demo.token_a = Ok tt /\
  Py.len Demo.eighty = 80%nat /\
  exists rest,
    trace (snd (bsms_signer_round1_body
                  (NGU := Demo.ngu) (WALLET := Demo.wallet) (CHANNELS := Demo.channels)
                  (Demo.signer1 Demo.token_a Demo.eighty) (Demo.world0 Demo.store1)))
    = (trace (Demo.world0 Demo.store1) ++ SecretsOpened :: rest)%list.
Proof.
  split; [reflexivity|]. split; [reflexivity|]. split; [reflexivity|].
  refine (proj2 (signer_round1_description_limit
                   (NGU := Demo.ngu) (WALLET := Demo.wallet) (CHANNELS := Demo.channels)
                   (Demo.signer1 Demo.token_a Demo.eighty) (Demo.world0 Demo.store1)
                   Demo.token_a _ _ _ _ _ _) _);
    reflexivity.
Defined.

Example description_of_81_rejected :
  bsms_signer_round1_body
    (NGU := Demo.ngu) (WALLET := Demo.wallet) (CHANNELS := Demo.channels)
    (Demo.signer1 Demo.token_a (Demo.eighty ++ "x")) (Demo.world0 Demo.store1)
  = (Throw (InvalidDescription 81), Demo.world0 Demo.store1).
Proof. vm_compute. reflexivity. Qed.

Example description_of_80_persisted :
  let r := bsms_signer_round1_body
             (NGU := Demo.ngu) (WALLET := Demo.wallet) (CHANNELS := Demo.channels)
             (Demo.signer1 Demo.token_a Demo.eighty) (Demo.world0 Demo.store1) in
  fst r = Next tt /\
  BSMSSettings.get_signers (settings (snd r)) = [SignerSession "00"; SignerSession Demo.token_a].
Proof. vm_compute. split; reflexivity. Qed.

Lemma signer_round1_rejects_prefixed_token_witness :
  ("0x" = "0x" \/ "0x" = "0X") /\
  pure_hex Demo.token_a = true /\
  (String.length Demo.token_a = 16 \/ String.length Demo.token_a = 32)%nat /\
  fst (sr1_read_token (CHANNELS := Demo.channels)
         (Demo.signer1 ("0x" ++ Demo.token_a) "my key") (Demo.world0 Demo.store1))
    = Next ("0x" ++ Demo.token_a) /\
  bsms_signer_round1_body
    (NGU := Demo.ngu) (WALLET := Demo.wallet) (CHANNELS := Demo.channels)
    (Demo.signer1 ("0x" ++ Demo.token_a) "my key") (Demo.world0 Demo.store1)
  = (Throw InvalidTokenLength, Demo.world0 Demo.store1).
Proof.
  assert (Hp : "0x" = "0x" \/ "0x" = "0X") by (left; reflexivity).
  assert (Hh : pure_hex Demo.token_a = true) by reflexivity.
  assert (Hl : (String.length Demo.token_a = 16 \/ String.length Demo.token_a = 32)%nat)
    by (left; reflexivity).
  assert (Hr : fst (sr1_read_token (CHANNELS := Demo.channels)
                      (Demo.signer1 ("0x" ++ Demo.token_a) "my key")
                      (Demo.world0 Demo.store1))
               = Next ("0x" ++ Demo.token_a)) by reflexivity.
  split; [exact Hp|]. split; [exact Hh|]. split; [exact Hl|]. split; [exact Hr|].
  exact (proj1 (signer_round1_rejects_prefixed_token
                  (NGU := Demo.ngu) (WALLET := Demo.wallet) (CHANNELS := Demo.channels)
                  _ _ "0x" Demo.token_a Hp Hh Hl Hr)).
Defined.

(** a 64-bit token typed as a decimal number reaches [validate_token] as
    the result of [hex], which carries the prefix *)
Example decimal_token_rejected :
  Py.hex 18364758544493064720 = "0xfedcba9876543210" /\
  bsms_signer_round1_body
    (NGU := Demo.ngu) (WALLET := Demo.wallet) (CHANNELS := Demo.channels)
    (Demo.signer1_decimal "18364758544493064720") (Demo.world0 Demo.store1)
  = (Throw InvalidTokenLength, Demo.world0 Demo.store1).
Proof. vm_compute. split; reflexivity. Qed.

(** a prefixed string of sixteen characters passes, and fourteen
    hexadecimal characters are persisted as the session *)
Example short_prefixed_token_persisted :
  let r := bsms_signer_round1_body
             (NGU := Demo.ngu) (WALLET := Demo.wallet) (CHANNELS := Demo.channels)
             (Demo.signer1 "0x12345678901234" "my key") (Demo.world0 Demo.store1) in
  fst r = Next tt /\
  BSMSSettings.get_signers (settings (snd r))
    = [SignerSession "00"; SignerSession "12345678901234"].
Proof. vm_compute. split; reflexivity. Qed.

Lemma signer_round2_address_agreement_witness :
  Settings.list_item (BSMSSettings.get_signers (settings (Demo.world0 Demo.store1))) 0
    = Ok (SignerSession "00") /\
  sr2_read_template (NGU := Demo.ngu) (CHANNELS := Demo.channels)
    "00" Demo.signer2 (Demo.world0 Demo.store1)
    = (Next Demo.demo_template, Demo.world0 Demo.store1) /\
  sr2_validate_template (WALLET := Demo.wallet) Demo.demo_template (Demo.world0 Demo.store1)
    = (Next Demo.template1, Demo.world2) /\
  exists w',
    bsms_signer_round2_body
      (NGU := Demo.ngu) (WALLET := Demo.wallet) (CHANNELS := Demo.channels)
      0 Demo.signer2 (Demo.world0 Demo.store1) = (Next tt, w').
Proof.
  assert (Hitem : Settings.list_item
                    (BSMSSettings.get_signers (settings (Demo.world0 Demo.store1))) 0
                  = Ok (SignerSession "00")) by (vm_compute; reflexivity).
  assert (Hread : sr2_read_template (NGU := Demo.ngu) (CHANNELS := Demo.channels)
                    "00" Demo.signer2 (Demo.world0 Demo.store1)
                  = (Next Demo.demo_template, Demo.world0 Demo.store1))
    by (vm_compute; reflexivity).
  assert (Hvalid : sr2_validate_template (WALLET := Demo.wallet) Demo.demo_template
                     (Demo.world0 Demo.store1)
                   = (Next Demo.template1, Demo.world2)) by (vm_compute; reflexivity).
  split; [exact Hitem|]. split; [exact Hread|]. split; [exact Hvalid|].
  destruct (signer_round2_address_agreement
              (NGU := Demo.ngu) (WALLET := Demo.wallet) (CHANNELS := Demo.channels)
              0 Demo.signer2 _ _ _ _ _ _ Hitem Hread Hvalid)
    as (_ & _ & _ & _ & _ & Hiff & _).
  apply Hiff. eexists. split; vm_compute; reflexivity.
Defined.

Example tampered_address_rejected :
  fst (bsms_signer_round2_body
         (NGU := Demo.ngu) (WALLET := Demo.wallet) (CHANNELS := Demo.tampered_channels)
         0 Demo.signer2 (Demo.world0 Demo.store1))
  = Throw (AddressMismatch "tb1q74707562" "tb1q00000000").
Proof. vm_compute. reflexivity. Qed.

Example coordinator_two_signers_accepted :
  fst (bsms_coordinator_round1_body (CHANNELS := Demo.channels)
         (Demo.coordinator1 2 1) (Demo.world0 Demo.store1)) = Next tt.
Proof. vm_compute. reflexivity. Qed.

Example coordinator_fifteen_signers_accepted :
  fst (bsms_coordinator_round1_body (CHANNELS := Demo.channels)
         (Demo.coordinator1 15 15) (Demo.world0 Demo.store1)) = Next tt.
Proof. vm_compute. reflexivity. Qed.

Example coordinator_one_signer_rejected :
  bsms_coordinator_round1_body (CHANNELS := Demo.channels)
    (Demo.coordinator1 1 1) (Demo.world0 Demo.store1)
  = (Throw SignersOutOfRange, Demo.world0 Demo.store1).
Proof. vm_compute. reflexivity. Qed.

Example coordinator_sixteen_signers_rejected :
  bsms_coordinator_round1_body (CHANNELS := Demo.channels)
    (Demo.coordinator1 16 1) (Demo.world0 Demo.store1)
  = (Throw SignersOutOfRange, Demo.world0 Demo.store1).
Proof. vm_compute. reflexivity. Qed.

Example coordinator_threshold_above_rejected :
  bsms_coordinator_round1_body (CHANNELS := Demo.channels)
    (Demo.coordinator1 3 4) (Demo.world0 Demo.store1)
  = (Throw (ThresholdOutOfRange 3), Demo.world0 Demo.store1).
Proof. vm_compute. reflexivity. Qed.

(* ===================================================================== *)
(** * Further properties                                                  *)
(* ===================================================================== *)

(** ** Hexadecimal strings *)

Lemma a2b_hex_byte x s :
  Py.a2b_hex (String (Py.hex_char (Z.of_N (Byte.to_N x) / 16))
                (String (Py.hex_char (Z.of_N (Byte.to_N x) mod 16)) s))
  = match Py.a2b_hex s with
    | Some r => Some (x :: r)
    | None => None
    end.
Proof. destruct x; reflexivity. Qed.

Lemma a2b_hex_b2a_hex b : Py.a2b_hex (Py.b2a_hex b) = Some b.
Proof.
  induction b as [|x b IH]; [reflexivity|].
  cbn [Py.b2a_hex]. rewrite a2b_hex_byte, IH. reflexivity.
Qed.

Lemma hex_char_byte x :
  is_hex_digit (Py.hex_char (Z.of_N (Byte.to_N x) / 16)) = true /\
  is_hex_digit (Py.hex_char (Z.of_N (Byte.to_N x) mod 16)) = true.
Proof. destruct x; split; reflexivity. Qed.

Lemma b2a_hex_pure_hex b :
  pure_hex (Py.b2a_hex b) = true /\ String.length (Py.b2a_hex b) = (2 * length b)%nat.
Proof.
  induction b as [|x b [IHp IHl]]; [split; reflexivity|].
  destruct (hex_char_byte x) as [Hhi Hlo].
  cbn [Py.b2a_hex pure_hex String.length length]. rewrite Hhi, Hlo, IHp, IHl.
  split; [reflexivity|lia].
Qed.

Lemma hex_nibble_hex_digit c :
  is_hex_digit c = true -> exists d, Py.hex_nibble c = Some d.
Proof.
  intros Hc. destruct (hex_digit_facts c Hc) as (_ & _ & _ & _ & _ & _ & d & Hd & Hlt).
  exists d. unfold Py.hex_nibble. rewrite Hd, Hlt. reflexivity.
Qed.

Lemma a2b_hex_pure_hex n :
  forall s, pure_hex s = true -> String.length s = (2 * n)%nat ->
            exists salt, Py.a2b_hex s = Some salt /\ length salt = n.
Proof.
  induction n as [|n IH]; intros s Hs Hl.
  - destruct s; [|discriminate Hl]. exists []. split; reflexivity.
  - destruct s as [|h [|l s]]; try (cbn in Hl; lia).
    cbn [pure_hex] in Hs. apply andb_true_iff in Hs as [Hh Hs].
    apply andb_true_iff in Hs as [Hlo Hs].
    destruct (hex_nibble_hex_digit h Hh) as [a Ha].
    destruct (hex_nibble_hex_digit l Hlo) as [b Hb].
    destruct (IH s Hs) as (salt & Hsalt & Hlen); [cbn in Hl; lia|].
    exists (Py.byte_of_Z (16 * a + b) :: salt).
    cbn [Py.a2b_hex]. rewrite Ha, Hb, Hsalt. split; [reflexivity|cbn; lia].
Qed.

Lemma normalize_token_pure_hex T : pure_hex T = true -> normalize_token T = T.
Proof.
  intros HT. unfold normalize_token.
  destruct T as [|c0 [|c1 T]]; try reflexivity.
  - cbn [pure_hex] in HT. apply andb_true_iff in HT as [Hc0 _].
    cbn. destruct (Ascii.eqb c0 "0"); reflexivity.
  - assert (Hc1 : is_hex_digit c1 = true).
    { cbn [pure_hex] in HT. apply andb_true_iff in HT as [_ HT].
      apply andb_true_iff in HT as [Hc1 _]. exact Hc1. }
    destruct (hex_digit_facts c1 Hc1) as (_ & _ & _ & _ & Hx & Hcont & _).
    assert (Hto : exists rest, Py.slice_to 2 (String c0 (String c1 T)) =
                  String c0 (String c1 rest)).
    { cbn [Py.slice_to]. rewrite (take_cont_head c1), (skip_cont_head c1) by exact Hcont.
      cbn [append]. eexists. reflexivity. }
    destruct Hto as [rest Hto]. rewrite Hto.
    assert (Hno : str_in (String c0 (String c1 rest)) ["0x"; "0X"] = false).
    { unfold str_in. cbn [existsb String.eqb].
      assert (Hx1 : Ascii.eqb c1 "x" = false /\ Ascii.eqb c1 "X" = false).
      { clear -Hc1. destruct c1 as [[] [] [] [] [] [] [] []]; vm_compute in Hc1;
          try discriminate Hc1; split; reflexivity. }
      destruct Hx1 as [-> ->].
      destruct (Ascii.eqb c0 "0"); reflexivity. }
    rewrite Hno. reflexivity.
Qed.

(** ** Tokens *)

Lemma append_cons c s t : (String c s ++ t)%string = String c (s ++ t).
Proof. reflexivity. Qed.

Lemma append_nil_l s : ("" ++ s)%string = s.
Proof. reflexivity. Qed.

Lemma prefixed_token_shape T :
  str_in (Py.slice_to 2 T) ["0x"; "0X"] = true ->
  exists c1 rest,
    T = String "0" (String c1 rest) /\ (Z.lor (Py.code c1) 32 =? 120) = true /\
    Py.slice_from 2 T = rest.
Proof.
  intros Hin. destruct T as [|c0 [|c1 rest]]; [discriminate Hin| |].
  { exfalso. unfold str_in in Hin. cbn in Hin.
    destruct (Ascii.eqb c0 "0"); discriminate Hin. }
  destruct (Py.is_cont c1) eqn:Hc1.
  - exfalso. cbn [Py.slice_to Py.take_cont] in Hin. rewrite Hc1 in Hin.
    unfold str_in in Hin. rewrite append_cons in Hin.
    cbn [existsb String.eqb] in Hin.
    assert (Hx : Ascii.eqb c1 "x" = false /\ Ascii.eqb c1 "X" = false).
    { clear -Hc1. destruct c1 as [[] [] [] [] [] [] [] []]; vm_compute in Hc1;
        try discriminate Hc1; split; reflexivity. }
    destruct Hx as [Hx HX]. rewrite Hx, HX in Hin.
    destruct (Ascii.eqb c0 "0"); discriminate Hin.
  - cbn [Py.slice_to] in Hin.
    rewrite (take_cont_head c1), (skip_cont_head c1) in Hin by exact Hc1.
    cbn [Py.slice_to] in Hin. rewrite append_nil_l in Hin.
    unfold str_in in Hin. cbn [existsb String.eqb] in Hin.
    destruct (Ascii.eqb_spec c0 "0") as [->|]; [|discriminate Hin].
    destruct (Py.take_cont rest) as [|t ts] eqn:Htake.
    + exists c1, rest. split; [reflexivity|]. split.
      * destruct (Ascii.eqb_spec c1 "x") as [->|]; [reflexivity|].
        destruct (Ascii.eqb_spec c1 "X") as [->|]; [reflexivity|discriminate Hin].
      * cbn [Py.slice_from]. rewrite (skip_cont_head c1) by exact Hc1.
        cbn [Py.slice_from].
        destruct rest as [|r rest']; [reflexivity|].
        cbn [Py.take_cont] in Htake. cbn [Py.skip_cont].
        destruct (Py.is_cont r); [discriminate Htake|reflexivity].
    + exfalso. rewrite append_cons in Hin. cbn [String.eqb] in Hin.
      destruct (Ascii.eqb c1 "x"), (Ascii.eqb c1 "X"); discriminate Hin.
Qed.

Lemma parse_digits_seen_first base acc s v rest :
  Py.parse_digits base acc false s = (v, true, rest) ->
  exists c s', s = String c s' /\
    (Ascii.eqb c "_" = true \/ exists d, Py.digit_value c = Some d /\ (d <? base) = true).
Proof.
  destruct s as [|c s']; cbn [Py.parse_digits]; [discriminate|].
  intros H. exists c, s'. split; [reflexivity|].
  destruct (Ascii.eqb c "_"); [left; reflexivity|]. right.
  destruct (Py.digit_value c) as [d|]; [|discriminate H].
  destruct (d <? base) eqn:Hd; [|discriminate H]. exists d. split; [reflexivity|exact Hd].
Qed.

Lemma digit_first_facts c :
  (Ascii.eqb c "_" = true \/ exists d, Py.digit_value c = Some d /\ (d <? 16) = true) ->
  Py.isspace c = false /\ Ascii.eqb c "+" = false /\ Ascii.eqb c "-" = false /\
  (Z.lor (Py.code c) 32 =? 120) = false.
Proof.
  intros [Hc|(d & Hd & Hlt)].
  - apply Ascii.eqb_eq in Hc. subst c. repeat split; reflexivity.
  - destruct c as [[] [] [] [] [] [] [] []]; vm_compute in Hd;
      try discriminate Hd; injection Hd as <-; vm_compute in Hlt;
      try discriminate Hlt; repeat split; reflexivity.
Qed.

Lemma int_after_prefix c1 rest :
  (Z.lor (Py.code c1) 32 =? 120) = true ->
  is_Some (Py.int (String "0" (String c1 rest)) 16) ->
  is_Some (Py.int rest 16).
Proof.
  intros Hx [v Hv]. unfold Py.int in Hv.
  change (Py.lstrip (String "0" (String c1 rest))) with (String "0" (String c1 rest)) in Hv.
  cbn [Ascii.eqb Bool.eqb] in Hv. cbn iota in Hv.
  unfold Py.skip_base_prefix in Hv.
  cbn [Ascii.eqb Bool.eqb] in Hv. change (16 =? 16) with true in Hv.
  rewrite Hx in Hv. cbn [andb] in Hv.
  destruct (Py.parse_digits 16 0 false rest) as [[v0 seen] tl] eqn:Hp.
  destruct seen; [|discriminate Hv]. cbn [negb] in Hv.
  destruct (parse_digits_seen_first _ _ _ _ _ Hp) as (c & s' & -> & Hc).
  destruct (digit_first_facts c Hc) as (Hsp & Hplus & Hminus & Hcx).
  unfold Py.int. cbn [Py.lstrip]. rewrite Hsp, Hplus, Hminus.
  assert (Hskip : Py.skip_base_prefix 16 (String c s') = String c s').
  { unfold Py.skip_base_prefix. destruct s' as [|c' s'']; [reflexivity|].
    destruct (Ascii.eqb_spec c "0") as [->|Hne]; [|rewrite andb_false_r; reflexivity].
    destruct (Z.lor (Py.code c') 32 =? 120) eqn:Hc'; [|rewrite andb_false_r; reflexivity].
    exfalso. cbn [Py.parse_digits] in Hp.
    change (Ascii.eqb "0" "_") with false in Hp.
    change (Py.digit_value "0") with (Some 0) in Hp.
    change (0 <? 16) with true in Hp. cbn iota in Hp.
    assert (Hc'' : Ascii.eqb c' "_" = false /\ Py.isspace c' = false /\
                   exists d, Py.digit_value c' = Some d /\ (d <? 16) = false).
    { clear -Hc'. destruct c' as [[] [] [] [] [] [] [] []]; vm_compute in Hc';
        try discriminate Hc'; repeat split; eexists; split; reflexivity. }
    destruct Hc'' as (Hu & Hsp' & d & Hd & Hge).
    rewrite Hu, Hd, Hge in Hp. injection Hp as _ <-.
    cbn [Py.lstrip] in Hv. rewrite Hsp' in Hv. discriminate Hv. }
  rewrite Hskip, Hp. cbn [negb].
  destruct (Py.lstrip tl); [eexists; reflexivity|discriminate Hv].
Qed.

Lemma int_normalized_token T :
  validate_token T = Ok tt -> is_Some (Py.int (normalize_token T) 16).
Proof.
  intros Hv.
  destruct (String.eqb_spec T "00") as [->|Hne]; [eexists; reflexivity|].
  apply (validate_token_ok_iff T Hne) in Hv as [Hint _].
  unfold normalize_token.
  destruct (str_in (Py.slice_to 2 T) ["0x"; "0X"]) eqn:Hin; [|exact Hint].
  destruct (prefixed_token_shape T Hin) as (c1 & rest & -> & Hx & ->).
  exact (int_after_prefix c1 rest Hx Hint).
Qed.

(** X1.  A signer session that holds the normalised form of a token that
    [validate_token] accepted is shown by [bsms_signer_detail]: the stored
    token parses as a base-16 integer, so the story is built and nothing
    is raised, and the world is left as it is. *)
Theorem signer_detail_of_validated_token (w : world) (item_arg : Z) (T : string) :
  validate_token T = Ok tt ->
  Settings.list_item (BSMSSettings.get_signers (settings w)) item_arg
    = Ok (SignerSession (normalize_token T)) ->
  exists n,
    Py.int (normalize_token T) 16 = Some n /\
    bsms_signer_detail item_arg w
      = (Next ("Token HEX:" ++ LF ++ normalize_token T ++ LF ++ LF
                 ++ "Token decimal:" ++ LF ++ Py.str_of_int n), w).
Proof.
  intros Hv Hitem. destruct (int_normalized_token T Hv) as [n Hn].
  exists n. split; [exact Hn|].
  unfold bsms_signer_detail, bind, read_settings, lift.
  rewrite Hitem. unfold ret at 1. cbn beta iota. rewrite Hn. reflexivity.
Qed.

Lemma signer_detail_of_validated_token_witness :
  validate_token Demo.token_a = Ok tt /\
  fst (bsms_signer_detail 0 (Demo.world0 Demo.store0))
    = Next ("Token HEX:" ++ LF ++ "0123456789abcdef" ++ LF ++ LF
              ++ "Token decimal:" ++ LF ++ "81985529216486895").
Proof.
  assert (Hv : validate_token Demo.token_a = Ok tt) by reflexivity.
  split; [exact Hv|].
  destruct (signer_detail_of_validated_token (Demo.world0 Demo.store0) 0 Demo.token_a Hv)
    as (n & Hn & Hrun); [reflexivity|].
  rewrite Hrun. cbn [fst]. vm_compute in Hn. injection Hn as <-. reflexivity.
Defined.

Lemma py_position_None n index :
  index < - Z.of_nat n \/ Z.of_nat n <= index -> Settings.py_position n index = None.
Proof.
  intros H. unfold Settings.py_position.
  destruct (Z.ltb_spec index 0).
  - destruct (Z.leb_spec 0 (index + Z.of_nat n)); [|reflexivity].
    destruct (Z.ltb_spec (index + Z.of_nat n) (Z.of_nat n)); [lia|reflexivity].
  - destruct (Z.ltb_spec index (Z.of_nat n)); [lia|]. now rewrite andb_false_r.
Qed.

Lemma py_position_Some n index :
  - Z.of_nat n <= index < Z.of_nat n ->
  Settings.py_position n index
    = Some (Z.to_nat (if index <? 0 then index + Z.of_nat n else index)) /\
  (Z.to_nat (if (index <? 0)%Z then (index + Z.of_nat n)%Z else index) < n)%nat.
Proof.
  intros H. unfold Settings.py_position.
  destruct (Z.ltb_spec index 0).
  - destruct (Z.leb_spec 0 (index + Z.of_nat n)); [|lia].
    destruct (Z.ltb_spec (index + Z.of_nat n) (Z.of_nat n)); [|lia].
    split; [reflexivity|lia].
  - destruct (Z.leb_spec 0 index); [|lia].
    destruct (Z.ltb_spec index (Z.of_nat n)); [|lia].
    split; [reflexivity|lia].
Qed.

(** X2.  [bsms_signer_detail] at an index outside the signer list, counted
    as Python counts with negative indices from the end, raises
    [IndexError] and leaves the world as it is. *)
Theorem signer_detail_out_of_range (w : world) (item_arg : Z) :
  let n := Z.of_nat (length (BSMSSettings.get_signers (settings w))) in
  item_arg < - n \/ n <= item_arg ->
  bsms_signer_detail item_arg w = (Throw IndexError, w).
Proof.
  intros n Hout. unfold bsms_signer_detail, bind, read_settings, lift, Settings.list_item.
  rewrite py_position_None by exact Hout. reflexivity.
Qed.

Lemma signer_detail_out_of_range_witness :
  bsms_signer_detail 1 (Demo.world0 Demo.store0) = (Throw IndexError, Demo.world0 Demo.store0).
Proof.
  apply (signer_detail_out_of_range (Demo.world0 Demo.store0) 1).
  vm_compute. right. discriminate.
Defined.

Section TokenKeys.
Context {NGU : Ngu}.

(** X3.  A token of 16 or 32 hexadecimal digits is left as it is by
    [normalize_token], accepted by [validate_token], and
    [key_derivation_function] does not raise on it: the salt is the 8 or 16
    bytes the token spells. *)
Theorem hex_token_derives_key (T : string) :
  pure_hex T = true ->
  (String.length T = 16 \/ String.length T = 32)%nat ->
  normalize_token T = T /\
  validate_token T = Ok tt /\
  exists salt,
    Py.a2b_hex T = Some salt /\
    (2 * length salt = String.length T)%nat /\
    key_derivation_function T
      = Ok (Some (firstn 32 (pbkdf2_sha512 (Py.encode "No SPOF") salt 2048))).
Proof.
  intros Hhex Hlen.
  assert (Hne : T <> "00") by (intros ->; cbn in Hlen; lia).
  split; [exact (normalize_token_pure_hex T Hhex)|].
  split.
  { apply (validate_token_pure_hex T Hne Hhex). rewrite (len_pure_hex T Hhex). exact Hlen. }
  destruct (a2b_hex_pure_hex (String.length T / 2) T Hhex) as (salt & Hsalt & Hl).
  { destruct Hlen as [-> | ->]; reflexivity. }
  exists salt. split; [exact Hsalt|]. split.
  { rewrite Hl. destruct Hlen as [-> | ->]; reflexivity. }
  unfold key_derivation_function.
  destruct (String.eqb_spec T "00") as [->|_]; [congruence|].
  rewrite Hsalt. reflexivity.
Qed.

End TokenKeys.

Lemma hex_token_derives_key_witness :
  pure_hex Demo.token_a = true /\
  normalize_token Demo.token_a = Demo.token_a /\
  validate_token Demo.token_a = Ok tt.
Proof.
  assert (Hhex : pure_hex Demo.token_a = true) by reflexivity.
  assert (Hlen : (String.length Demo.token_a = 16 \/ String.length Demo.token_a = 32)%nat)
    by (left; reflexivity).
  destruct (@hex_token_derives_key Demo.ngu Demo.token_a Hhex Hlen) as (Hn & Hv & _).
  split; [exact Hhex|]. split; [exact Hn|exact Hv].
Defined.

(** ** The envelope over NFC *)

Lemma hex_nibble_not_hex c : is_hex_digit c = false -> Py.hex_nibble c = None.
Proof.
  destruct c as [[] [] [] [] [] [] [] []]; intros Hc; vm_compute in Hc;
    try discriminate Hc; reflexivity.
Qed.

Lemma a2b_hex_not_hex n :
  forall s, (String.length s <= n)%nat -> pure_hex s = false -> Py.a2b_hex s = None.
Proof.
  induction n as [n IH] using lt_wf_ind; intros s Hn Hs.
  destruct s as [|h [|l s]]; [discriminate Hs|reflexivity|].
  cbn [Py.a2b_hex]. cbn [pure_hex] in Hs.
  destruct (is_hex_digit h) eqn:Hh;
    [|rewrite (hex_nibble_not_hex h Hh); reflexivity].
  destruct (is_hex_digit l) eqn:Hl;
    [|rewrite (hex_nibble_not_hex l Hl); destruct (Py.hex_nibble h); reflexivity].
  cbn [andb] in Hs. cbn [String.length] in Hn.
  rewrite (IH (String.length s)) by (try exact Hs; lia).
  destruct (Py.hex_nibble h), (Py.hex_nibble l); reflexivity.
Qed.

Lemma a2b_hex_odd n :
  forall s, (String.length s <= n)%nat -> Nat.odd (String.length s) = true ->
            Py.a2b_hex s = None.
Proof.
  induction n as [n IH] using lt_wf_ind; intros s Hn Hs.
  destruct s as [|h [|l s]]; [discriminate Hs|reflexivity|].
  cbn [Py.a2b_hex]. cbn [String.length] in Hn, Hs.
  rewrite (IH (String.length s)) by (try exact Hs; lia).
  destruct (Py.hex_nibble h), (Py.hex_nibble l); reflexivity.
Qed.

Section EnvelopeOverNfc.
Context {NGU : Ngu}.

Lemma encrypt_then_decrypt (K : bytes) (T pt : string) :
  (forall k m, length (hmac_sha256 k m) = 32%nat) ->
  Py.utf8_check pt = true ->
  Py.startswith pt "BSMS" = true ->
  bsms_decrypt K (bsms_encrypt K T pt) = pt.
Proof.
  intros Hmac Hutf Hpre. unfold bsms_encrypt.
  rewrite bsms_decrypt_unfold by apply Hmac.
  unfold CTR_cipher. rewrite ctr_from_cancel, decode_encode by exact Hutf.
  rewrite Hpre. reflexivity.
Qed.

(** X4.  What is shared over NFC, the envelope as lower-case hex digits,
    is read back by [decrypt_nfc_data] under the same key: the hex text
    decodes to the envelope and the envelope opens to the plaintext, for a
    plaintext that begins with "BSMS". *)
Theorem nfc_envelope_round_trip (K : bytes) (T pt : string) :
  (forall k m, length (hmac_sha256 k m) = 32%nat) ->
  Py.utf8_check pt = true ->
  Py.startswith pt "BSMS" = true ->
  decrypt_nfc_data (Some K) (Py.b2a_hex (bsms_encrypt K T pt)) = Some pt.
Proof.
  intros Hmac Hutf Hpre. unfold decrypt_nfc_data.
  rewrite a2b_hex_b2a_hex, encrypt_then_decrypt by assumption. reflexivity.
Qed.

(** X5.  [decrypt_nfc_data] gives [None], and raises nothing, on a text
    that is no hex string: one with a character that is no hex digit, or
    one of odd length; so it does without a key. *)
Theorem decrypt_nfc_data_rejects (key : option bytes) (data : string) :
  (pure_hex data = false \/ Nat.odd (String.length data) = true \/ key = None) ->
  decrypt_nfc_data key data = None.
Proof.
  unfold decrypt_nfc_data. intros [Hhex|[Hodd| ->]].
  - rewrite (a2b_hex_not_hex (String.length data)) by (try exact Hhex; lia). reflexivity.
  - rewrite (a2b_hex_odd (String.length data)) by (try exact Hodd; lia). reflexivity.
  - destruct (Py.a2b_hex data); reflexivity.
Qed.

End EnvelopeOverNfc.

Lemma demo_hmac_length k m : length (@hmac_sha256 Demo.ngu k m) = 32%nat.
Proof. apply demo_pad_to_length. Qed.

Lemma nfc_envelope_round_trip_witness :
  Py.utf8_check Demo.demo_template = true /\
  Py.startswith Demo.demo_template "BSMS" = true /\
  @decrypt_nfc_data Demo.ngu (Some (Py.encode "a key"))
    (Py.b2a_hex (@bsms_encrypt Demo.ngu (Py.encode "a key") Demo.token_a Demo.demo_template))
  = Some Demo.demo_template.
Proof.
  assert (Hutf : Py.utf8_check Demo.demo_template = true) by reflexivity.
  assert (Hpre : Py.startswith Demo.demo_template "BSMS" = true) by reflexivity.
  split; [exact Hutf|]. split; [exact Hpre|].
  exact (@nfc_envelope_round_trip Demo.ngu (Py.encode "a key") Demo.token_a
           Demo.demo_template demo_hmac_length Hutf Hpre).
Defined.

Lemma decrypt_nfc_data_rejects_witness :
  @decrypt_nfc_data Demo.ngu (Some (Py.encode "a key")) "00f" = None.
Proof.
  apply (@decrypt_nfc_data_rejects Demo.ngu). right. left. reflexivity.
Defined.

(** ** The framing of the two texts *)

Lemma no_lf_cons c s :
  no_lf (String c s) = true -> Ascii.eqb c "010" = false /\ no_lf s = true.
Proof.
  unfold no_lf. cbn [Py.contains]. intros H.
  apply negb_true_iff, orb_false_iff in H as [Hst Hrest].
  split; [|apply negb_true_iff; exact Hrest].
  unfold LF in Hst. cbn [Py.startswith] in Hst.
  rewrite Ascii.eqb_sym.
  destruct (Ascii.eqb "010" c); [|reflexivity].
  destruct s; discriminate Hst.
Qed.

Lemma no_lf_app a b : no_lf a = true -> no_lf b = true -> no_lf (a ++ b) = true.
Proof.
  induction a as [|c a IH]; intros Ha Hb; [exact Hb|].
  destruct (no_lf_cons c a Ha) as [Hc Ha'].
  specialize (IH Ha' Hb). unfold no_lf in *. rewrite append_cons.
  cbn [Py.contains]. apply negb_true_iff in IH. rewrite IH, orb_false_r.
  unfold LF. cbn [Py.startswith]. rewrite Ascii.eqb_sym, Hc. reflexivity.
Qed.

Lemma split_on_no_lf s : no_lf s = true -> Py.split_on "010" s = [s].
Proof.
  induction s as [|c s IH]; intros Hs; [reflexivity|].
  destruct (no_lf_cons c s Hs) as [Hc Hs'].
  cbn [Py.split_on]. rewrite Hc, (IH Hs'). reflexivity.
Qed.

Lemma split_on_line a rest :
  no_lf a = true -> Py.split_on "010" (a ++ LF ++ rest) = a :: Py.split_on "010" rest.
Proof.
  induction a as [|c a IH]; intros Ha; [reflexivity|].
  destruct (no_lf_cons c a Ha) as [Hc Ha'].
  rewrite append_cons. cbn [Py.split_on]. rewrite Hc, (IH Ha'). reflexivity.
Qed.

Lemma startswith_app p s : Py.startswith (p ++ s) p = true.
Proof.
  induction p as [|c p IH]; [destruct s; reflexivity|].
  rewrite append_cons. cbn [Py.startswith]. rewrite Ascii.eqb_refl. exact IH.
Qed.

Lemma append_assoc (a b c : string) : ((a ++ b) ++ c = a ++ (b ++ c))%string.
Proof. induction a as [|x a IH]; [reflexivity|]. rewrite !append_cons, IH. reflexivity. Qed.

Lemma coordinator_data_round2_lines desc addr pr :
  coordinator_data_round2 desc addr pr
  = BSMS_VERSION ++ LF ++ desc ++ LF ++ pr ++ LF ++ addr.
Proof.
  unfold coordinator_data_round2. rewrite !append_assoc. reflexivity.
Qed.

(** X6.  The round-2 text of the coordinator is read back by the parser of
    the signer: it begins with the version, and splitting it at the line
    feeds gives exactly the version, the descriptor template, the path
    restrictions and the address, for a template, restrictions and address
    that hold no line feed. *)
Theorem round2_text_fields (desc addr pr : string) :
  no_lf desc = true -> no_lf pr = true -> no_lf addr = true ->
  Py.startswith (coordinator_data_round2 desc addr pr) BSMS_VERSION = true /\
  Py.split_on "010" (coordinator_data_round2 desc addr pr) = [BSMS_VERSION; desc; pr; addr].
Proof.
  intros Hd Hp Ha. rewrite coordinator_data_round2_lines. split.
  - apply startswith_app.
  - rewrite !split_on_line by (assumption || reflexivity).
    rewrite split_on_no_lf by exact Ha. reflexivity.
Qed.

Lemma round2_text_fields_witness :
  Py.split_on "010" Demo.demo_template
  = [BSMS_VERSION; "wsh(sortedmulti(2,[1]tpubA/**,[2]tpubB/**))";
     ALLOWED_PATH_RESTRICTIONS; "tb1q74707562"].
Proof.
  apply (round2_text_fields "wsh(sortedmulti(2,[1]tpubA/**,[2]tpubB/**))" "tb1q74707562"
           ALLOWED_PATH_RESTRICTIONS); reflexivity.
Defined.

Lemma list_ascii_of_string_app a b :
  list_ascii_of_string (a ++ b) = (list_ascii_of_string a ++ list_ascii_of_string b)%list.
Proof. induction a as [|c a IH]; [reflexivity|]. rewrite append_cons. cbn. rewrite IH. reflexivity. Qed.

Lemma string_of_list_ascii_app_list l1 l2 :
  string_of_list_ascii (l1 ++ l2)%list = string_of_list_ascii l1 ++ string_of_list_ascii l2.
Proof. induction l1 as [|c l1 IH]; [reflexivity|]. cbn. rewrite IH. reflexivity. Qed.

Lemma rev_string_app a b : Py.rev_string (a ++ b) = Py.rev_string b ++ Py.rev_string a.
Proof.
  unfold Py.rev_string.
  rewrite list_ascii_of_string_app, rev_app_distr, string_of_list_ascii_app_list. reflexivity.
Qed.

Lemma rev_string_involutive s : Py.rev_string (Py.rev_string s) = s.
Proof.
  unfold Py.rev_string.
  rewrite list_ascii_of_string_of_list_ascii, rev_involutive.
  apply string_of_list_ascii_of_string.
Qed.

Lemma lstrip_shape s :
  Py.lstrip s = "" \/ exists c s', Py.lstrip s = String c s' /\ Py.isspace c = false.
Proof.
  induction s as [|c s IH]; [left; reflexivity|].
  cbn [Py.lstrip]. destruct (Py.isspace c) eqn:Hc; [exact IH|].
  right. exists c, s. split; [reflexivity|exact Hc].
Qed.

Lemma lstrip_head c s : Py.isspace c = false -> Py.lstrip (String c s) = String c s.
Proof. intros Hc. cbn [Py.lstrip]. rewrite Hc. reflexivity. Qed.

Lemma strip_kept c a x :
  Py.isspace c = false -> Py.strip x <> "" ->
  Py.strip (String c a ++ Py.strip x) = String c a ++ Py.strip x.
Proof.
  intros Hc Hne.
  set (L := Py.lstrip (Py.rev_string (Py.lstrip x))).
  assert (Hsig : Py.strip x = Py.rev_string L) by reflexivity.
  assert (HL : exists d L', L = String d L' /\ Py.isspace d = false).
  { destruct (lstrip_shape (Py.rev_string (Py.lstrip x))) as [He|He]; [|exact He].
    exfalso. apply Hne. rewrite Hsig. unfold L. rewrite He. reflexivity. }
  destruct HL as (d & L' & HL & Hd).
  rewrite Hsig. unfold Py.strip at 1.
  rewrite append_cons, (lstrip_head c) by exact Hc. rewrite <- append_cons.
  unfold Py.rstrip. rewrite rev_string_app, rev_string_involutive.
  rewrite HL, append_cons, (lstrip_head d) by exact Hd.
  rewrite <- append_cons, <- HL.
  rewrite rev_string_app, rev_string_involutive. reflexivity.
Qed.

Section Round1Text.
Context {NGU : Ngu}.

Lemma signer_data_round1_lines token key_exp description sb :
  signer_data_round1 token key_exp description (Some sb)
  = BSMS_VERSION ++ LF ++ token ++ LF ++ key_exp ++ LF ++ description ++ LF
      ++ Py.strip (b2a_base64 sb).
Proof.
  unfold signer_data_round1. rewrite !append_assoc. reflexivity.
Qed.

(** X7.  The signed round-1 text of a signer is read back by the parser of
    the coordinator: it begins with the version, stripping it changes
    nothing, and splitting it at the line feeds gives exactly the version,
    the token, the key expression, the description and the signature, for
    fields that hold no line feed and a signature text that is not empty. *)
Theorem round1_text_fields (token key_exp description : string) (sb : bytes) :
  let sig := Py.strip (b2a_base64 sb) in
  let data := signer_data_round1 token key_exp description (Some sb) in
  no_lf token = true -> no_lf key_exp = true -> no_lf description = true ->
  no_lf sig = true -> sig <> "" ->
  Py.startswith data BSMS_VERSION = true /\
  Py.strip data = data /\
  Py.split_on "010" (Py.strip data) = [BSMS_VERSION; token; key_exp; description; sig].
Proof.
  intros sig data Ht Hk Hd Hs Hne. unfold data.
  rewrite signer_data_round1_lines. fold sig.
  assert (Hstrip : Py.strip (BSMS_VERSION ++ LF ++ token ++ LF ++ key_exp ++ LF
                               ++ description ++ LF ++ sig)
                   = BSMS_VERSION ++ LF ++ token ++ LF ++ key_exp ++ LF
                       ++ description ++ LF ++ sig).
  { rewrite <- !append_assoc. unfold sig.
    change (((((((BSMS_VERSION ++ LF) ++ token) ++ LF) ++ key_exp) ++ LF)
               ++ description) ++ LF)
      with (String "B" (((((((("SMS 1.0" ++ LF) ++ token) ++ LF) ++ key_exp) ++ LF)
                           ++ description) ++ LF))).
    apply strip_kept; [reflexivity|exact Hne]. }
  split; [apply startswith_app|]. split; [exact Hstrip|].
  rewrite Hstrip.
  rewrite !split_on_line by (assumption || reflexivity).
  rewrite split_on_no_lf by exact Hs. reflexivity.
Qed.

End Round1Text.

Lemma round1_text_fields_witness :
  Py.split_on "010"
    (Py.strip (@signer_data_round1 Demo.ngu Demo.token_a "[0f056943/48h/1h/0h/2h]tpubA"
                 "ColdCard signer" (Some [x01; xff])))
  = [BSMS_VERSION; Demo.token_a; "[0f056943/48h/1h/0h/2h]tpubA"; "ColdCard signer"; "01ff"].
Proof.
  apply (@round1_text_fields Demo.ngu Demo.token_a "[0f056943/48h/1h/0h/2h]tpubA"
           "ColdCard signer" [x01; xff]); try reflexivity.
  discriminate.
Defined.

(** ** The BSMS settings: what [add] and [delete] leave behind *)

Lemma save_fails_false_save st :
  save_fails st = false ->
  Settings.save st
  = (Ok tt,
     {| lists := lists st; dicts := dicts st; next_loc := next_loc st;
        cur_bsms := cur_bsms st; cur_xfp := cur_xfp st;
        flash_bsms := Settings.image st <$> cur_bsms st;
        save_script := tail (save_script st) |}).
Proof.
  unfold save_fails, Settings.save. destruct (save_script st) as [|[] rest]; intros H;
    try discriminate H; reflexivity.
Qed.

Lemma bsms_save_ok orig st d :
  save_fails st = false -> cur_bsms st = Some d ->
  fst (BSMSSettings.save orig st) = Ok tt /\
  BSMSSettings.get (snd (BSMSSettings.save orig st)) = BSMSSettings.get st /\
  flash_bsms (snd (BSMSSettings.save orig st)) = Some (BSMSSettings.get st) /\
  save_script (snd (BSMSSettings.save orig st)) = tail (save_script st).
Proof.
  intros Hs Hd. unfold BSMSSettings.save. rewrite (save_fails_false_save st Hs).
  cbn [fst snd]. unfold BSMSSettings.get. cbn [cur_bsms flash_bsms save_script].
  rewrite Hd. repeat split; reflexivity.
Qed.

Lemma bsms_save_fails orig st :
  save_fails st = true -> fst (BSMSSettings.save orig st) = Raised BSMSOutOfSpace.
Proof.
  unfold save_fails. destruct (save_script st) as [|[] rest] eqn:Hs; try discriminate.
  intros _. exact (save_failure_raises orig st rest Hs).
Qed.

Lemma get_lookup st who l :
  BSMSSettings.get st !! who = Some l ->
  exists d l0, cur_bsms st = Some d /\ Settings.dict_at st d !! who = Some l0 /\
               Settings.list_at st l0 = l.
Proof.
  unfold BSMSSettings.get. destruct (cur_bsms st) as [d|]; [|intros H; discriminate H].
  unfold Settings.image. rewrite lookup_fmap.
  destruct (Settings.dict_at st d !! who) as [l0|] eqn:Hl0; [|discriminate].
  intros [= <-]. exists d, l0. auto.
Qed.

Lemma get_lookup_at st d who :
  cur_bsms st = Some d ->
  BSMSSettings.get st !! who = Settings.list_at st <$> (Settings.dict_at st d !! who).
Proof.
  intros Hd. unfold BSMSSettings.get. rewrite Hd. unfold Settings.image.
  apply lookup_fmap.
Qed.

Lemma get_fields st' d L D k :
  cur_bsms st' = Some d -> lists st' = L -> default ∅ (dicts st' !! d) = D ->
  BSMSSettings.get st' !! k = (fun l => default [] (L !! l)) <$> (D !! k).
Proof.
  intros Hd <- <-. unfold BSMSSettings.get. rewrite Hd. unfold Settings.image.
  rewrite lookup_fmap. reflexivity.
Qed.

(** the store that [add] hands to [save] *)
Lemma add_before_save who value st :
  heap_wf st = true ->
  exists orig st3 d,
    BSMSSettings.add who value st = BSMSSettings.save orig st3 /\
    save_script st3 = save_script st /\
    cur_bsms st3 = Some d /\
    BSMSSettings.get st3 !! who
      = Some (default [] (BSMSSettings.get st !! who) ++ [value])%list /\
    (unshared st -> forall k, k <> who ->
       BSMSSettings.get st3 !! k = BSMSSettings.get st !! k).
Proof.
  intros Hwf. pose proof Hwf as Hspec.
  apply heap_wf_spec in Hspec as (Hlists & Hdicts & Hvals & Hcurlt).
  unfold BSMSSettings.add, Settings.get_bsms.
  destruct (cur_bsms st) as [d|] eqn:Hcur.
  - pose proof (heap_wf_cur_bsms st d Hwf Hcur) as Hd.
    assert (Hget : forall k, BSMSSettings.get st !! k
                     = (fun l => default [] (lists st !! l))
                         <$> (default ∅ (dicts st !! d) !! k))
      by (intros k; apply (get_fields st d); auto).
    unfold Settings.dict_copy, Settings.new_dict. cbn iota beta.
    unfold Settings.new_list, Settings.dict_setitem, Settings.set_dicts, Settings.set_bsms,
      Settings.list_append, Settings.set_lists, Settings.list_at.
    unfold Settings.dict_at.
    cbn [next_loc lists dicts cur_bsms cur_xfp flash_bsms save_script].
    rewrite ?lookup_insert_ne by congruence.
    destruct (default ∅ (dicts st !! d) !! who) as [l|] eqn:Hwho.
    + cbn [next_loc lists dicts cur_bsms cur_xfp flash_bsms save_script].
      eexists _, _, d. split; [reflexivity|]. split; [reflexivity|].
      split; [reflexivity|].
      rewrite Hget, Hwho. cbn [fmap option_fmap option_map from_option].
      change (id ?x) with x.
      split.
      * erewrite get_fields; [|reflexivity|reflexivity|
          cbn [dicts]; rewrite lookup_insert_ne by congruence; reflexivity].
        cbn [lists].
        rewrite Hwho. cbn [fmap option_fmap option_map].
        rewrite lookup_insert_eq. reflexivity.
      * intros Hun k Hk.
        erewrite get_fields; [|reflexivity|reflexivity|
          cbn [dicts]; rewrite lookup_insert_ne by congruence; reflexivity].
        cbn [lists].
        rewrite Hget.
        destruct (default ∅ (dicts st !! d) !! k) as [l'|] eqn:Hk'; [|reflexivity].
        cbn [fmap option_fmap option_map]. f_equal.
        rewrite lookup_insert_ne; [reflexivity|].
        intros <-. apply Hk.
        destruct (dicts st !! d) as [m|] eqn:Hm; [|discriminate Hwho].
        exact (Hun d m k who l Hm Hk' Hwho).
    + cbn [next_loc lists dicts cur_bsms cur_xfp flash_bsms save_script].
      rewrite ?lookup_insert_ne by congruence.
      eexists _, _, d. split; [reflexivity|]. split; [reflexivity|].
      split; [reflexivity|].
      rewrite Hget, Hwho. cbn [fmap option_fmap option_map from_option].
      split.
      * erewrite get_fields; [|reflexivity|reflexivity|
          cbn [dicts]; rewrite lookup_insert_eq; reflexivity].
        cbn [lists from_option]. change (id ?x) with x.
        rewrite lookup_insert_eq. cbn [fmap option_fmap option_map].
        rewrite lookup_insert_eq. reflexivity.
      * intros _ k Hk.
        erewrite get_fields; [|reflexivity|reflexivity|
          cbn [dicts]; rewrite lookup_insert_eq; reflexivity].
        cbn [lists from_option]. change (id ?x) with x.
        rewrite Hget. rewrite lookup_insert_ne by congruence.
        destruct (default ∅ (dicts st !! d) !! k) as [l'|] eqn:Hk'; [|reflexivity].
        cbn [fmap option_fmap option_map]. f_equal.
        rewrite lookup_insert_ne; [reflexivity|].
        destruct (dicts st !! d) as [m|] eqn:Hm; [|discriminate Hk'].
        cbn [default] in Hk'. specialize (Hvals d m k l' Hm Hk'). lia.
  - assert (Hget0 : forall k, BSMSSettings.get st !! k = None).
    { intros k. unfold BSMSSettings.get. rewrite Hcur. apply lookup_empty. }
    unfold Settings.dict_copy, Settings.new_dict. cbn iota beta.
    unfold Settings.new_list, Settings.dict_setitem, Settings.set_dicts, Settings.set_bsms,
      Settings.list_append, Settings.set_lists, Settings.list_at.
    unfold Settings.dict_at.
    cbn [next_loc lists dicts cur_bsms cur_xfp flash_bsms save_script].
    rewrite (lookup_insert_ne _ (S (next_loc st)) (next_loc st)) by lia.
    rewrite lookup_insert_eq. cbn [from_option]. unfold id. rewrite lookup_empty.
    cbn [next_loc lists dicts cur_bsms cur_xfp flash_bsms save_script].
    rewrite ?(lookup_insert_ne _ (S (next_loc st)) (next_loc st)) by lia.
    rewrite ?lookup_insert_eq. cbn [from_option]. unfold id.
    eexists _, _, (next_loc st). split; [reflexivity|]. split; [reflexivity|].
    split; [reflexivity|].
    rewrite Hget0. cbn [default].
    split.
    + erewrite get_fields; [|reflexivity|reflexivity|
        cbn [dicts]; rewrite lookup_insert_eq; reflexivity].
        cbn [lists from_option]. change (id ?x) with x.
      rewrite lookup_insert_eq. cbn [fmap option_fmap option_map].
      rewrite lookup_insert_eq. reflexivity.
    + intros _ k Hk. rewrite Hget0.
      erewrite get_fields; [|reflexivity|reflexivity|
        cbn [dicts]; rewrite lookup_insert_eq; reflexivity].
        cbn [lists from_option]. change (id ?x) with x.
      rewrite lookup_insert_ne by congruence. rewrite lookup_empty. reflexivity.
Qed.

(** the store that [delete] hands to [save], where the key is present and
    the index in range *)
Lemma delete_before_save who index st l i :
  heap_wf st = true ->
  BSMSSettings.get st !! who = Some l ->
  Settings.py_position (length l) index = Some i ->
  exists orig st3 d,
    BSMSSettings.delete who index st = BSMSSettings.save orig st3 /\
    save_script st3 = save_script st /\
    cur_bsms st3 = Some d /\
    BSMSSettings.get st3 !! who = Some (delete i l) /\
    (unshared st -> forall k, k <> who ->
       BSMSSettings.get st3 !! k = BSMSSettings.get st !! k).
Proof.
  intros Hwf Hl Hpos.
  destruct (get_lookup st who l Hl) as (d & l0 & Hcur & Hwho & Hl0).
  pose proof (heap_wf_cur_bsms st d Hwf Hcur) as Hd.
  assert (Hget : forall k, BSMSSettings.get st !! k
                   = (fun l => default [] (lists st !! l))
                       <$> (default ∅ (dicts st !! d) !! k))
    by (intros k; apply (get_fields st d); auto).
  unfold BSMSSettings.delete, Settings.get_bsms. rewrite Hcur.
  unfold Settings.dict_copy, Settings.new_dict. cbn iota beta.
  unfold Settings.list_pop, Settings.set_bsms, Settings.set_lists, Settings.list_at.
  unfold Settings.dict_at in *. unfold Settings.list_at in Hl0.
  cbn [next_loc lists dicts cur_bsms cur_xfp flash_bsms save_script].
  rewrite ?lookup_insert_ne by congruence.
  rewrite Hwho. cbn [lists]. rewrite Hl0, Hpos.
  cbn [next_loc lists dicts cur_bsms cur_xfp flash_bsms save_script].
  eexists _, _, d. split; [reflexivity|]. split; [reflexivity|].
  split; [reflexivity|]. split.
  - erewrite get_fields; [|reflexivity|reflexivity|
      cbn [dicts]; rewrite lookup_insert_ne by congruence; reflexivity].
    cbn [lists]. rewrite Hwho. cbn [fmap option_fmap option_map].
    rewrite lookup_insert_eq. reflexivity.
  - intros Hun k Hk.
    erewrite get_fields; [|reflexivity|reflexivity|
      cbn [dicts]; rewrite lookup_insert_ne by congruence; reflexivity].
    cbn [lists]. rewrite Hget.
    destruct (default ∅ (dicts st !! d) !! k) as [l'|] eqn:Hk'; [|reflexivity].
    cbn [fmap option_fmap option_map]. f_equal.
    rewrite lookup_insert_ne; [reflexivity|].
    intros <-. apply Hk.
    destruct (dicts st !! d) as [m|] eqn:Hm; [|discriminate Hwho].
    exact (Hun d m k who l0 Hm Hk' Hwho).
Qed.

(** a [delete] that finds no key, or no entry at the index, changes
    nothing that can be observed *)
Lemma delete_nothing who index st :
  heap_wf st = true ->
  Settings.py_position (length (default [] (BSMSSettings.get st !! who))) index = None ->
  fst (BSMSSettings.delete who index st) = Ok tt /\
  observe (snd (BSMSSettings.delete who index st)) = observe st.
Proof.
  intros Hwf Hpos. unfold BSMSSettings.delete, Settings.get_bsms.
  destruct (cur_bsms st) as [d|] eqn:Hcur.
  - pose proof (heap_wf_cur_bsms st d Hwf Hcur) as Hd.
    unfold Settings.dict_copy.
    pose proof (observe_after_new_dict st (Settings.dict_at st d) Hwf) as Hobs.
    pose proof (dict_at_after_new_dict st (Settings.dict_at st d) d Hd) as Hdict.
    assert (Hlist : forall l,
      Settings.list_at (snd (Settings.new_dict (Settings.dict_at st d) st)) l
      = Settings.list_at st l) by reflexivity.
    destruct (Settings.new_dict (Settings.dict_at st d) st) as [orig st1].
    cbn [snd] in Hobs, Hdict, Hlist. rewrite Hdict.
    destruct (Settings.dict_at st d !! who) as [l|] eqn:Hwho;
      [|cbn [fst snd]; tauto].
    rewrite (get_lookup_at st d who Hcur), Hwho in Hpos.
    cbn [fmap option_fmap option_map from_option] in Hpos.
    unfold Settings.list_pop. rewrite Hlist. change (id ?x) with x in Hpos.
    rewrite Hpos. cbn [fst snd]. tauto.
  - unfold Settings.dict_copy. cbn.
    unfold Settings.dict_at. cbn.
    rewrite lookup_insert_ne by lia. rewrite lookup_insert_eq. cbn.
    rewrite lookup_empty. cbn. unfold observe, BSMSSettings.get. cbn.
    rewrite Hcur. auto.
Qed.

(** X8.  [BSMSSettings.add] raises [BSMSOutOfSpace] exactly when the first
    [save()] fails, and nothing else; when [save()] succeeds, the value is
    the last entry of the list under its key, which is created when it was
    absent, the image in flash is the sub-map as it now reads, and, where
    no two keys share a list, the lists under the other keys are as they
    were. *)
Theorem add_appends (who : string) (value : session) (st : store) :
  heap_wf st = true ->
  let st' := snd (BSMSSettings.add who value st) in
  fst (BSMSSettings.add who value st)
    = (if save_fails st then Raised BSMSOutOfSpace else Ok tt) /\
  (save_fails st = false ->
   BSMSSettings.get st' !! who
     = Some (default [] (BSMSSettings.get st !! who) ++ [value])%list /\
   flash_bsms st' = Some (BSMSSettings.get st') /\
   (unshared st -> forall k, k <> who ->
      BSMSSettings.get st' !! k = BSMSSettings.get st !! k)).
Proof.
  intros Hwf st'. unfold st'.
  destruct (add_before_save who value st Hwf)
    as (orig & st3 & d & -> & Hscript & Hcur & Hwho & Hothers).
  assert (Hfails : save_fails st3 = save_fails st)
    by (unfold save_fails; rewrite Hscript; reflexivity).
  split.
  - destruct (save_fails st) eqn:Hs.
    + apply bsms_save_fails. congruence.
    + apply (bsms_save_ok orig st3 d); congruence.
  - intros Hs. rewrite <- Hfails in Hs.
    destruct (bsms_save_ok orig st3 d Hs Hcur) as (_ & Hget & Hflash & _).
    rewrite Hflash, Hget. split; [exact Hwho|]. split; [reflexivity|exact Hothers].
Qed.

Lemma add_appends_witness :
  heap_wf Demo.store0 = true /\
  BSMSSettings.get_signers (snd (BSMSSettings.signer_add "fedcba9876543210" Demo.store0))
  = [SignerSession Demo.token_a; SignerSession "fedcba9876543210"].
Proof.
  assert (Hwf : heap_wf Demo.store0 = true) by (vm_compute; reflexivity).
  split; [exact Hwf|].
  destruct (add_appends "s" (SignerSession "fedcba9876543210") Demo.store0 Hwf)
    as (_ & Hok).
  destruct (Hok eq_refl) as (Hget & _).
  unfold BSMSSettings.get_signers, BSMSSettings.signer_add, BSMSSettings.BSMS_SIGNER_SETTINGS.
  rewrite Hget. vm_compute. reflexivity.
Defined.

(** X9.  [BSMSSettings.delete] at an index in range, counted as Python
    counts with negative indices from the end, raises [BSMSOutOfSpace]
    exactly when the first [save()] fails; when [save()] succeeds, the entry
    at that position is gone from the list and the others keep their
    order, the image in flash is the sub-map as it now reads, and, where no
    two keys share a list, the lists under the other keys are as they
    were. *)
Theorem delete_removes (who : string) (index : Z) (st : store) (l : list session) :
  heap_wf st = true ->
  BSMSSettings.get st !! who = Some l ->
  - Z.of_nat (length l) <= index < Z.of_nat (length l) ->
  let i := Z.to_nat (if index <? 0 then index + Z.of_nat (length l) else index) in
  let st' := snd (BSMSSettings.delete who index st) in
  fst (BSMSSettings.delete who index st)
    = (if save_fails st then Raised BSMSOutOfSpace else Ok tt) /\
  (save_fails st = false ->
   BSMSSettings.get st' !! who = Some (take i l ++ drop (S i) l)%list /\
   flash_bsms st' = Some (BSMSSettings.get st') /\
   (unshared st -> forall k, k <> who ->
      BSMSSettings.get st' !! k = BSMSSettings.get st !! k)).
Proof.
  intros Hwf Hl Hrange i st'. unfold st'.
  destruct (py_position_Some (length l) index Hrange) as [Hpos Hlt]. fold i in Hpos, Hlt.
  destruct (delete_before_save who index st l i Hwf Hl Hpos)
    as (orig & st3 & d & -> & Hscript & Hcur & Hwho & Hothers).
  assert (Hfails : save_fails st3 = save_fails st)
    by (unfold save_fails; rewrite Hscript; reflexivity).
  split.
  - destruct (save_fails st) eqn:Hs.
    + apply bsms_save_fails. congruence.
    + apply (bsms_save_ok orig st3 d); congruence.
  - intros Hs. rewrite <- Hfails in Hs.
    destruct (bsms_save_ok orig st3 d Hs Hcur) as (_ & Hget & Hflash & _).
    rewrite Hflash, Hget. split; [|split; [reflexivity|exact Hothers]].
    rewrite Hwho. f_equal. apply delete_take_drop.
Qed.

Lemma delete_removes_witness :
  heap_wf Demo.store0 = true /\
  BSMSSettings.get_signers (snd (BSMSSettings.signer_delete (-1) Demo.store0)) = [].
Proof.
  assert (Hwf : heap_wf Demo.store0 = true) by (vm_compute; reflexivity).
  split; [exact Hwf|].
  assert (Hl : BSMSSettings.get Demo.store0 !! "s" = Some [SignerSession Demo.token_a])
    by (vm_compute; reflexivity).
  destruct (delete_removes "s" (-1) Demo.store0 _ Hwf Hl) as (_ & Hok); [cbn; lia|].
  destruct (Hok eq_refl) as (Hget & _).
  unfold BSMSSettings.get_signers, BSMSSettings.signer_delete,
    BSMSSettings.BSMS_SIGNER_SETTINGS.
  rewrite Hget. reflexivity.
Defined.

(** X10.  [BSMSSettings.delete] where there is nothing to delete, the key
    being absent or the index outside the list on either side, raises
    nothing, calls no [save()] and leaves the sub-map and the image in
    flash as they were: the [IndexError] of [pop] never leaves it. *)
Theorem delete_nothing_to_delete (who : string) (index : Z) (st : store) :
  heap_wf st = true ->
  let n := Z.of_nat (length (default [] (BSMSSettings.get st !! who))) in
  index < - n \/ n <= index ->
  fst (BSMSSettings.delete who index st) = Ok tt /\
  observe (snd (BSMSSettings.delete who index st)) = observe st.
Proof.
  intros Hwf n Hout. apply delete_nothing; [exact Hwf|].
  apply py_position_None. exact Hout.
Qed.

Lemma delete_nothing_to_delete_witness :
  heap_wf Demo.store0 = true /\
  fst (BSMSSettings.signer_delete (-2) Demo.store0) = Ok tt /\
  BSMSSettings.get_signers (snd (BSMSSettings.signer_delete (-2) Demo.store0))
    = [SignerSession Demo.token_a].
Proof.
  assert (Hwf : heap_wf Demo.store0 = true) by (vm_compute; reflexivity).
  split; [exact Hwf|].
  destruct (delete_nothing_to_delete "s" (-2) Demo.store0 Hwf) as (Hr & _).
  { vm_compute. left. reflexivity. }
  split; [exact Hr|]. vm_compute. reflexivity.
Defined.

Lemma py_position_last n : Settings.py_position (S n) (-1) = Some n.
Proof.
  unfold Settings.py_position. change (-1 <? 0) with true. cbn iota.
  destruct (Z.leb_spec 0 (-1 + Z.of_nat (S n))); [|lia].
  destruct (Z.ltb_spec (-1 + Z.of_nat (S n)) (Z.of_nat (S n))); [|lia].
  cbn [andb]. f_equal. lia.
Qed.

(** X11.  Deleting the last entry after an [add] undoes it: when the two
    [save()] calls succeed, [delete(who, -1)] after [add(who, value)] leaves
    under [who] the list that was there before, the empty list where the
    key was absent. *)
Theorem add_then_delete_last (who : string) (value : session) (st : store) :
  heap_wf st = true ->
  (forall b, In b (firstn 2 (save_script st)) -> b = true) ->
  let st1 := snd (BSMSSettings.add who value st) in
  let st2 := snd (BSMSSettings.delete who (-1) st1) in
  fst (BSMSSettings.add who value st) = Ok tt /\
  fst (BSMSSettings.delete who (-1) st1) = Ok tt /\
  BSMSSettings.get st2 !! who = Some (default [] (BSMSSettings.get st !! who)).
Proof.
  intros Hwf Hscript st1 st2. unfold st2, st1. clear st1 st2.
  pose proof (add_preserves_heap_wf who value st Hwf) as Hwf1.
  destruct (add_before_save who value st Hwf)
    as (orig & st3 & d & Hadd & Hs3 & Hcur & Hwho & _).
  rewrite Hadd in *.
  assert (Hf3 : save_fails st3 = false).
  { unfold save_fails. rewrite Hs3. destruct (save_script st) as [|[] rest]; try reflexivity.
    specialize (Hscript false (or_introl eq_refl)). discriminate Hscript. }
  destruct (bsms_save_ok orig st3 d Hf3 Hcur) as (Hok & Hget & _ & Htail).
  split; [exact Hok|].
  set (st1 := snd (BSMSSettings.save orig st3)) in *.
  set (l := default [] (BSMSSettings.get st !! who)) in *.
  assert (Hl1 : BSMSSettings.get st1 !! who = Some (l ++ [value])%list)
    by (rewrite Hget; exact Hwho).
  assert (Hpos : Settings.py_position (length (l ++ [value])%list) (-1) = Some (length l)).
  { rewrite length_app. cbn [length]. rewrite Nat.add_1_r. apply py_position_last. }
  destruct (delete_before_save who (-1) st1 _ _ Hwf1 Hl1 Hpos)
    as (orig' & st4 & d' & Hdel & Hs4 & Hcur' & Hwho' & _).
  rewrite Hdel.
  assert (Hf4 : save_fails st4 = false).
  { unfold save_fails. rewrite Hs4, Htail, Hs3.
    destruct (save_script st) as [|b0 [|[] rest]]; try reflexivity.
    specialize (Hscript false (or_intror (or_introl eq_refl))). discriminate Hscript. }
  destruct (bsms_save_ok orig' st4 d' Hf4 Hcur') as (Hok' & Hget' & _ & _).
  split; [exact Hok'|].
  rewrite Hget', Hwho'. f_equal.
  rewrite delete_take_drop, take_app_length.
  rewrite drop_ge by (rewrite length_app; cbn; lia). apply app_nil_r.
Qed.

Lemma add_then_delete_last_witness :
  heap_wf Demo.store0 = true /\
  BSMSSettings.get_signers
    (snd (BSMSSettings.signer_delete (-1)
            (snd (BSMSSettings.signer_add "fedcba9876543210" Demo.store0))))
  = [SignerSession Demo.token_a].
Proof.
  assert (Hwf : heap_wf Demo.store0 = true) by (vm_compute; reflexivity).
  split; [exact Hwf|].
  destruct (add_then_delete_last "s" (SignerSession "fedcba9876543210") Demo.store0 Hwf)
    as (_ & _ & Hget).
  { intros b Hb. destruct Hb. }
  unfold BSMSSettings.get_signers, BSMSSettings.signer_delete, BSMSSettings.signer_add,
    BSMSSettings.BSMS_SIGNER_SETTINGS.
  rewrite Hget. vm_compute. reflexivity.
Defined.

(** ** Signer, round 2: what it leaves alone *)

Lemma confined_ret {A} P (a : A) : confined P (ret a).
Proof. intros w. cbn. repeat split. exists []. rewrite app_nil_r. split; reflexivity. Qed.

Lemma confined_return {A} P : confined P (@return_ A).
Proof. intros w. cbn. repeat split. exists []. rewrite app_nil_r. split; reflexivity. Qed.

Lemma confined_raise {A} P e : confined P (@raise A e).
Proof. intros w. cbn. repeat split. exists []. rewrite app_nil_r. split; reflexivity. Qed.

Lemma confined_lift {A} P (r : result A) : confined P (lift r).
Proof. destruct r; [apply confined_ret|apply confined_raise]. Qed.

Lemma confined_assert P cond msg : confined P (assert_ cond msg).
Proof. destruct cond; [apply confined_ret|apply confined_raise]. Qed.

Lemma confined_read_settings {A} P (f : store -> A) : confined P (read_settings f).
Proof. intros w. cbn. repeat split. exists []. rewrite app_nil_r. split; reflexivity. Qed.

Lemma confined_emit (P : event -> bool) ev : P ev = true -> confined P (emit ev).
Proof.
  intros Hev w. cbn. repeat split. exists [ev]. split; [reflexivity|].
  cbn. rewrite Hev. reflexivity.
Qed.

Lemma confined_bind {A B} P (c : M A) (k : A -> M B) :
  confined P c -> (forall a, confined P (k a)) -> confined P (bind c k).
Proof.
  intros Hc Hk w. unfold bind. destruct (Hc w) as (Hs & Hr & evs & Ht & Hall).
  destruct (c w) as [[a| |e] w1]; cbn [snd] in *.
  - destruct (Hk a w1) as (Hs' & Hr' & evs' & Ht' & Hall').
    rewrite Hs', Hr', Ht', Hs, Hr, Ht. repeat split.
    exists (evs ++ evs')%list. rewrite app_assoc. split; [reflexivity|].
    rewrite forallb_app, Hall, Hall'. reflexivity.
  - repeat split; try assumption. eauto.
  - repeat split; try assumption. eauto.
Qed.

Lemma confined_with_sensitive_values {A} (P : event -> bool) (c : M A) :
  P SecretsOpened = true -> P SecretsClosed = true ->
  confined P c -> confined P (with_sensitive_values c).
Proof.
  intros Ho Hcl Hc w. unfold with_sensitive_values. cbn [emit].
  destruct (Hc {| settings := settings w; trace := (trace w ++ [SecretsOpened])%list;
                  rng_calls := rng_calls w |}) as (Hs & Hr & evs & Ht & Hall).
  destruct (c _) as [r w2]. cbn [snd settings rng_calls trace] in *.
  repeat split; try assumption.
  exists (SecretsOpened :: evs ++ [SecretsClosed])%list. rewrite Ht. split.
  - rewrite <- !app_assoc. reflexivity.
  - cbn [forallb]. rewrite Ho, forallb_app, Hall. cbn. rewrite Hcl. reflexivity.
Qed.

Lemma confined_exceptions_handler (P : event -> bool) (c : M unit) w :
  (forall e, P (FailureShown e) = true) ->
  confined P c ->
  settings (exceptions_handler c w) = settings w /\
  rng_calls (exceptions_handler c w) = rng_calls w /\
  exists evs, trace (exceptions_handler c w) = (trace w ++ evs)%list /\
              forallb P evs = true.
Proof.
  intros Hf Hc. unfold exceptions_handler.
  destruct (Hc w) as (Hs & Hr & evs & Ht & Hall).
  destruct (c w) as [[a| |e] w1]; cbn [snd emit settings rng_calls trace] in *;
    repeat split; try assumption; eauto.
  exists (evs ++ [FailureShown e])%list. rewrite Ht, <- app_assoc. split; [reflexivity|].
  rewrite forallb_app, Hall. cbn. rewrite Hf. reflexivity.
Qed.

Ltac confined_step :=
  first
    [ apply confined_ret | apply confined_return | apply confined_raise
    | apply confined_lift | apply confined_assert | apply confined_read_settings
    | apply confined_emit; reflexivity
    | apply confined_with_sensitive_values; [reflexivity|reflexivity|]
    | apply confined_bind; [|intros ?]
    | match goal with
      | |- confined _ (if ?b then _ else _) => destruct b
      | |- confined _ (let '(_, _) := ?p in _) => destruct p
      | |- confined _ (match ?x with _ => _ end) => destruct x
      end ].

Section RoundEffects.
Context {NGU : Ngu} {WALLET : Wallet} {CHANNELS : Channels}.

Lemma confined_sr2_collect P ext_key_prefix my_xfp keys :
  forall my_keys nodes, confined P (sr2_collect ext_key_prefix my_xfp keys my_keys nodes).
Proof.
  induction keys as [|[[xfp deriv_path] ext_key] keys IH]; intros my_keys nodes;
    cbn [sr2_collect]; [apply confined_ret|].
  apply confined_bind; [apply confined_assert|]. intros _.
  apply confined_bind; [apply confined_lift|]. intros nd. apply IH.
Qed.

Lemma confined_assert_xfp P cond my_xfp msg : confined P (assert_xfp cond my_xfp msg).
Proof. unfold assert_xfp. repeat confined_step. Qed.

Lemma confined_signer_round2_body idx u :
  confined sr2_event (bsms_signer_round2_body idx u).
Proof.
  unfold bsms_signer_round2_body, sr2_read_template, sr2_decrypt, sr2_validate_template,
    sr2_check_address, sr2_enroll.
  repeat first [apply confined_sr2_collect | apply confined_assert_xfp | confined_step].
Qed.

(** X12.  Round 2 of a signer, however it ends, leaves the settings as
    they were, the BSMS sessions among them, draws no random bytes, and
    signs nothing, shares nothing over NFC and writes no file: all it does
    to the outside is to open and close the secrets, to hand the wallet to
    the enrolment, and to show a failure.  What the enrolment of [auth.py]
    does once the user approves it comes after the round. *)
Theorem signer_round2_effects (idx : Z) (u : sr2_user) (w : world) :
  let w' := bsms_signer_round2 idx u w in
  settings w' = settings w /\
  rng_calls w' = rng_calls w /\
  exists evs, trace w' = (trace w ++ evs)%list /\ forallb sr2_event evs = true.
Proof.
  apply confined_exceptions_handler; [reflexivity|].
  apply confined_signer_round2_body.
Qed.

End RoundEffects.

(** ** Round 1: what is persisted *)

Lemma keeps_settings_ret {A} (a : A) : keeps_settings (ret a).
Proof. intros w. reflexivity. Qed.

Lemma keeps_settings_return {A} : keeps_settings (@return_ A).
Proof. intros w. reflexivity. Qed.

Lemma keeps_settings_raise {A} e : keeps_settings (@raise A e).
Proof. intros w. reflexivity. Qed.

Lemma keeps_settings_lift {A} (r : result A) : keeps_settings (lift r).
Proof. destruct r; intros w; reflexivity. Qed.

Lemma keeps_settings_assert cond msg : keeps_settings (assert_ cond msg).
Proof. destruct cond; intros w; reflexivity. Qed.

Lemma keeps_settings_emit ev : keeps_settings (emit ev).
Proof. intros w. reflexivity. Qed.

Lemma keeps_settings_read_settings {A} (f : store -> A) : keeps_settings (read_settings f).
Proof. intros w. reflexivity. Qed.

Lemma keeps_settings_bind {A B} (c : M A) (k : A -> M B) :
  keeps_settings c -> (forall a, keeps_settings (k a)) -> keeps_settings (bind c k).
Proof.
  intros Hc Hk w. unfold bind. specialize (Hc w).
  destruct (c w) as [[a| |e] w1]; cbn [snd] in *; [|exact Hc|exact Hc].
  rewrite (Hk a w1). exact Hc.
Qed.

Lemma keeps_settings_try_card {A} (c : M A) : keeps_settings c -> keeps_settings (try_card c).
Proof.
  intros Hc w. unfold try_card. specialize (Hc w).
  destruct (c w) as [[a| |e] w1]; exact Hc.
Qed.

Lemma keeps_settings_with_sensitive_values {A} (c : M A) :
  keeps_settings c -> keeps_settings (with_sensitive_values c).
Proof.
  intros Hc w. unfold with_sensitive_values. cbn [emit].
  specialize (Hc {| settings := settings w; trace := (trace w ++ [SecretsOpened])%list;
                    rng_calls := rng_calls w |}).
  destruct (c _) as [r w2]. exact Hc.
Qed.

Lemma appends_bind {A B} who value (c : M A) (k : A -> M B) :
  keeps_settings c -> (forall a, appends who value (k a)) -> appends who value (bind c k).
Proof.
  intros Hc Hk w b w' Hwf Hrun.
  apply bind_next_inv in Hrun as (a & w1 & Hcw & Hrun).
  pose proof (Hc w) as Hs. rewrite Hcw in Hs. cbn [snd] in Hs.
  rewrite <- Hs. apply (Hk a w1 b w'); [rewrite Hs; exact Hwf|exact Hrun].
Qed.

Lemma appends_add who value : appends who value (on_settings (BSMSSettings.add who value)).
Proof.
  intros w a w' Hwf Hrun. unfold on_settings in Hrun.
  destruct (add_before_save who value (settings w) Hwf)
    as (orig & st3 & d & Hadd & _ & Hcur & Hwho & _).
  rewrite Hadd in Hrun.
  destruct (save_fails st3) eqn:Hs.
  - pose proof (bsms_save_fails orig st3 Hs) as Hfail.
    destruct (BSMSSettings.save orig st3) as [r st4]. cbn [fst] in Hfail. subst r.
    discriminate Hrun.
  - destruct (bsms_save_ok orig st3 d Hs Hcur) as (_ & Hget & _ & _).
    destruct (BSMSSettings.save orig st3) as [[[]|e] st4]; [|discriminate Hrun].
    inversion Hrun; subst. cbn [settings snd] in *.
    rewrite Hget, Hwho. reflexivity.
Qed.

Section RoundPieces.
Context {CHANNELS : Channels}.

Lemma keeps_settings_NFC_share_text text : keeps_settings (NFC_share_text text).
Proof.
  unfold NFC_share_text.
  destruct nfc_present; [apply keeps_settings_emit|apply keeps_settings_raise].
Qed.

Lemma keeps_settings_write_to fname data : keeps_settings (write_to fname data).
Proof.
  unfold write_to. apply keeps_settings_bind; [apply keeps_settings_lift|].
  intros _. apply keeps_settings_emit.
Qed.

Lemma keeps_settings_write_token_files tokens :
  forall f_names, keeps_settings (write_token_files tokens f_names).
Proof.
  induction tokens as [|token tokens IH]; intros f_names; cbn [write_token_files];
    [apply keeps_settings_ret|].
  destruct (pick_filename _) as [fname nice].
  apply keeps_settings_bind; [apply keeps_settings_write_to|]. intros _. apply IH.
Qed.

End RoundPieces.

Ltac keeps_step :=
  first
    [ apply keeps_settings_ret | apply keeps_settings_return | apply keeps_settings_raise
    | apply keeps_settings_lift | apply keeps_settings_assert | apply keeps_settings_emit
    | apply keeps_settings_read_settings
    | apply keeps_settings_NFC_share_text | apply keeps_settings_write_to
    | apply keeps_settings_write_token_files
    | apply keeps_settings_try_card | apply keeps_settings_with_sensitive_values
    | apply keeps_settings_bind; [|intros ?]
    | match goal with
      | |- keeps_settings (if ?b then _ else _) => destruct b
      | |- keeps_settings (let '(_, _) := ?p in _) => destruct p
      | |- keeps_settings (match ?x with _ => _ end) => destruct x
      end ].

Ltac appends_step :=
  first
    [ apply appends_add
    | apply appends_bind; [solve [repeat keeps_step]|intros ?]
    | match goal with
      | |- appends _ _ (let '(_, _) := ?p in _) => destruct p
      end ].

Section RoundPersistence.
Context {NGU : Ngu} {WALLET : Wallet} {CHANNELS : Channels}.

(** X13.  When round 1 of a signer ends normally, the token it read was
    accepted by [validate_token], and the signer sessions are the ones
    there were, followed by one new session that holds the token as
    [normalize_token] leaves it. *)
Theorem signer_round1_persists (u : sr1_user) (w w' : world) :
  heap_wf (settings w) = true ->
  bsms_signer_round1_body u w = (Next tt, w') ->
  exists token_hex,
    fst (sr1_read_token u w) = Next token_hex /\
    validate_token token_hex = Ok tt /\
    BSMSSettings.get_signers (settings w')
      = (BSMSSettings.get_signers (settings w)
           ++ [SignerSession (normalize_token token_hex)])%list.
Proof.
  intros Hwf Hrun. unfold bsms_signer_round1_body in Hrun.
  apply bind_next_inv in Hrun as (token_hex & w1 & Hread & Hrun).
  pose proof (sr1_read_token_pure u w) as Hpure. rewrite Hread in Hpure.
  cbn [snd] in Hpure. subst w1.
  apply bind_next_inv in Hrun as ([] & w1 & Hval & Hrun).
  apply lift_next_inv in Hval as [Hval ->].
  exists token_hex. split; [rewrite Hread; reflexivity|]. split; [exact Hval|].
  match type of Hrun with
  | ?c w = _ =>
      assert (Happ : appends BSMSSettings.BSMS_SIGNER_SETTINGS
                       (SignerSession (normalize_token token_hex)) c)
  end.
  { repeat appends_step. }
  exact (Happ w tt w' Hwf Hrun).
Qed.

Lemma generate_tokens_inv n :
  (forall i m, length (random_bytes i m) = m) ->
  forall tokens w tokens' w',
    generate_tokens n tokens w = (Next tokens', w') ->
    settings w' = settings w /\
    exists new,
      tokens' = (tokens ++ new)%list /\ length new = n /\
      Forall (fun t => pure_hex t = true /\ String.length t = 32%nat) new.
Proof.
  intros Hrand. induction n as [|n IH]; intros tokens w tokens' w' Hrun.
  - cbn in Hrun. inversion Hrun; subst. split; [reflexivity|].
    exists []. rewrite app_nil_r. repeat split. constructor.
  - cbn [generate_tokens] in Hrun.
    apply bind_next_inv in Hrun as (b & w1 & Hb & Hrun).
    unfold ngu_random_bytes in Hb. inversion Hb; subst. clear Hb.
    apply IH in Hrun as (Hs & new & -> & Hlen & Hall).
    split; [exact Hs|].
    exists (Py.b2a_hex (random_bytes (rng_calls w) 16) :: new).
    rewrite <- app_assoc. split; [reflexivity|]. split; [cbn; lia|].
    constructor; [|exact Hall].
    destruct (b2a_hex_pure_hex (random_bytes (rng_calls w) 16)) as [Hp Hl].
    rewrite Hrand in Hl. split; [exact Hp|exact Hl].
Qed.

Lemma et_map_Some et s : et_map et = Some s -> et = "1" \/ et = "2" \/ et = "3".
Proof.
  unfold et_map.
  destruct (String.eqb_spec et "1"); [auto|].
  destruct (String.eqb_spec et "2"); [auto|].
  destruct (String.eqb_spec et "3"); [auto|discriminate].
Qed.

(** X14.  When round 1 of a coordinator ends normally, the coordinator
    sessions are the ones there were, followed by one new session, and the
    new session is well formed: 1 <= M <= N, 2 <= N <= 15, one of the two
    address formats, and for STANDARD one token of 16 hex digits, for
    EXTENDED N tokens of 32 hex digits, for NO_ENCRYPTION no token; the
    random number generator is assumed to return as many bytes as it is
    asked for. *)
Theorem coordinator_round1_persists (u : cr1_user) (w w' : world) :
  heap_wf (settings w) = true ->
  (forall i n, length (random_bytes i n) = n) ->
  bsms_coordinator_round1_body u w = (Next tt, w') ->
  exists addr_fmt tokens,
    let s := CoordinatorSession (cr1_M u) (cr1_N u) addr_fmt (cr1_encryption_key u) tokens in
    BSMSSettings.get_coordinators (settings w')
      = (BSMSSettings.get_coordinators (settings w) ++ [s])%list /\
    coordinator_session_ok s.
Proof.
  intros Hwf Hrand Hrun. unfold bsms_coordinator_round1_body in Hrun.
  apply bind_next_inv in Hrun as (? & w1 & HN & Hrun).
  apply assert_next_inv in HN as [HN ->].
  apply bind_next_inv in Hrun as (? & w1 & HM & Hrun).
  apply assert_next_inv in HM as [HM ->].
  apply bind_next_inv in Hrun as (addr_fmt & w1 & Haf & Hrun).
  assert (Haf' : (addr_fmt = AF_P2WSH \/ addr_fmt = AF_P2WSH_P2SH) /\ w1 = w).
  { destruct (String.eqb (cr1_addr_fmt_key u) "y");
      [inversion Haf; auto|].
    destruct (String.eqb (cr1_addr_fmt_key u) "1");
      [inversion Haf; auto|discriminate Haf]. }
  destruct Haf' as [Haf' ->]. clear Haf.
  apply bind_next_inv in Hrun as (? & w1 & Het & Hrun).
  assert (w1 = w) as ->.
  { destruct (negb (Py.contains "123" (cr1_encryption_key u)));
      [discriminate Het|inversion Het; reflexivity]. }
  clear Het.
  apply bind_next_inv in Hrun as (tokens & w1 & Htok & Hrun).
  apply bind_next_inv in Hrun as (summary & w2 & Hsum & Hrun).
  apply lift_next_inv in Hsum as [Hsum ->].
  assert (Hmap : exists s, et_map (cr1_encryption_key u) = Some s).
  { unfold coordinator_summary in Hsum.
    destruct (et_map (cr1_encryption_key u)) as [s|]; [eauto|discriminate Hsum]. }
  destruct Hmap as [et_str Hmap]. apply et_map_Some in Hmap.
  assert (Htokens :
    settings w1 = settings w /\
    ((cr1_encryption_key u = "1" /\ length tokens = 1%nat /\
      Forall (fun t => pure_hex t = true /\ String.length t = 16%nat) tokens) \/
     (cr1_encryption_key u = "2" /\ Z.of_nat (length tokens) = cr1_N u /\
      Forall (fun t => pure_hex t = true /\ String.length t = 32%nat) tokens) \/
     (cr1_encryption_key u = "3" /\ tokens = []))).
  { apply andb_true_iff in HN as [HN2 HN15]. apply Z.leb_le in HN2.
    destruct Hmap as [He|[He|He]]; rewrite He in Htok; cbn in Htok.
    - inversion Htok; subst. split; [reflexivity|]. left.
      split; [exact He|]. split; [reflexivity|].
      constructor; [|constructor].
      destruct (b2a_hex_pure_hex (random_bytes (rng_calls w) 8)) as [Hp Hl].
      rewrite Hrand in Hl. split; [exact Hp|exact Hl].
    - apply (generate_tokens_inv _ Hrand) in Htok as (Hs & new & -> & Hlen & Hall).
      split; [exact Hs|]. right. left. split; [exact He|].
      cbn [app]. split; [rewrite Hlen; lia|exact Hall].
    - inversion Htok; subst. split; [reflexivity|]. right. right. auto. }
  destruct Htokens as [Hs1 Hshape].
  exists addr_fmt, tokens. cbn zeta. split.
  - match type of Hrun with
    | ?c w1 = _ =>
        assert (Happ : appends BSMSSettings.BSMS_COORD_SETTINGS
                         (CoordinatorSession (cr1_M u) (cr1_N u) addr_fmt
                            (cr1_encryption_key u) tokens) c)
    end.
    { repeat appends_step. }
    unfold BSMSSettings.get_coordinators. rewrite <- Hs1.
    apply (Happ w1 tt w'); [rewrite Hs1; exact Hwf|exact Hrun].
  - unfold coordinator_session_ok, MAX_SIGNERS in *.
    apply andb_true_iff in HN as [HN2 HN15]. apply andb_true_iff in HM as [HM1 HMN].
    apply Z.leb_le in HN2, HN15, HM1, HMN.
    split; [lia|]. split; [lia|]. split; [exact Haf'|exact Hshape].
Qed.

End RoundPersistence.

Lemma signer_round1_persists_witness :
  let r := bsms_signer_round1_body
             (NGU := Demo.ngu) (WALLET := Demo.wallet) (CHANNELS := Demo.channels)
             (Demo.signer1 "fedcba9876543210" "my key") (Demo.world0 Demo.store0) in
  heap_wf Demo.store0 = true /\
  fst r = Next tt /\
  BSMSSettings.get_signers (settings (snd r))
    = [SignerSession Demo.token_a; SignerSession "fedcba9876543210"].
Proof.
  intros r.
  assert (Hwf : heap_wf Demo.store0 = true) by (vm_compute; reflexivity).
  assert (Hfst : fst r = Next tt) by (vm_compute; reflexivity).
  split; [exact Hwf|]. split; [exact Hfst|].
  assert (Hrun : r = (Next tt, snd r)) by (rewrite <- Hfst; apply surjective_pairing).
  destruct (signer_round1_persists
              (NGU := Demo.ngu) (WALLET := Demo.wallet) (CHANNELS := Demo.channels)
              (Demo.signer1 "fedcba9876543210" "my key") (Demo.world0 Demo.store0) (snd r)
              Hwf Hrun) as (token_hex & Hread & _ & Hget).
  rewrite Hget. vm_compute in Hread. injection Hread as <-. vm_compute. reflexivity.
Defined.

Lemma demo_random_bytes_length i n : length (@random_bytes Demo.channels i n) = n.
Proof. apply repeat_length. Qed.

Lemma coordinator_round1_persists_witness :
  let r := bsms_coordinator_round1_body (CHANNELS := Demo.channels)
             (Demo.coordinator1 2 1) (Demo.world0 Demo.store0) in
  heap_wf Demo.store0 = true /\
  fst r = Next tt /\
  exists s,
    BSMSSettings.get_coordinators (settings (snd r)) = [s] /\ coordinator_session_ok s.
Proof.
  intros r.
  assert (Hwf : heap_wf Demo.store0 = true) by (vm_compute; reflexivity).
  assert (Hfst : fst r = Next tt) by (vm_compute; reflexivity).
  split; [exact Hwf|]. split; [exact Hfst|].
  assert (Hrun : r = (Next tt, snd r)) by (rewrite <- Hfst; apply surjective_pairing).
  destruct (coordinator_round1_persists (CHANNELS := Demo.channels)
              (Demo.coordinator1 2 1) (Demo.world0 Demo.store0) (snd r)
              Hwf demo_random_bytes_length Hrun) as (addr_fmt & tokens & Hget & Hok).
  eexists. split; [|exact Hok]. rewrite Hget. reflexivity.
Defined.

(** ** Signer, round 2: the check of the device's own key *)

Section OwnKey.
Context {NGU : Ngu} {WALLET : Wallet} {CHANNELS : Channels}.

Lemma sr2_collect_own ext_key_prefix my_xfp keys :
  forall my_keys nodes w my_keys' nodes' w',
    sr2_collect ext_key_prefix my_xfp keys my_keys nodes w = (Next (my_keys', nodes'), w') ->
    my_keys' = (my_keys ++ own_keys my_xfp keys)%list /\
    Forall (fun key => Py.startswith (snd key) ext_key_prefix = true) keys.
Proof.
  induction keys as [|[[xfp deriv_path] ext_key] keys IH];
    intros my_keys nodes w my_keys' nodes' w' Hrun.
  - cbn in Hrun. inversion Hrun; subst. rewrite app_nil_r. split; [reflexivity|constructor].
  - cbn [sr2_collect] in Hrun.
    apply bind_next_inv in Hrun as (? & wa & Hassert & Hrun).
    apply assert_next_inv in Hassert as [Hprefix ->].
    apply bind_next_inv in Hrun as (node1 & wb & Hnode & Hrun).
    apply lift_next_inv in Hnode as [Hnode ->].
    apply IH in Hrun as (-> & Hall).
    split; [|constructor; [exact Hprefix|exact Hall]].
    unfold own_keys. cbn [List.filter fst snd].
    destruct (bool_decide (Some xfp = my_xfp)); cbn [List.map fst snd];
      [rewrite <- app_assoc|]; reflexivity.
Qed.

(** X15.  A template that round 2 of a signer accepts has been checked
    for the key of the device: the text begins with the version, has four
    lines with the path restrictions "/0/*,/1/*" as the third, every key of
    the descriptor bears the prefix of the chain, the device has a
    fingerprint, and exactly one key stands under it, whose extended
    public key is the one the device derives at the path of that key. *)
Theorem template_own_key_checked (data : string) (w1 w2 : world) (t : template) :
  sr2_validate_template data w1 = (Next t, w2) ->
  Py.startswith data BSMS_VERSION = true /\
  (exists version desc_template,
     Py.split_on "010" data
       = [version; desc_template; ALLOWED_PATH_RESTRICTIONS; t_addr t]) /\
  Forall (fun key => Py.startswith (snd key) (slip132_classic_hint ++ "pub") = true)
         (d_keys (t_desc_obj t)) /\
  exists xfp deriv_path ext_key nd,
    cur_xfp (settings w1) = Some xfp /\
    own_keys (Some xfp) (d_keys (t_desc_obj t)) = [(deriv_path, ext_key)] /\
    derive_path deriv_path = Ok nd /\
    serialize_public nd = ext_key.
Proof.
  unfold sr2_validate_template. intros Hrun.
  apply bind_next_inv in Hrun as (? & wa & Hassert & Hrun).
  apply assert_next_inv in Hassert as [Hversion ->].
  destruct (Py.split_on "010" data)
    as [|version [|desc_template [|pth_restrictions [|addr [|]]]]]; try discriminate Hrun.
  apply bind_next_inv in Hrun as (? & wa & Hassert & Hrun).
  apply assert_next_inv in Hassert as [Hpth ->].
  apply String.eqb_eq in Hpth. subst pth_restrictions.
  apply bind_next_inv in Hrun as (desc_obj & wa & Hparse & Hrun).
  apply lift_next_inv in Hparse as [Hparse ->].
  rewrite bind_read_settings in Hrun.
  apply bind_next_inv in Hrun as ([my_keys nodes] & wa & Hcollect & Hrun).
  pose proof (sr2_collect_own _ _ _ _ _ _ _ _ _ Hcollect) as [Hmine Hprefix].
  apply sr2_collect_inv in Hcollect as (-> & _).
  cbn [app] in Hmine. subst my_keys. cbn [fst snd] in Hrun.
  apply bind_next_inv in Hrun as (? & wa & Hassert & Hrun).
  apply assert_xfp_next_inv in Hassert as [_ ->].
  apply bind_next_inv in Hrun as (? & wa & Hassert & Hrun).
  apply assert_xfp_next_inv in Hassert as [Hone ->].
  apply Nat.eqb_eq in Hone.
  destruct (own_keys (cur_xfp (settings w1)) (d_keys desc_obj))
    as [|[deriv_path desc_ext_key] [|]] eqn:Hown; try discriminate Hone.
  apply bind_next_inv in Hrun as (? & wa & Hsecret & Hrun).
  apply with_sensitive_values_next_inv in Hsecret as (wb & Hbody & ->).
  apply bind_next_inv in Hbody as (node1 & wc & Hnode & Hbody).
  apply lift_next_inv in Hnode as [Hnode ->].
  apply assert_next_inv in Hbody as [Hsame ->].
  apply String.eqb_eq in Hsame.
  cbn in Hrun. inversion Hrun; subst. cbn [t_addr t_desc_obj].
  split; [exact Hversion|]. split; [eauto|]. split; [exact Hprefix|].
  destruct (cur_xfp (settings w1)) as [xfp|] eqn:Hxfp.
  - exists xfp, deriv_path, (serialize_public node1), node1. auto.
  - exfalso. clear -Hown. unfold own_keys in Hown.
    assert (Hnone : forall keys : list (Z * string * string),
              List.filter (fun key => bool_decide (Some (fst (fst key)) = None)) keys = []).
    { induction keys as [|k keys IH]; [reflexivity|]. cbn. exact IH. }
    rewrite Hnone in Hown. discriminate Hown.
Qed.

End OwnKey.

Lemma template_own_key_checked_witness :
  sr2_validate_template (WALLET := Demo.wallet) Demo.demo_template (Demo.world0 Demo.store1)
    = (Next Demo.template1, Demo.world2) /\
  own_keys (Some 1) Demo.demo_keys = [("m/48'/1'/0'/2'", "tpubA")].
Proof.
  assert (Hvalid : sr2_validate_template (WALLET := Demo.wallet) Demo.demo_template
                     (Demo.world0 Demo.store1)
                   = (Next Demo.template1, Demo.world2)) by (vm_compute; reflexivity).
  split; [exact Hvalid|].
  destruct (template_own_key_checked (WALLET := Demo.wallet) _ _ _ _ Hvalid)
    as (_ & _ & _ & xfp & deriv_path & ext_key & nd & Hxfp & Hown & _).
  injection Hxfp as <-. reflexivity.
Defined.

(** ** Coordinator, round 2 *)

Lemma bytes_eqb_eq a b : bytes_eqb a b = true <-> a = b.
Proof.
  unfold bytes_eqb. rewrite String.eqb_eq. split; [|intros ->; reflexivity].
  intros H. rewrite <- (list_byte_of_string_of_list_byte a),
              <- (list_byte_of_string_of_list_byte b), H. reflexivity.
Qed.

Lemma list_item_in_range {A} (l : list A) (i : Z) :
  0 <= i < Z.of_nat (length l) -> exists x, Settings.list_item l i = Ok x /\ l !! Z.to_nat i = Some x.
Proof.
  intros Hi. unfold Settings.list_item.
  destruct (py_position_Some (length l) i) as [Hpos Hlt]; [lia|].
  rewrite Hpos. destruct (Z.ltb_spec i 0); [lia|].
  destruct (lookup_lt_is_Some_2 l (Z.to_nat i) Hlt) as [x Hx].
  rewrite Hx. eauto.
Qed.

Lemma accepted_hex_token t n :
  pure_hex t = true -> String.length t = n -> (n = 16 \/ n = 32)%nat ->
  validate_token t = Ok tt /\ normalize_token t = t.
Proof.
  intros Hp Hl Hn. split; [|exact (normalize_token_pure_hex t Hp)].
  assert (Hne : t <> "00") by (intros ->; cbn in Hl; lia).
  apply (validate_token_pure_hex t Hne Hp). rewrite (len_pure_hex t Hp). lia.
Qed.

(** X16.  For a coordinator session that is well formed, as round 1
    persists it, the token that round 2 assigns to the signer of an index
    below N is one that [validate_token] accepts and [normalize_token]
    leaves alone: the one token of STANDARD, the token at that index of
    EXTENDED, the sentinel "00" of NO_ENCRYPTION; and the round counts as
    encrypted exactly when the type is not NO_ENCRYPTION. *)
Theorem session_token_valid (M_ N addr_fmt : Z) (et : string) (tokens : list string) (i : Z) :
  coordinator_session_ok (CoordinatorSession M_ N addr_fmt et tokens) ->
  0 <= i < N ->
  (exists token,
     get_token N et tokens i = Ok token /\
     validate_token token = Ok tt /\ normalize_token token = token /\
     (et = "1" -> tokens = [token]) /\
     (et = "2" -> tokens !! Z.to_nat i = Some token) /\
     (et = "3" -> token = "00")) /\
  cr2_is_encrypted et tokens = negb (String.eqb et "3").
Proof.
  intros (HM & HN & _ & Hshape) Hi. unfold get_token, cr2_is_encrypted.
  destruct Hshape as [(-> & Hlen & Hall)|[(-> & Hlen & Hall)|(-> & ->)]].
  - destruct tokens as [|t [|]]; try discriminate Hlen.
    apply Forall_inv in Hall as [Hp Hl].
    destruct (accepted_hex_token t 16 Hp Hl) as [Hv Hn]; [auto|].
    split; [|reflexivity].
    exists t. cbn. repeat split; try assumption; try discriminate.
  - assert (Hne : (length tokens =? 1)%nat = false) by (apply Nat.eqb_neq; lia).
    rewrite Hne. cbn [andb]. rewrite Hlen, Z.eqb_refl. cbn [andb String.eqb Ascii.eqb Bool.eqb].
    destruct (list_item_in_range tokens i) as (t & Hitem & Hlook); [lia|].
    rewrite Hitem.
    pose proof (Forall_lookup_1 _ _ _ _ Hall Hlook) as [Hp Hl]. cbn beta in Hp, Hl.
    destruct (accepted_hex_token t 32 Hp Hl) as [Hv Hn]; [auto|].
    split.
    + exists t. repeat split; try assumption; try discriminate. intros _. exact Hlook.
    + destruct tokens; [cbn in Hlen; lia|reflexivity].
  - split; [|reflexivity].
    exists "00". cbn. rewrite andb_false_r. repeat split; discriminate.
Qed.

Lemma session_token_valid_witness :
  coordinator_session_ok
    (CoordinatorSession 2 2 AF_P2WSH "2"
       [DemoCoordinator.token_b; DemoCoordinator.token_c]) /\
  exists token,
    get_token 2 "2" [DemoCoordinator.token_b; DemoCoordinator.token_c] 1 = Ok token /\
    validate_token token = Ok tt.
Proof.
  assert (Hok : coordinator_session_ok
                  (CoordinatorSession 2 2 AF_P2WSH "2"
                     [DemoCoordinator.token_b; DemoCoordinator.token_c])).
  { cbn. split; [lia|]. split; [lia|]. split; [left; reflexivity|].
    right. left. split; [reflexivity|]. split; [reflexivity|].
    repeat constructor. }
  split; [exact Hok|].
  destruct (session_token_valid 2 2 AF_P2WSH "2" _ 1 Hok) as ((token & Hget & Hv & _) & _);
    [lia|].
  exists token. split; [exact Hget|exact Hv].
Defined.

Section CoordinatorRound2Properties.
Context {NGU : Ngu} {WALLET : Wallet} {CHANNELS : Channels} {TOOLS : CoordinatorTools}.

Lemma cr2_verify_one_iff N et tokens ext_key_prefix i data keys nodes w keys' nodes' w' :
  cr2_verify_one N et tokens ext_key_prefix i data keys nodes w = (Next (keys', nodes'), w')
  <->
  w' = w /\
  exists key nd,
    keys' = (keys ++ [key])%list /\ nodes' = (nodes ++ [nd])%list /\
    cr2_accepted N et tokens ext_key_prefix i data key nd.
Proof.
  unfold cr2_verify_one. split.
  - intros Hrun.
    apply bind_next_inv in Hrun as (? & wa & HN & Hrun).
    destruct (Z.eqb_spec N 0) as [|HN0]; [discriminate HN|].
    inversion HN; subst wa. clear HN.
    apply bind_next_inv in Hrun as (token & wa & Htoken & Hrun).
    apply lift_next_inv in Htoken as [Htoken ->].
    apply bind_next_inv in Hrun as (? & wa & Hassert & Hrun).
    apply assert_next_inv in Hassert as [Hversion ->].
    destruct (Py.split_on "010" (Py.strip data))
      as [|version [|tok [|key_exp [|description [|sig [|]]]]]] eqn:Hsplit;
      try discriminate Hrun.
    apply bind_next_inv in Hrun as (? & wa & Hassert & Hrun).
    apply assert_next_inv in Hassert as [Htok ->].
    apply String.eqb_eq in Htok. subst tok.
    apply bind_next_inv in Hrun as ([koi ext_key] & wa & Hparse & Hrun).
    apply lift_next_inv in Hparse as [Hparse ->]. cbn [fst snd] in Hrun.
    apply bind_next_inv in Hrun as (? & wa & Hassert & Hrun).
    apply assert_next_inv in Hassert as [Hprefix ->].
    apply bind_next_inv in Hrun as (nd & wa & Hnode & Hrun).
    apply lift_next_inv in Hnode as [Hnode ->].
    apply bind_next_inv in Hrun as (sig_bytes & wa & Hsig & Hrun).
    apply lift_next_inv in Hsig as [Hsig ->].
    apply bind_next_inv in Hrun as (recovered_pk & wa & Hrec & Hrun).
    apply lift_next_inv in Hrec as [Hrec ->].
    apply bind_next_inv in Hrun as (? & wa & Hassert & Hrun).
    apply assert_next_inv in Hassert as [Hpk ->].
    apply bytes_eqb_eq in Hpk. subst recovered_pk.
    inversion Hrun; subst. split; [reflexivity|].
    exists (Py.slice_to 8 koi, "m" ++ Py.slice_from 8 koi, ext_key), nd.
    split; [reflexivity|]. split; [reflexivity|].
    exists version, token, key_exp, description, sig, koi, sig_bytes.
    cbn [snd]. repeat split; assumption.
  - intros (-> & key & nd & -> & -> & Hacc).
    destruct Hacc as (version & token & key_exp & description & sig & koi & sig_bytes
                      & HN0 & Htoken & Hversion & Hsplit & Hparse & Hkey & Hprefix
                      & Hnode & Hsig & Hrec).
    destruct (Z.eqb_spec N 0) as [|_]; [contradiction|].
    rewrite bind_ret_l, Htoken. change (lift (Ok token)) with (ret token).
    rewrite bind_ret_l, Hversion, bind_assert_true, Hsplit, String.eqb_refl,
      bind_assert_true, Hparse.
    change (lift (Ok (koi, snd key))) with (ret (koi, snd key)).
    rewrite bind_ret_l. cbn [fst snd].
    rewrite Hprefix, bind_assert_true, Hnode.
    change (lift (Ok nd)) with (ret nd). rewrite bind_ret_l, Hsig.
    change (lift (Ok sig_bytes)) with (ret sig_bytes). rewrite bind_ret_l, Hrec.
    change (lift (Ok (hdnode_pubkey nd))) with (ret (hdnode_pubkey nd)).
    rewrite bind_ret_l.
    rewrite (proj2 (bytes_eqb_eq _ _) eq_refl), bind_assert_true.
    rewrite <- Hkey. reflexivity.
Qed.

(** X17.  The loop "Validating..." of round 2 goes on with the collected
    keys and nodes exactly when every round-1 text, in its order, begins
    with the version, has five lines after stripping, carries as its
    second line the token that the session assigns to its index, a key
    with the prefix of the chain that deserialises, and as its last line
    a signature from which, over the first four lines under that token,
    the public key of that very key is recovered; it then has appended
    one key and one node per text, and the world is as it was. *)
Theorem verify_loop_accepts_iff (N : Z) (et : string) (tokens : list string)
    (ext_key_prefix : string) (r1_data : list string) :
  forall (i : Z) (keys : list (string * string * string)) (nodes : list node)
         (w : world) keys' nodes' (w' : world),
    cr2_verify_loop N et tokens ext_key_prefix i r1_data keys nodes w
      = (Next (keys', nodes'), w')
    <->
    w' = w /\
    exists new_keys new_nodes,
      keys' = (keys ++ new_keys)%list /\ nodes' = (nodes ++ new_nodes)%list /\
      cr2_all_accepted N et tokens ext_key_prefix i r1_data new_keys new_nodes.
Proof.
  induction r1_data as [|data r1_data IH]; intros i keys nodes w keys' nodes' w'.
  - cbn [cr2_verify_loop]. split.
    + intros Hrun. inversion Hrun; subst. split; [reflexivity|].
      exists [], []. rewrite !app_nil_r. cbn. auto.
    + intros (-> & nk & nn & -> & -> & Hall).
      destruct nk, nn; cbn in Hall; try contradiction.
      rewrite !app_nil_r. reflexivity.
  - cbn [cr2_verify_loop]. split.
    + intros Hrun.
      apply bind_next_inv in Hrun as ([keys1 nodes1] & w1 & Hone & Hrun).
      apply cr2_verify_one_iff in Hone as (-> & key & nd & -> & -> & Hacc).
      cbn [fst snd] in Hrun.
      apply IH in Hrun as (-> & nk & nn & -> & -> & Hall).
      split; [reflexivity|].
      exists (key :: nk), (nd :: nn). rewrite <- !app_assoc.
      split; [reflexivity|]. split; [reflexivity|]. cbn. auto.
    + intros (-> & nk & nn & -> & -> & Hall).
      destruct nk as [|key nk], nn as [|nd nn]; cbn in Hall; try contradiction.
      destruct Hall as [Hacc Hall].
      assert (Hone : cr2_verify_one N et tokens ext_key_prefix i data keys nodes w
                     = (Next ((keys ++ [key])%list, (nodes ++ [nd])%list), w)).
      { apply cr2_verify_one_iff. split; [reflexivity|]. exists key, nd. auto. }
      rewrite (bind_next _ _ _ _ _ Hone). cbn [fst snd].
      apply IH. split; [reflexivity|].
      exists nk, nn. rewrite <- !app_assoc. auto.
Qed.



(** X19.  The text that round 1 of a signer signs and shares is accepted
    by the loop "Validating..." of the coordinator for the index whose
    token it bears: where the fields hold no line feed, the key expression
    parses to a key with the prefix of the chain that deserialises, the
    signature survives its base64 text, and the public key of that key is
    recovered from the signature over the digest of the unsigned text, the
    coordinator recomputes that very digest and appends the key and its
    node. *)
Theorem signed_round1_text_accepted (N : Z) (et : string) (tokens : list string)
    (i : Z) (token key_exp description koi ext_key : string) (sk : bytes) (nd : node)
    (keys : list (string * string * string)) (nodes : list node) (w : world) :
  let digest := hash_message (Py.encode (signer_data_round1 token key_exp description None)) in
  let sb := secp256k1_sign sk digest 0 in
  let sig := Py.strip (b2a_base64 sb) in
  N <> 0 ->
  get_token N et tokens i = Ok token ->
  no_lf token = true -> no_lf key_exp = true -> no_lf description = true ->
  no_lf sig = true -> sig <> "" ->
  parse_key_orig_info key_exp = Ok (koi, ext_key) ->
  Py.startswith ext_key (slip132_classic_hint ++ "pub") = true ->
  hdnode_deserialize ext_key = Ok nd ->
  a2b_base64 sig = Ok sb ->
  verify_recover_pubkey sb digest = Ok (hdnode_pubkey nd) ->
  cr2_verify_one N et tokens (slip132_classic_hint ++ "pub") i
    (signer_data_round1 token key_exp description (Some sb)) keys nodes w
  = (Next ((keys ++ [(Py.slice_to 8 koi, ("m" ++ Py.slice_from 8 koi)%string, ext_key)])%list,
           (nodes ++ [nd])%list), w).
Proof.
  intros digest sb sig HN Htoken Ht Hk Hd Hs Hne Hparse Hprefix Hnode Hsig Hrec.
  assert (Hlines : signer_data_round1 token key_exp description (Some sb)
                   = BSMS_VERSION ++ LF ++ token ++ LF ++ key_exp ++ LF ++ description ++ LF
                       ++ sig).
  { unfold signer_data_round1. fold sig. rewrite !append_assoc. reflexivity. }
  assert (Hstrip : Py.strip (signer_data_round1 token key_exp description (Some sb))
                   = signer_data_round1 token key_exp description (Some sb)).
  { rewrite Hlines. rewrite <- !append_assoc. unfold sig.
    change (((((((BSMS_VERSION ++ LF) ++ token) ++ LF) ++ key_exp) ++ LF)
               ++ description) ++ LF)
      with (String "B" (((((((("SMS 1.0" ++ LF) ++ token) ++ LF) ++ key_exp) ++ LF)
                           ++ description) ++ LF))).
    apply strip_kept; [reflexivity|exact Hne]. }
  apply cr2_verify_one_iff. split; [reflexivity|].
  eexists _, nd. split; [reflexivity|]. split; [reflexivity|].
  exists BSMS_VERSION, token, key_exp, description, sig, koi, sb.
  cbn [snd].
  split; [exact HN|]. split; [exact Htoken|].
  split; [rewrite Hlines; apply startswith_app|].
  split.
  { rewrite Hstrip, Hlines.
    rewrite !split_on_line by (assumption || reflexivity).
    rewrite split_on_no_lf by exact Hs. reflexivity. }
  split; [exact Hparse|]. split; [reflexivity|]. split; [exact Hprefix|].
  split; [exact Hnode|]. split; [exact Hsig|exact Hrec].
Qed.

End CoordinatorRound2Properties.



Lemma signed_round1_text_accepted_witness :
  cr2_verify_one (NGU := Demo.ngu) (WALLET := Demo.wallet) (TOOLS := DemoCoordinator.tools)
    2 "2" [DemoCoordinator.token_b; DemoCoordinator.token_c] "tpub" 0
    (DemoCoordinator.round1_text_a DemoCoordinator.token_b) [] []
    (Demo.world0 DemoCoordinator.store_c)
  = (Next ([("0f056943", "m/48'/1'/0'/2'", "tpubA")], ["tpubA"]),
     Demo.world0 DemoCoordinator.store_c).
Proof.
  apply (signed_round1_text_accepted
           (NGU := Demo.ngu) (WALLET := Demo.wallet) (TOOLS := DemoCoordinator.tools)
           2 "2" [DemoCoordinator.token_b; DemoCoordinator.token_c] 0
           DemoCoordinator.token_b DemoCoordinator.key_exp_a "ColdCard signer"
           "0f056943/48'/1'/0'/2'" "tpubA" (Py.encode "m/48'/1'/0'/2'") "tpubA" [] []
           (Demo.world0 DemoCoordinator.store_c));
    try (vm_compute; reflexivity); vm_compute; discriminate.
Defined.

(** ** Coordinator, round 2: what it leaves alone *)

Lemma confined_try_card {A} P (c : M A) : confined P c -> confined P (try_card c).
Proof.
  intros Hc w. unfold try_card. specialize (Hc w).
  destruct (c w) as [[a| |e] w1]; exact Hc.
Qed.

Section CoordinatorRound2Effects.
Context {NGU : Ngu} {WALLET : Wallet} {CHANNELS : Channels} {TOOLS : CoordinatorTools}.

Lemma confined_NFC_share_text text : confined export_event (NFC_share_text text).
Proof. unfold NFC_share_text. repeat confined_step. Qed.

Lemma confined_write_to fname data : confined export_event (write_to fname data).
Proof. unfold write_to. repeat confined_step. Qed.

Lemma confined_cr2_verify_loop P N et tokens ext_key_prefix r1_data :
  forall i keys nodes,
    confined P (cr2_verify_loop N et tokens ext_key_prefix i r1_data keys nodes).
Proof.
  induction r1_data as [|data r1_data IH]; intros i keys nodes; cbn [cr2_verify_loop];
    [apply confined_ret|].
  apply confined_bind; [|intros step; apply IH].
  unfold cr2_verify_one. repeat confined_step.
Qed.

Lemma confined_cr2_share_each u token_key_map r2_data tokens :
  forall i, confined export_event (cr2_share_each u token_key_map r2_data i tokens).
Proof.
  induction tokens as [|token tokens IH]; intros i; cbn [cr2_share_each];
    [apply confined_ret|].
  repeat first [apply IH | apply confined_NFC_share_text | confined_step].
Qed.

Lemma confined_cr2_write_each et suffix items :
  confined export_event (cr2_write_each et suffix items).
Proof.
  induction items as [|item items IH]; cbn [cr2_write_each]; [apply confined_ret|].
  apply confined_bind; [apply confined_lift|]. intros yielded.
  destruct (pick_filename _) as [fname nice].
  apply confined_bind; [apply confined_write_to|]. intros _. exact IH.
Qed.

(** X20.  Round 2 of a coordinator, from the validation of the collected
    round-1 texts to the end of the export, leaves the settings as they
    were, the coordinator session among them, draws no random bytes, opens
    no secrets and signs nothing: all it does to the outside is to share
    texts over NFC and to write files, however it ends. *)
Theorem coordinator_round2_effects (item_arg : Z) (r1_data : list string)
    (token_key_map : gmap string bytes) (u : cr2_user) (w : world) :
  let w' := snd (bsms_coordinator_round2_tail item_arg r1_data token_key_map u w) in
  settings w' = settings w /\
  rng_calls w' = rng_calls w /\
  exists evs, trace w' = (trace w ++ evs)%list /\ forallb export_event evs = true.
Proof.
  revert w. change (confined export_event
                      (bsms_coordinator_round2_tail item_arg r1_data token_key_map u)).
  unfold bsms_coordinator_round2_tail, cr2_assemble, cr2_export.
  repeat first [ apply confined_cr2_verify_loop | apply confined_cr2_share_each
               | apply confined_cr2_write_each | apply confined_NFC_share_text
               | apply confined_try_card | confined_step ].
Qed.

End CoordinatorRound2Effects.

(** ** Signer, round 1: what is signed and what is exported *)

Lemma try_card_next_inv {A} (c : M A) w a w' :
  try_card c w = (Next a, w') -> c w = (Next a, w').
Proof.
  unfold try_card. destruct (c w) as [[b| |e] w1]; intros H; try discriminate H; exact H.
Qed.

Lemma on_settings_next_trace {A} (f : store -> result A * store) w a w' :
  on_settings f w = (Next a, w') -> trace w' = trace w.
Proof.
  unfold on_settings. destruct (f (settings w)) as [[b|e] st]; intros H;
    inversion H; reflexivity.
Qed.

Lemma emit_inv ev w a w' :
  emit ev w = (Next a, w') ->
  w' = {| settings := settings w; trace := (trace w ++ [ev])%list; rng_calls := rng_calls w |}.
Proof. unfold emit. intros H. inversion H. reflexivity. Qed.

Section Round1Export.
Context {NGU : Ngu} {WALLET : Wallet} {CHANNELS : Channels}.

Lemma NFC_share_text_next_inv text w a w' :
  NFC_share_text text w = (Next a, w') -> trace w' = (trace w ++ [NfcShared text])%list.
Proof.
  unfold NFC_share_text. destruct nfc_present; [|discriminate].
  intros H. apply emit_inv in H. subst w'. reflexivity.
Qed.

Lemma write_to_next_inv fname data w a w' :
  write_to fname data w = (Next a, w') ->
  trace w' = (trace w ++ [FileWritten fname data])%list.
Proof.
  unfold write_to. intros H.
  apply bind_next_inv in H as (? & w1 & Hw & H).
  apply lift_next_inv in Hw as [_ ->].
  apply emit_inv in H. subst w'. reflexivity.
Qed.

(** X21.  When round 1 of a signer ends normally, what it has signed is
    the digest of the text of version, token, key expression and
    description, the token as [normalize_token] leaves it and the key
    derived at the chosen path, and what it has exported, once, over NFC or
    to a file, is that text with the signature as its last line: as it is
    when no key is derived from the token, and otherwise in the envelope
    under the key of the token, as hex digits over NFC.  These are the only
    events of the round besides the opening and closing of the secrets. *)
Theorem signer_round1_signs_what_it_exports (u : sr1_user) (w w' : world) :
  bsms_signer_round1_body u w = (Next tt, w') ->
  exists token_hex pth_template af_str nd encryption_key,
    let token := normalize_token token_hex in
    let dd := pth_template (Py.str_of_int b44_cointype) (Py.str_of_int (sr1_acct_num u)) in
    let desc_type_key :=
      "[" ++ xfp2str (Settings.get_xfp_or_0 (settings w)) ++ Py.slice_from 1 dd ++ "]"
          ++ serialize_public nd in
    let key_description := sr1_key_description af_str u in
    let digest :=
      hash_message (Py.encode (signer_data_round1 token desc_type_key key_description None)) in
    let text :=
      signer_data_round1 token desc_type_key key_description
        (Some (secp256k1_sign (hdnode_privkey nd) digest 0)) in
    fst (sr1_read_token u w) = Next token_hex /\
    sr1_path_choice (sr1_af_key u) = Some (pth_template, af_str) /\
    derive_path dd = Ok nd /\
    key_derivation_function token = Ok encryption_key /\
    exists exported,
      trace w' = (trace w ++ [SecretsOpened; Signed digest; SecretsClosed; exported])%list /\
      match encryption_key with
      | Some (k0 :: k') =>
          let envelope := bsms_encrypt (k0 :: k') token text in
          exported = NfcShared (Py.b2a_hex envelope) \/
          exists fname, exported = FileWritten fname envelope
      | _ =>
          exported = NfcShared text \/
          exists fname, exported = FileWritten fname (Py.encode text)
      end.
Proof.
  intros Hrun. unfold bsms_signer_round1_body in Hrun.
  apply bind_next_inv in Hrun as (token_hex & w1 & Hread & Hrun).
  pose proof (sr1_read_token_pure u w) as Hpure. rewrite Hread in Hpure.
  cbn [snd] in Hpure. subst w1.
  apply bind_next_inv in Hrun as ([] & w1 & Hval & Hrun).
  apply lift_next_inv in Hval as [Hval ->].
  apply bind_next_inv in Hrun as ([] & w1 & Hconf & Hrun).
  assert (w1 = w) as ->.
  { destruct (negb (String.eqb (sr1_confirm_key u) "y"));
      [discriminate Hconf|inversion Hconf; reflexivity]. }
  clear Hconf. rewrite bind_read_settings in Hrun.
  apply bind_next_inv in Hrun as ([pth_template af_str] & w1 & Hpth & Hrun).
  destruct (sr1_path_choice (sr1_af_key u)) as [choice|] eqn:Hchoice;
    [|discriminate Hpth].
  inversion Hpth; subst choice w1. clear Hpth. cbn [fst snd] in Hrun.
  apply bind_next_inv in Hrun as ([] & w1 & Hlen & Hrun).
  apply assert_next_inv in Hlen as [_ ->].
  apply bind_next_inv in Hrun as (result_data & w1 & Hsecret & Hrun).
  apply with_sensitive_values_next_inv in Hsecret as (w2 & Hbody & ->).
  apply bind_next_inv in Hbody as (nd & w3 & Hnode & Hbody).
  apply lift_next_inv in Hnode as [Hnode ->].
  apply bind_next_inv in Hbody as ([] & w3 & Hsigned & Hbody).
  apply emit_inv in Hsigned. subst w3.
  inversion Hbody; subst result_data w2. clear Hbody.
  apply bind_next_inv in Hrun as (encryption_key & w1 & Hkdf & Hrun).
  apply lift_next_inv in Hkdf as [Hkdf ->].
  exists token_hex, pth_template, af_str, nd, encryption_key. cbn zeta.
  split; [rewrite Hread; reflexivity|]. split; [reflexivity|].
  split; [exact Hnode|]. split; [exact Hkdf|].
  destruct (export_prompt_builder "BSMS signer round 1 file") as [prompt escape].
  apply bind_next_inv in Hrun as ([force_vdisk exported_data] & w1 & Hexp & Hrun).
  cbn [fst snd] in Hrun.
  apply bind_next_inv in Hrun as ([] & w2 & Hfile & Hrun).
  apply on_settings_next_trace in Hrun. rewrite Hrun. clear Hrun.
  cbn [settings trace rng_calls] in *.
  set (token := normalize_token token_hex) in *.
  set (digest := hash_message _) in *.
  set (text := signer_data_round1 _ _ _ (Some _)) in *.
  assert (Hcases :
    (force_vdisk = None /\
     trace w1 = (trace w ++ [SecretsOpened; Signed digest; SecretsClosed;
                             NfcShared (match encryption_key with
                                        | Some (k0 :: k') =>
                                            Py.b2a_hex (bsms_encrypt (k0 :: k') token text)
                                        | _ => text
                                        end)])%list) \/
    (exists fv,
       force_vdisk = Some fv /\
       trace w1 = (trace w ++ [SecretsOpened; Signed digest; SecretsClosed])%list /\
       exported_data = match encryption_key with
                       | Some (k0 :: k') => Binary (bsms_encrypt (k0 :: k') token text)
                       | _ => Text text
                       end)).
  { assert (Hfile_case : forall fv r,
              ret (Some fv, r) {| settings := settings w;
                                  trace := (((trace w ++ [SecretsOpened]) ++ [Signed digest])
                                              ++ [SecretsClosed])%list;
                                  rng_calls := rng_calls w |}
              = (Next (force_vdisk, exported_data), w1) ->
              force_vdisk = Some fv /\
              trace w1 = (trace w ++ [SecretsOpened; Signed digest; SecretsClosed])%list /\
              exported_data = r).
    { intros fv r H. inversion H; subst. cbn [trace]. rewrite <- !app_assoc. auto. }
    destruct (truthy prompt).
    - destruct (String.eqb (sr1_export_key u) "3").
      + left. apply bind_next_inv in Hexp as ([] & w3 & Hnfc & Hexp).
        apply NFC_share_text_next_inv in Hnfc.
        inversion Hexp; subst. split; [reflexivity|].
        rewrite Hnfc. cbn [trace]. rewrite <- !app_assoc. cbn [app].
        destruct encryption_key as [[|k0 k']|]; reflexivity.
      + right. destruct (String.eqb (sr1_export_key u) "2");
          [eexists; eapply Hfile_case; exact Hexp|].
        destruct (String.eqb (sr1_export_key u) "1"); [|discriminate Hexp].
        eexists; eapply Hfile_case; exact Hexp.
    - right. eexists; eapply Hfile_case; exact Hexp. }
  clear Hexp.
  destruct Hcases as [(-> & Htrace)|(fv & -> & Htrace & ->)].
  - inversion Hfile; subst w2. rewrite Htrace.
    eexists. split; [reflexivity|].
    destruct encryption_key as [[|k0 k']|]; left; reflexivity.
  - apply try_card_next_inv in Hfile.
    apply bind_next_inv in Hfile as (? & w3 & Hslot & Hfile).
    apply lift_next_inv in Hslot as [_ ->].
    destruct (pick_filename _) as [fname nice].
    apply write_to_next_inv in Hfile. rewrite Hfile, Htrace, <- app_assoc.
    eexists. split; [reflexivity|].
    destruct encryption_key as [[|k0 k']|]; right; eexists; reflexivity.
Qed.




End Round1Export.

Lemma signer_round1_signs_what_it_exports_witness :
  let r := bsms_signer_round1_body
             (NGU := Demo.ngu) (WALLET := Demo.wallet) (CHANNELS := Demo.channels)
             (Demo.signer1 "fedcba9876543210" "my key") (Demo.world0 Demo.store0) in
  fst r = Next tt /\ length (trace (snd r)) = 4%nat.
Proof.
  intros r.
  assert (Hfst : fst r = Next tt) by (vm_compute; reflexivity).
  split; [exact Hfst|].
  assert (Hrun : r = (Next tt, snd r)) by (rewrite <- Hfst; apply surjective_pairing).
  destruct (signer_round1_signs_what_it_exports
              (NGU := Demo.ngu) (WALLET := Demo.wallet) (CHANNELS := Demo.channels)
              (Demo.signer1 "fedcba9876543210" "my key") (Demo.world0 Demo.store0) (snd r)
              Hrun) as (? & ? & ? & ? & ? & _ & _ & _ & _ & exported & Htrace & _).
  rewrite Htrace. reflexivity.
Defined.


(** a coordinator who chooses no encryption has no token, and exports
    nothing, whatever the answer to the export prompt would be *)
Example coordinator_round1_no_tokens_no_export :
  let u := {| cr1_N := 2; cr1_M := 1; cr1_addr_fmt_key := "y";
              cr1_encryption_key := "3"; cr1_summary_key := "y";
              cr1_export_key := "3" |} in
  let r := bsms_coordinator_round1_body (CHANNELS := Demo.channels)
             u (Demo.world0 Demo.store0) in
  fst r = Next tt /\ trace (snd r) = [].
Proof.
  vm_compute. split; reflexivity.
Qed.

(** ** From the coordinator to the signer *)

Lemma split_on_nonempty sep s : Py.split_on sep s <> [].
Proof.
  destruct s as [|c s]; cbn [Py.split_on]; [discriminate|].
  destruct (Ascii.eqb c sep); [discriminate|].
  destruct (Py.split_on sep s); discriminate.
Qed.

Lemma split_on_app sep a b :
  Py.split_on sep (a ++ String sep b) = (Py.split_on sep a ++ Py.split_on sep b)%list.
Proof.
  induction a as [|c a IH].
  - rewrite append_nil_l. cbn [Py.split_on]. rewrite Ascii.eqb_refl. reflexivity.
  - rewrite append_cons. cbn [Py.split_on]. rewrite IH.
    destruct (Ascii.eqb c sep); [reflexivity|].
    destruct (Py.split_on sep a) as [|f fs] eqn:Ha; [|reflexivity].
    exfalso. exact (split_on_nonempty sep a Ha).
Qed.

Lemma split_on_single sep s x : Py.split_on sep s = [x] -> x = s.
Proof.
  revert x. induction s as [|c s IH]; intros x; cbn [Py.split_on].
  - intros [= <-]. reflexivity.
  - destruct (Ascii.eqb c sep).
    + intros H. injection H as _ H. exfalso. exact (split_on_nonempty sep s H).
    + destruct (Py.split_on sep s) as [|f fs] eqn:Hs; [intros [= <-]|].
      * exfalso. exact (split_on_nonempty sep s Hs).
      * intros H. injection H as <- ->. rewrite (IH f eq_refl). reflexivity.
Qed.

Lemma round2_text_four_lines desc addr pr v d p a :
  Py.split_on "010" (coordinator_data_round2 desc addr pr) = [v; d; p; a] ->
  v = BSMS_VERSION /\ d = desc /\ p = pr /\ a = addr.
Proof.
  rewrite coordinator_data_round2_lines. unfold LF.
  rewrite !append_cons, !append_nil_l, !split_on_app.
  change (Py.split_on "010" BSMS_VERSION) with [BSMS_VERSION].
  pose proof (split_on_nonempty "010" desc) as Hd.
  pose proof (split_on_nonempty "010" pr) as Hp.
  pose proof (split_on_nonempty "010" addr) as Ha.
  intros H. pose proof (f_equal (@length string) H) as Hlen.
  rewrite !length_app in Hlen. cbn [length] in Hlen.
  destruct (Py.split_on "010" desc) as [|d1 ds] eqn:Ed; [congruence|].
  destruct (Py.split_on "010" pr) as [|p1 ps] eqn:Ep; [congruence|].
  destruct (Py.split_on "010" addr) as [|a1 as_] eqn:Ea; [congruence|].
  cbn [length] in Hlen.
  destruct ds; [|cbn [length] in Hlen; lia].
  destruct ps; [|cbn [length] in Hlen; lia].
  destruct as_; [|cbn [length] in Hlen; lia].
  cbn [app] in H. injection H as <- <- <- <-.
  rewrite (split_on_single _ _ _ Ed), (split_on_single _ _ _ Ep),
    (split_on_single _ _ _ Ea). auto.
Qed.

Section CoordinatorToSigner.
Context {NGU : Ngu} {WALLET : Wallet} {CHANNELS : Channels} {TOOLS : CoordinatorTools}.

Lemma deserialized_nodes_agree :
  forall (keys : list (string * string * string)) (nodes : list node)
         (keys' : list (Z * string * string)) (nodes' : list node),
    Forall2 (fun key nd => hdnode_deserialize (snd key) = Ok nd) keys nodes ->
    Forall2 (fun key nd => hdnode_deserialize (snd key) = Ok nd) keys' nodes' ->
    List.map snd keys' = List.map snd keys ->
    nodes' = nodes.
Proof.
  intros keys nodes keys' nodes' H. revert keys' nodes'.
  induction H as [|key nd keys nodes Hk _ IH]; intros keys' nodes' H' Hmap.
  - destruct keys'; [|discriminate Hmap]. inversion H'. reflexivity.
  - destruct keys' as [|key' keys']; [discriminate Hmap|].
    cbn [List.map] in Hmap. injection Hmap as Hsnd Hmap.
    inversion H' as [|? nd' ? nodes'' Hk' Hrest]; subst.
    rewrite Hsnd, Hk in Hk'. injection Hk' as <-.
    f_equal. apply (IH keys' nodes'' Hrest Hmap).
Qed.

(** X23.  A round-2 text that the coordinator has assembled passes the
    address check of a signer: when the signer validates that very text and
    reads from its descriptor the threshold, the number of signers, which
    is not zero, the address format and the extended keys, in their order,
    that the coordinator assembled it from, the address the signer
    calculates is the address in the text, and nothing is raised. *)
Theorem assembled_template_passes_address_check
    (M_ N addr_fmt : Z) (keys : list (string * string * string)) (nodes : list node)
    (r2_data : string) (w w' ws ws' : world) (t : template) :
  cr2_assemble M_ N addr_fmt keys nodes w = (Next r2_data, w') ->
  Forall2 (fun key nd => hdnode_deserialize (snd key) = Ok nd) keys nodes ->
  sr2_validate_template r2_data ws = (Next t, ws') ->
  d_M (t_desc_obj t) = M_ ->
  d_N (t_desc_obj t) = N -> N <> 0 ->
  d_addr_fmt (t_desc_obj t) = addr_fmt ->
  List.map snd (d_keys (t_desc_obj t)) = List.map snd keys ->
  sr2_check_address t ws' = (Next tt, ws').
Proof.
  intros Hasm Hnodes Hvalid HM _ _ Haf Hkeys.
  unfold cr2_assemble in Hasm.
  apply bind_next_inv in Hasm as (desc & w1 & Hdesc & Hasm).
  apply lift_next_inv in Hdesc as [_ ->].
  apply bind_next_inv in Hasm as (script & w1 & Hscript & Hasm).
  apply lift_next_inv in Hscript as [Hscript ->].
  inversion Hasm; subst r2_data w'. clear Hasm.
  apply sr2_validate_template_inv in Hvalid
    as ((version & desc_template & pth & Hsplit) & _ & Hnodes' & _ & _).
  apply round2_text_four_lines in Hsplit as (_ & _ & _ & Haddr).
  pose proof (deserialized_nodes_agree _ _ _ _ Hnodes Hnodes' Hkeys) as Hsame.
  unfold sr2_check_address, sr2_first_address.
  rewrite Hsame, HM, Hscript, Haf.
  change (lift (Ok (p2sh_address addr_fmt script))) with (ret (p2sh_address addr_fmt script)).
  rewrite bind_ret_l, Haddr, String.eqb_refl. reflexivity.
Qed.

End CoordinatorToSigner.

Lemma assembled_template_passes_address_check_witness :
  cr2_assemble (WALLET := Demo.wallet) (TOOLS := DemoCoordinator.tools)
    2 2 AF_P2WSH DemoCoordinator.collected_keys ["tpubA"; "tpubB"]
    (Demo.world0 DemoCoordinator.store_c)
  = (Next DemoCoordinator.assembled_text, Demo.world0 DemoCoordinator.store_c) /\
  sr2_validate_template (WALLET := Demo.wallet) DemoCoordinator.assembled_text
    (Demo.world0 Demo.store1)
  = (Next DemoCoordinator.assembled_template, Demo.world2) /\
  sr2_check_address (WALLET := Demo.wallet) DemoCoordinator.assembled_template Demo.world2
  = (Next tt, Demo.world2).
Proof.
  assert (Hasm : cr2_assemble (WALLET := Demo.wallet) (TOOLS := DemoCoordinator.tools)
                   2 2 AF_P2WSH DemoCoordinator.collected_keys ["tpubA"; "tpubB"]
                   (Demo.world0 DemoCoordinator.store_c)
                 = (Next DemoCoordinator.assembled_text,
                    Demo.world0 DemoCoordinator.store_c)) by (vm_compute; reflexivity).
  assert (Hvalid : sr2_validate_template (WALLET := Demo.wallet)
                     DemoCoordinator.assembled_text (Demo.world0 Demo.store1)
                   = (Next DemoCoordinator.assembled_template, Demo.world2))
    by (vm_compute; reflexivity).
  split; [exact Hasm|]. split; [exact Hvalid|].
  apply (assembled_template_passes_address_check
           (WALLET := Demo.wallet) (TOOLS := DemoCoordinator.tools)
           2 2 AF_P2WSH DemoCoordinator.collected_keys ["tpubA"; "tpubB"]
           DemoCoordinator.assembled_text
           (Demo.world0 DemoCoordinator.store_c) (Demo.world0 DemoCoordinator.store_c)
           (Demo.world0 Demo.store1) Demo.world2 DemoCoordinator.assembled_template
           Hasm); [|exact Hvalid|reflexivity|reflexivity|discriminate
                   |reflexivity|reflexivity].
  repeat constructor.
Defined.

(** ** The coordinator of the small instance at work *)

Example coordinator_round2_writes_one_file_per_token :
  let r := bsms_coordinator_round2_tail
             (NGU := Demo.ngu) (WALLET := Demo.wallet) (CHANNELS := Demo.channels)
             (TOOLS := DemoCoordinator.tools) 0
             [DemoCoordinator.round1_text_a DemoCoordinator.token_b;
              DemoCoordinator.round1_text_b DemoCoordinator.token_c]
             DemoCoordinator.keys_of_tokens DemoCoordinator.user_files
             (Demo.world0 DemoCoordinator.store_c) in
  fst r = Next tt /\
  List.map (fun ev => match ev with FileWritten fname _ => fname | _ => "" end)
           (trace (snd r))
    = ["/sd/bsms_cr2_1111.dat"; "/sd/bsms_cr2_3333.dat"].
Proof. vm_compute. split; reflexivity. Qed.

Example coordinator_round2_rejects_swapped_texts :
  fst (bsms_coordinator_round2_tail
         (NGU := Demo.ngu) (WALLET := Demo.wallet) (CHANNELS := Demo.channels)
         (TOOLS := DemoCoordinator.tools) 0
         [DemoCoordinator.round1_text_b DemoCoordinator.token_c;
          DemoCoordinator.round1_text_a DemoCoordinator.token_b]
         DemoCoordinator.keys_of_tokens DemoCoordinator.user_files
         (Demo.world0 DemoCoordinator.store_c))
  = Throw (AssertionError ("Token missmatch saved " ++ DemoCoordinator.token_b
                             ++ ", received from signer " ++ DemoCoordinator.token_c)).
Proof. vm_compute. reflexivity. Qed.

Example coordinator_round2_rejects_foreign_signature :
  fst (cr2_verify_one
         (NGU := Demo.ngu) (WALLET := Demo.wallet) (TOOLS := DemoCoordinator.tools)
         2 "2" [DemoCoordinator.token_b; DemoCoordinator.token_c] "tpub" 0
         (@signer_data_round1 Demo.ngu DemoCoordinator.token_b DemoCoordinator.key_exp_a
            "ColdCard signer" (Some (DemoCoordinator.signature_b DemoCoordinator.token_b)))
         [] [] (Demo.world0 DemoCoordinator.store_c))
  = Throw (AssertionError
             "Recovered key from signature does not equal key provided. Wrong signature?").
Proof. vm_compute. reflexivity. Qed.
